(** * Oasis: the compose-file generator of [start.py]

    A shallow embedding of the topology compiler ([write_compose]), the
    document serializer ([dict_to_yaml]), the team generator
    ([generate_teams_array]) and the interactive configuration prompt
    ([config_input]) of [start.py], with the properties of the generated
    topology proved over it. *)

From Stdlib Require Import PrimFloat Ascii.
From stdpp Require Import base tactics option list numbers strings pretty gmap.

Open Scope string_scope.
Open Scope list_scope.
Open Scope Z_scope.

(** ** Python values *)

(** The values that reach [dict_to_yaml]: scalars, lists, and dictionaries
    with string keys.  A Python [dict] keeps its keys in insertion order, so a
    dictionary is an association list. *)

Inductive scalar : Type :=
  | SNone
  | SBool (b : bool)
  | SInt (z : Z)
  | SStr (s : string).

#[warnings="-register-all"]
Inductive pyval : Type :=
  | PScalar (s : scalar)
  | PList (items : list pyval)
  | PDict (items : list (string * pyval)).

Abbreviation dict := (list (string * pyval)).

Definition is_container (v : pyval) : bool :=
  match v with
  | PScalar _ => false
  | PList _ | PDict _ => true
  end.

Definition str (s : string) : pyval := PScalar (SStr s).
Definition int (z : Z) : pyval := PScalar (SInt z).

(** The newline and the double quote, which have no escape in a string
    literal. *)
Definition nl : string := String "010"%char "".
Definition dquote : string := String "034"%char "".

(** [str(x)] on a scalar, as an f-string formats it. *)
Definition py_str (s : scalar) : string :=
  match s with
  | SNone => "None"
  | SBool true => "True"
  | SBool false => "False"
  | SInt z => pretty z
  | SStr s => s
  end.

(** [s * n]: a negative count gives the empty string. *)
Fixpoint str_repeat (s : string) (n : nat) : string :=
  match n with
  | O => ""
  | S n => s +:+ str_repeat s n
  end.

Definition str_mul (s : string) (n : Z) : string := str_repeat s (Z.to_nat n).

Definition len (s : string) : Z := Z.of_nat (String.length s).

(** ** Dictionaries *)

Module Dict.

(** [d[k]], [None] standing for [KeyError]. *)
Fixpoint get (d : dict) (k : string) : option pyval :=
  match d with
  | [] => None
  | (k', v) :: d => if decide (k' = k) then Some v else get d k
  end.

(** [d[k] = v]: an existing key keeps its position and takes the new value,
    a new key goes last. *)
Fixpoint setitem (d : dict) (k : string) (v : pyval) : dict :=
  match d with
  | [] => [(k, v)]
  | (k', v') :: d =>
      if decide (k' = k) then (k', v) :: d else (k', v') :: setitem d k v
  end.

(** [d.update(e)], which is also what [**e] does inside a literal. *)
Definition update (d e : dict) : dict :=
  foldl (fun acc kv => setitem acc kv.1 kv.2) d e.

(** [{k: v for ...}] from the pairs the comprehension yields, in order. *)
Definition comprehension (kvs : dict) : dict := update [] kvs.

Definition keys (d : dict) : list string := d.*1.

(** The entries of a dictionary display: [k: v] or [**e]. *)
Inductive entry : Type :=
  | KV (k : string) (v : pyval)
  | Unpack (e : dict).

Definition add_entry (d : dict) (e : entry) : dict :=
  match e with
  | KV k v => setitem d k v
  | Unpack e => update d e
  end.

(** A dictionary display [{e1, e2, ...}], evaluated left to right. *)
Definition literal (es : list entry) : dict := foldl add_entry [] es.

End Dict.

Notation "k '~>' v" := (Dict.KV k v) (at level 69, no associativity).
Notation "'**' e" := (Dict.Unpack e) (at level 69, no associativity).

(** [v[k]] on a value, defined on dictionaries only. *)
Definition py_get (v : pyval) (k : string) : option pyval :=
  match v with
  | PDict d => Dict.get d k
  | _ => None
  end.

(** ** The serializer *)

Fixpoint dict_to_yaml (data : pyval)
    (indent_spaces base_indent additional_spaces : Z)
    (add_text_on_dict : option string) {struct data} : string :=
  let spaces := str_mul " " (indent_spaces * base_indent + additional_spaces) in
  match data with
  | PDict items =>
      (fix items_loop (items : dict) (spaces : string)
           (add_text_on_dict : option string) {struct items} : string :=
         match items with
         | [] => ""
         | (key, value) :: items =>
             let spaces :=
               match add_text_on_dict with
               | Some text =>
                   let spaces_len := len spaces - len text in
                   str_mul " " (Z.max spaces_len 0) +:+ text
               | None => spaces
               end in
             (match value with
              | PDict _ | PList _ =>
                  (spaces +:+ key +:+ ":" +:+ nl)
                  +:+ dict_to_yaml value indent_spaces (base_indent + 1)
                        additional_spaces None
              | PScalar s => spaces +:+ key +:+ ": " +:+ py_str s +:+ nl
              end)
             +:+ items_loop items
                   (str_mul " " (indent_spaces * base_indent + additional_spaces))
                   None
         end) items spaces add_text_on_dict
  | PList items =>
      (fix list_loop (items : list pyval) {struct items} : string :=
         match items with
         | [] => ""
         | item :: items =>
             (match item with
              | PDict _ =>
                  dict_to_yaml item indent_spaces base_indent
                    (additional_spaces + 2) (Some "- ")
              | PList _ =>
                  dict_to_yaml item indent_spaces (base_indent + 1)
                    additional_spaces None
              | PScalar s => spaces +:+ "- " +:+ py_str s +:+ nl
              end)
             +:+ list_loop items
         end) items
  | PScalar s => py_str s +:+ nl
  end.

(** The indentation of a key line in [dict_to_yaml]: [spaces], and for the
    first key of a mapping that is an element of a list, the marker in the
    place of the last columns of [spaces]. *)
Definition key_prefix (indent_spaces base_indent additional_spaces : Z)
    (add_text_on_dict : option string) : string :=
  let spaces := str_mul " " (indent_spaces * base_indent + additional_spaces) in
  match add_text_on_dict with
  | Some text => str_mul " " (Z.max (len spaces - len text) 0) +:+ text
  | None => spaces
  end.

(** ** The configuration model *)

Record PinEntry : Type := {
  pin : string;
  profile : Z;
}.

Record Team : Type := {
  id : Z;
  name : string;
  token : string;
  wireguard_port : Z;
  nop : bool;
  image : string;
  pins : list PinEntry;
}.

Record Config : Type := {
  wireguard_start_port : Z;
  wireguard_profiles : Z;
  server_addr : string;
  dns : string;
  tick_time : Z;
  flag_expire_ticks : Z;
  initial_service_score : Z;
  max_flags_per_request : Z;
  submission_timeout : float;
  network_limit_bandwidth : string;
  max_vm_cpus : string;
  max_vm_mem : string;
  gameserver_token : string;
  teams : list Team;
  unsafe_privileged : bool;
  start_time : option string;
  end_time : option string;
  max_disk_size : option string;
  gameserver_exposed_port : option string;
  debug : bool;
  pin_data_added : bool;
}.

(** The constants of [class g]. *)
Module g.
Definition composefile : string := "oasis-compose-tmp-file.yml".
Definition container_name : string := "oasis_gameserver".
Definition config_file : string := "config.json".
End g.

(** What [write_compose] reads from the machine it runs on: [os.getuid()],
    [os.getgid()] and [is_linux()]. *)
Record Host : Type := {
  getuid : Z;
  getgid : Z;
  is_linux : bool;
}.

(** The truth value of an [Optional[str]]: [None] and the empty string are
    false. *)
Definition truthy (o : option string) : bool :=
  match o with
  | Some s => bool_decide (s <> "")
  | None => false
  end.

(** ** The topology compiler *)

Section topology.
Variable host : Host.
Variable config : Config.

(** The value of [services.router.networks], lines 297-315. *)
Definition router_networks : dict :=
  Dict.literal [
    ** Dict.comprehension
         (map (fun team =>
                 ("vm-team" +:+ pretty (id team),
                  PDict (Dict.literal [
                    "priority" ~> int 10;
                    "ipv4_address" ~>
                      str ("10.60." +:+ pretty (id team) +:+ ".250")])))
              (teams config));
    "gameserver" ~> PDict (Dict.literal [
      "priority" ~> int 10;
      "ipv4_address" ~> str "10.10.0.250"]);
    "externalnet" ~> PDict (Dict.literal ["priority" ~> int 1]);
    ** Dict.comprehension
         (map (fun team =>
                 ("players" +:+ pretty (id team),
                  PDict (Dict.literal [
                    "priority" ~> int 10;
                    "ipv4_address" ~>
                      str ("10.80." +:+ pretty (id team) +:+ ".250")])))
              (filter (fun team => nop team = false) (teams config)))].

(** [services.router], lines 274-316. *)
Definition router_service : pyval :=
  PDict (Dict.literal [
    "hostname" ~> str "router";
    "dns" ~> PList [str (dns config)];
    "build" ~> str "./router";
    "cap_add" ~> PList [str "NET_ADMIN"; str "SYS_MODULE"; str "SYS_ADMIN"];
    "sysctls" ~> PList [
      str "net.ipv4.ip_forward=1";
      str "net.ipv4.tcp_timestamps=0";
      str "net.ipv4.conf.all.rp_filter=1";
      str "net.ipv6.conf.all.forwarding=0"];
    "environment" ~> PDict (Dict.literal [
      "NTEAM" ~> int (Z.of_nat (length (teams config)));
      "RATE_NET" ~> str (network_limit_bandwidth config)]);
    "volumes" ~> PList [str "unixsk:/unixsk"];
    "restart" ~> str "unless-stopped";
    "networks" ~> PDict router_networks]).

(** [services.database], lines 317-333. *)
Definition database_service : pyval :=
  PDict (Dict.literal [
    "hostname" ~> str "oasis-database";
    "dns" ~> PList [str (dns config)];
    "image" ~> str "postgres:17";
    "restart" ~> str "unless-stopped";
    "environment" ~> PDict (Dict.literal [
      "POSTGRES_USER" ~> str "oasis";
      "POSTGRES_PASSWORD" ~> str "oasis";
      "POSTGRES_DB" ~> str "oasis"]);
    "volumes" ~> PList [str "oasis-postgres-db:/var/lib/postgresql/data"];
    "networks" ~> PDict (Dict.literal ["internalnet" ~> str ""])]).

(** [services.gameserver], lines 334-367. *)
Definition gameserver_service : pyval :=
  PDict (Dict.literal [
    "hostname" ~> str "gameserver";
    "dns" ~> PList [str (dns config)];
    "build" ~> str "./game_server";
    "restart" ~> str "unless-stopped";
    "container_name" ~> str g.container_name;
    "cap_add" ~> PList [str "NET_ADMIN"];
    ** (match gameserver_exposed_port config with
        | Some port => Dict.literal ["ports" ~> PList [str (port +:+ ":80")]]
        | None => Dict.literal []
        end);
    "depends_on" ~> PList (
      str "router" ::
      str "database" ::
      map (fun team => str ("team" +:+ pretty (id team))) (teams config));
    "networks" ~> PDict (Dict.literal [
      "internalnet" ~> PDict (Dict.literal ["priority" ~> int 1]);
      "gameserver" ~> PDict (Dict.literal [
        "priority" ~> int 10;
        "ipv4_address" ~> str "10.10.0.1"])]);
    "volumes" ~> PList [
      str "./game_server/checkers:/app/checkers:z";
      str "unixsk:/unixsk";
      str ("./" +:+ g.config_file +:+ ":/app/" +:+ g.config_file +:+ ":z")]]).

(** The value of [services.team<id>], lines 369-394. *)
Definition team_service (team : Team) : pyval :=
  PDict (Dict.literal [
    "hostname" ~> str ("team" +:+ pretty (id team));
    "dns" ~> PList [str (dns config)];
    "build" ~> PDict (Dict.literal [
      "context" ~> str "./vm";
      "args" ~> PDict (Dict.literal ["TOKEN" ~> str (token team)])]);
    ** (if truthy (max_disk_size config)
        then Dict.literal [
               "storage_opt" ~> PDict (Dict.literal [
                 "size" ~> str (default "" (max_disk_size config))])]
        else Dict.literal []);
    ** (if unsafe_privileged config
        then Dict.literal ["privileged" ~> str "true"]
        else Dict.literal ["runtime" ~> str "sysbox-runc"]);
    "restart" ~> str "unless-stopped";
    "networks" ~> PDict (Dict.literal [
      "vm-team" +:+ pretty (id team) ~> PDict (Dict.literal [
        "ipv4_address" ~> str ("10.60." +:+ pretty (id team) +:+ ".1")])]);
    "deploy" ~> PDict (Dict.literal [
      "resources" ~> PDict (Dict.literal [
        "limits" ~> PDict (Dict.literal [
          "cpus" ~> str (dquote +:+ max_vm_cpus config +:+ dquote);
          "memory" ~> str (max_vm_mem config)])])])]).

(** The value of [services.wireguard<id>], lines 397-432. *)
Definition wireguard_service (team : Team) : pyval :=
  PDict (Dict.literal [
    "hostname" ~> str ("wireguard" +:+ pretty (id team));
    "dns" ~> PList [str (dns config)];
    "build" ~> str "./wireguard";
    "restart" ~> str "unless-stopped";
    "cap_add" ~> PList [str "NET_ADMIN"; str "SYS_MODULE"];
    "sysctls" ~> PList [
      str "net.ipv4.ip_forward=1";
      str "net.ipv4.conf.all.src_valid_mark=1"];
    "volumes" ~> PList [
      str ("./wireguard/conf" +:+ pretty (id team) +:+ ":/config:z")];
    "networks" ~> PDict (Dict.literal [
      "players" +:+ pretty (id team) ~> PDict (Dict.literal [
        "ipv4_address" ~> str ("10.80." +:+ pretty (id team) +:+ ".128")])]);
    "ports" ~> PList [
      str (pretty (wireguard_start_port config + id team) +:+ ":51820/udp")];
    "environment" ~> PDict (Dict.literal [
      "PUID" ~> int (if is_linux host then getuid host else 0);
      "PGID" ~> int (if is_linux host then getgid host else 0);
      "TZ" ~> str "Etc/UTC";
      "PEERS" ~> int (wireguard_profiles config);
      "PEERDNS" ~> str (dns config);
      "ALLOWEDIPS" ~> str "10.10.0.0/16, 10.60.0.0/16, 10.80.0.0/16";
      "SERVERURL" ~> str (server_addr config);
      "SERVERPORT" ~> int (wireguard_start_port config + id team);
      "INTERNAL_SUBNET" ~> str ("10.80." +:+ pretty (id team) +:+ ".0/24")])]).

(** [networks.gameserver], lines 442-454. *)
Definition gameserver_network : pyval :=
  PDict (Dict.literal [
    "internal" ~> str "true";
    "driver" ~> str "macvlan";
    "ipam" ~> PDict (Dict.literal [
      "driver" ~> str "default";
      "config" ~> PList [
        PDict (Dict.literal [
          "subnet" ~> str "10.10.0.0/24";
          "gateway" ~> str "10.10.0.254"])]])]).

(** The value of [networks.vm-team<id>], lines 456-468. *)
Definition vm_network (team : Team) : pyval :=
  PDict (Dict.literal [
    "internal" ~> str "true";
    "driver" ~> str "macvlan";
    "ipam" ~> PDict (Dict.literal [
      "driver" ~> str "default";
      "config" ~> PList [
        PDict (Dict.literal [
          "subnet" ~> str ("10.60." +:+ pretty (id team) +:+ ".0/24");
          "gateway" ~> str ("10.60." +:+ pretty (id team) +:+ ".254")])]])]).

(** The value of [networks.players<id>], lines 471-482. *)
Definition players_network (team : Team) : pyval :=
  PDict (Dict.literal [
    "driver" ~> str "bridge";
    "ipam" ~> PDict (Dict.literal [
      "driver" ~> str "default";
      "config" ~> PList [
        PDict (Dict.literal [
          "subnet" ~> str ("10.80." +:+ pretty (id team) +:+ ".0/24");
          "gateway" ~> str ("10.80." +:+ pretty (id team) +:+ ".254")])]])]).

(** The value of [services], lines 273-434. *)
Definition services : dict :=
  Dict.literal [
    "router" ~> router_service;
    "database" ~> database_service;
    "gameserver" ~> gameserver_service;
    ** Dict.comprehension
         (map (fun team => ("team" +:+ pretty (id team), team_service team))
              (teams config));
    ** Dict.comprehension
         (map (fun team =>
                 ("wireguard" +:+ pretty (id team), wireguard_service team))
              (filter (fun team => nop team = false) (teams config)))].

(** The value of [volumes], lines 435-438. *)
Definition volumes : dict :=
  Dict.literal [
    "unixsk" ~> str "";
    "oasis-postgres-db" ~> str ""].

(** The value of [networks], lines 439-484. *)
Definition networks : dict :=
  Dict.literal [
    "externalnet" ~> str "";
    "internalnet" ~> str "";
    "gameserver" ~> gameserver_network;
    ** Dict.comprehension
         (map (fun team => ("vm-team" +:+ pretty (id team), vm_network team))
              (teams config));
    ** Dict.comprehension
         (map (fun team =>
                 ("players" +:+ pretty (id team), players_network team))
              (filter (fun team => nop team = false) (teams config)))].

(** The dictionary that [write_compose] hands to [dict_to_yaml],
    lines 272-485. *)
Definition compose_topology : pyval :=
  PDict (Dict.literal [
    "services" ~> PDict services;
    "volumes" ~> PDict volumes;
    "networks" ~> PDict networks]).

End topology.

(** [write_compose]: the compose file is opened for writing (so truncated)
    and receives the rendered topology.  The file system maps a path to the
    text of the file. *)
Definition write_compose (host : Host) (config : Config)
    (fs : gmap string string) : gmap string string :=
  <[g.composefile :=
      dict_to_yaml (compose_topology host config) 4 0 0 None]> fs.

(** ** The serializer's rules, as a layout of lines *)

(** The rules of the document serializer, stated on their own: a value lays
    out as a list of lines, each a column and a text.  A nested mapping or
    sequence sits one [unit] to the right of the key (or sequence) that holds
    it; a mapping that is an element of a sequence has the marker put before
    its first line and its other lines moved right by the width of the marker;
    a key whose value is an empty mapping is a line of its own with nothing
    under it. *)
Module YamlSpec.

Definition line : Type := nat * string.

Definition shift (n : nat) (ls : list line) : list line :=
  map (fun l => (n + l.1, l.2)%nat) ls.

Definition marker : string := "- ".

Definition mark (ls : list line) : list line :=
  match ls with
  | [] => []
  | l :: ls => (l.1, marker +:+ l.2) :: shift (String.length marker) ls
  end.

Fixpoint lines (unit : nat) (v : pyval) {struct v} : list line :=
  match v with
  | PScalar s => [(O, py_str s)]
  | PDict entries =>
      (fix of_entries (entries : dict) : list line :=
         match entries with
         | [] => []
         | (key, value) :: entries =>
             (match value with
              | PScalar s => [(O, key +:+ ": " +:+ py_str s)]
              | PDict _ | PList _ =>
                  (O, key +:+ ":") :: shift unit (lines unit value)
              end)
             ++ of_entries entries
         end) entries
  | PList items =>
      (fix of_items (items : list pyval) : list line :=
         match items with
         | [] => []
         | item :: items =>
             (match item with
              | PScalar s => [(O, marker +:+ py_str s)]
              | PDict _ => mark (lines unit item)
              | PList _ => shift unit (lines unit item)
              end)
             ++ of_items items
         end) items
  end.

Fixpoint flatten (ls : list line) : string :=
  match ls with
  | [] => ""
  | l :: ls => str_repeat " " l.1 +:+ l.2 +:+ nl +:+ flatten ls
  end.

(** The text of a document, and of a value laid out from column [col]. *)
Definition render (unit : nat) (v : pyval) : string :=
  flatten (lines unit v).

Definition render_at (unit col : nat) (v : pyval) : string :=
  flatten (shift col (lines unit v)).

End YamlSpec.

(** ** What the program takes from the Python runtime *)

(** [secrets.token_hex] draws from a source of randomness, threaded as a
    state.  [int], [float] and [datetime.fromisoformat(s).isoformat()] are
    partial on strings: [None] stands for their [ValueError]. *)
Class Runtime : Type := {
  Rng : Type;
  token_hex : Z -> Rng -> string * Rng;
  py_int : string -> option Z;
  py_float : string -> option float;
  fromisoformat_isoformat : string -> option string;
}.

(** ** Team generation *)

Definition set_name (team : Team) (new_name : string) : Team :=
  {| id := id team; name := new_name; token := token team;
     wireguard_port := wireguard_port team; nop := nop team;
     image := image team; pins := pins team |}.

(** [range(n)]. *)
Definition range (n : Z) : list Z := seqZ 0 n.

Definition generate_teams_array `{Runtime} (number_of_teams : Z)
    (enable_nop_team : bool) (wireguard_start_port : Z) (rng : Rng)
    : list Team * Rng :=
  foldl
    (fun (st : list Team * Rng) (i : Z) =>
       let (teams, rng) := st in
       let (tok, rng) := token_hex 32 rng in
       let team :=
         {| id := i;
            name := "Team " +:+ pretty i;
            token := tok;
            wireguard_port := wireguard_start_port + i;
            nop := bool_decide (i = 0) && enable_nop_team;
            image := "";
            pins := [] |} in
       let team :=
         if bool_decide (i = 0) && enable_nop_team
         then set_name team "Nop Team"
         else team in
       (teams ++ [team], rng))
    ([], rng)
    (range (number_of_teams + (if enable_nop_team then 1 else 0))).

(** What the loop of [generate_teams_array] makes of the index [i]. *)
Definition generated (enable_nop_team : bool) (wireguard_start_port : Z)
    (i : Z) (team : Team) : Prop :=
  id team = i
  /\ wireguard_port team = wireguard_start_port + i
  /\ nop team = bool_decide (i = 0) && enable_nop_team
  /\ name team = (if bool_decide (i = 0) && enable_nop_team
                  then "Nop Team" else "Team " +:+ pretty i)
  /\ image team = "" /\ pins team = [].

(** ** Interactive input *)

(** Text is ASCII here.  [str.isspace], [str.lower], [str.strip] and
    [str.startswith] on it. *)
Definition isspace (c : ascii) : bool :=
  let n := nat_of_ascii c in
  ((9 <=? n) && (n <=? 13) || (28 <=? n) && (n <=? 32))%nat.

Definition lower_ascii (c : ascii) : ascii :=
  let n := nat_of_ascii c in
  if ((65 <=? n) && (n <=? 90))%nat then ascii_of_nat (n + 32) else c.

Fixpoint lower (s : string) : string :=
  match s with
  | "" => ""
  | String c s => String (lower_ascii c) (lower s)
  end.

Fixpoint lstrip (s : string) : string :=
  match s with
  | "" => ""
  | String c s' => if isspace c then lstrip s' else s
  end.

Definition strip (s : string) : string :=
  String.rev (lstrip (String.rev (lstrip s))).

Definition startswith (s prefix : string) : bool := String.prefix prefix s.

(** The command-line defaults that [config_input] offers, from [gen_args]. *)
Module args.
Record t : Type := {
  number_of_teams : Z;
  wireguard_start_port : Z;
  wireguard_profiles : Z;
  dns : string;
  tick_time : Z;
  flag_expire_ticks : Z;
  initial_service_score : Z;
  max_flags_per_request : Z;
  submission_timeout : float;
  network_limit_bandwidth : string;
  max_vm_cpus : string;
  max_vm_mem : string;
  max_disk_size : string;
  gameserver_port : string;
}.
End args.

Inductive exn : Type :=
  | EOFError
  | ValueError.

Section interactive.
Context `{rt : Runtime}.

(** What an interactive run consumes: the lines still to be read from the
    terminal and the source of randomness.  What it prints is left out. *)
Record World : Type := {
  stdin : list string;
  rng : Rng;
}.

(** A computation returns, raises, or is cut off when the fuel of a [while]
    loop runs out. *)
Inductive result (A : Type) : Type :=
  | Ok (a : A) (w : World)
  | Raise (e : exn)
  | OutOfFuel.
Arguments Ok {A} a w.
Arguments Raise {A} e.
Arguments OutOfFuel {A}.

Definition io (A : Type) : Type := World -> result A.

#[global] Instance io_ret : MRet io := fun A a w => Ok a w.
#[global] Instance io_bind : MBind io := fun A B f m w =>
  match m w with
  | Ok a w => f a w
  | Raise e => Raise e
  | OutOfFuel => OutOfFuel
  end.

Definition raise {A : Type} (e : exn) : io A := fun _ => Raise e.

(** [None] is the [ValueError] of a conversion. *)
Definition value_or {A : Type} (o : option A) : io A :=
  match o with
  | Some a => mret a
  | None => raise ValueError
  end.

(** [input(prompt)]: the next line, or [EOFError] at the end of input. *)
Definition input : io string := fun w =>
  match stdin w with
  | [] => Raise EOFError
  | line :: rest => Ok line {| stdin := rest; rng := rng w |}
  end.

Definition with_rng {A : Type} (f : Rng -> A * Rng) : io A := fun w =>
  let (a, r) := f (rng w) in Ok a {| stdin := stdin w; rng := r |}.

(** [while cond(s): s = body(s)]. *)
Fixpoint while {S : Type} (fuel : nat) (cond : S -> bool) (body : S -> io S)
    (s : S) : io S :=
  if cond s then
    match fuel with
    | O => fun _ => OutOfFuel
    | Datatypes.S fuel => s' ← body s; while fuel cond body s'
    end
  else mret s.

(** [get_input(prompt, default, is_required)]: the text typed, or the
    default when nothing is typed.  The prompt only decides what is
    printed. *)
Definition get_input {A : Type} (fuel : nat) (default : A)
    (is_required : bool) : io (string + A) :=
  line ← input;
  let value := strip line in
  if bool_decide (value <> "") then mret (inl value)
  else if is_required then
    value ← while fuel (fun value => bool_decide (value = ""))
              (fun _ => line ← input; mret (strip line)) value;
    mret (inl value)
  else mret (inr default).

(** An answer is the text typed or the default.  [int(x)] and [float(x)]
    convert the text and leave a default of the right type as it is. *)
Definition int_of (x : string + Z) : option Z :=
  match x with
  | inl s => py_int s
  | inr z => Some z
  end.

Definition float_of (x : string + float) : option float :=
  match x with
  | inl s => py_float s
  | inr f => Some f
  end.

(** An answer whose default is a string, and one whose default is [None]. *)
Definition text_of (x : string + string) : string :=
  match x with
  | inl s => s
  | inr d => d
  end.

Definition optional_of (x : string + option string) : option string :=
  match x with
  | inl s => Some s
  | inr d => d
  end.

(** [abs(int(get_input(prompt, default)))]. *)
Definition abs_int_input (fuel : nat) (default : Z) : io Z :=
  x ← get_input fuel default false;
  z ← value_or (int_of x);
  mret (Z.abs z).

(** [get_input(prompt, 'yes').lower().startswith('y')]. *)
Definition yes_input (fuel : nat) : io bool :=
  x ← get_input fuel "yes" false;
  mret (startswith (lower (text_of x)) "y").

Definition config_input (fuel : nat) (a : args.t) : io Config :=
  let default_number_of_teams := args.number_of_teams a in
  number_of_teams ← abs_int_input fuel default_number_of_teams;
  number_of_teams ←
    while fuel (fun n => (n <? 0) || (250 <=? n))
      (fun _ => abs_int_input fuel default_number_of_teams) number_of_teams;
  let default_wireguard_start_port := args.wireguard_start_port a in
  wireguard_start_port ← abs_int_input fuel default_wireguard_start_port;
  wireguard_start_port ←
    while fuel (fun p => (p <? 1) || (65535 - number_of_teams <? p))
      (fun _ => abs_int_input fuel default_wireguard_start_port)
      wireguard_start_port;
  wireguard_profiles ← abs_int_input fuel (args.wireguard_profiles a);
  server_addr ← get_input fuel None true;
  dns ← get_input fuel (args.dns a) false;
  start_time ← get_input fuel None false;
  end_time ← get_input fuel None false;
  tick_time ← abs_int_input fuel (args.tick_time a);
  flag_expire_ticks ← abs_int_input fuel (args.flag_expire_ticks a);
  initial_service_score ← abs_int_input fuel (args.initial_service_score a);
  max_flags_per_request ← abs_int_input fuel (args.max_flags_per_request a);
  submission_timeout ←
    (x ← get_input fuel (args.submission_timeout a) false;
     f ← value_or (float_of x);
     mret (abs f));
  network_limit_bandwidth ←
    get_input fuel (args.network_limit_bandwidth a) false;
  max_vm_cpus ← get_input fuel (args.max_vm_cpus a) false;
  max_vm_mem ← get_input fuel (args.max_vm_mem a) false;
  disk_limit ← yes_input fuel;
  max_disk_size ←
    (if (disk_limit : bool)
     then x ← get_input fuel (args.max_disk_size a) false;
          mret (Some (text_of x))
     else mret None);
  expose_gameserver ← yes_input fuel;
  gameserver_port ←
    (if (expose_gameserver : bool)
     then x ← get_input fuel (args.gameserver_port a) false;
          mret (text_of x)
     else mret (args.gameserver_port a));
  gameserver_token ← get_input fuel None false;
  enable_nop_team ← yes_input fuel;
  sysbox ← yes_input fuel;
  let privileged := negb sysbox in
  let gameserver_exposed_port :=
    if (expose_gameserver : bool) then Some gameserver_port else None in
  teams ←
    with_rng (generate_teams_array number_of_teams enable_nop_team
                wireguard_start_port);
  let iso (t : option string) : io (option string) :=
    if truthy t
    then s ← value_or (fromisoformat_isoformat (default "" t)); mret (Some s)
    else mret None in
  start_time ← iso (optional_of start_time);
  end_time ← iso (optional_of end_time);
  gameserver_token ←
    (if truthy (optional_of gameserver_token)
     then mret (default "" (optional_of gameserver_token))
     else with_rng (token_hex 32));
  mret {|
    wireguard_start_port := wireguard_start_port;
    wireguard_profiles := wireguard_profiles;
    server_addr := default "" (optional_of server_addr);
    dns := text_of dns;
    start_time := start_time;
    end_time := end_time;
    tick_time := tick_time;
    flag_expire_ticks := flag_expire_ticks;
    initial_service_score := initial_service_score;
    max_flags_per_request := max_flags_per_request;
    submission_timeout := submission_timeout;
    network_limit_bandwidth := text_of network_limit_bandwidth;
    max_vm_cpus := text_of max_vm_cpus;
    max_vm_mem := text_of max_vm_mem;
    max_disk_size := max_disk_size;
    gameserver_token := gameserver_token;
    unsafe_privileged := privileged;
    gameserver_exposed_port := gameserver_exposed_port;
    debug := false;
    pin_data_added := false;
    teams := teams;
  |}.

(** With more fuel than lines to read, [m] is not cut off, and it leaves no
    more lines than it found; [reads] when it leaves fewer. *)
Definition tame {A : Type} (fuel : nat) (m : io A) : Prop :=
  forall w, (length (stdin w) < fuel)%nat ->
    m w <> OutOfFuel
    /\ forall a w',
         m w = Ok a w' -> (length (stdin w') <= length (stdin w))%nat.

Definition reads {A : Type} (fuel : nat) (m : io A) : Prop :=
  forall w, (length (stdin w) < fuel)%nat ->
    m w <> OutOfFuel
    /\ forall a w',
         m w = Ok a w' -> (length (stdin w') < length (stdin w))%nat.

End interactive.

Arguments Ok {rt A} a w.
Arguments Raise {rt A} e.
Arguments OutOfFuel {rt A}.

(** ** Reading a topology *)

(** A path into a value: dictionary keys and list positions. *)
Inductive step : Type :=
  | Key (k : string)
  | Index (n : nat).

Definition py_step (v : pyval) (s : step) : option pyval :=
  match s, v with
  | Key k, PDict d => Dict.get d k
  | Index n, PList l => l !! n
  | _, _ => None
  end.

Fixpoint py_path (v : pyval) (p : list step) : option pyval :=
  match p with
  | [] => Some v
  | s :: p =>
      match py_step v s with
      | Some v => py_path v p
      | None => None
      end
  end.

(** The strings of a list value. *)
Definition strings (v : pyval) : list string :=
  match v with
  | PList l =>
      omap (fun x => match x with PScalar (SStr s) => Some s | _ => None end) l
  | _ => []
  end.

(** The names in a service's [depends_on], none if it has no such key. *)
Definition service_depends_on (service : pyval) : list string :=
  match py_get service "depends_on" with
  | Some v => strings v
  | None => []
  end.

(** The names of the networks a service is attached to. *)
Definition service_networks (service : pyval) : list string :=
  match py_get service "networks" with
  | Some (PDict d) => Dict.keys d
  | _ => []
  end.

(** The [SERVERPORT] of every service that has one, in the order of the
    services. *)
Definition allocated_ports (topology : pyval) : list Z :=
  match py_get topology "services" with
  | Some (PDict d) =>
      omap (fun kv =>
              match py_path kv.2 [Key "environment"; Key "SERVERPORT"] with
              | Some (PScalar (SInt port)) => Some port
              | _ => None
              end) d
  | _ => []
  end.

(** The largest VPN port of a config is past the last port number. *)
Definition port_overflow (config : Config) : Prop :=
  Exists (fun team => 65535 < wireguard_start_port config + id team)
    (teams config).

(** The uid and gid that reach the compose file. *)
Definition effective_uid (host : Host) : Z :=
  if is_linux host then getuid host else 0.
Definition effective_gid (host : Host) : Z :=
  if is_linux host then getgid host else 0.

(** ** Sample inputs *)

Module Sample.

Definition team (i : Z) (is_nop : bool) : Team :=
  {| id := i; name := "Team " +:+ pretty i; token := "c0ffee";
     wireguard_port := 51000 + i; nop := is_nop; image := ""; pins := [] |}.

Definition config (start_port : Z) (ts : list Team) : Config :=
  {| wireguard_start_port := start_port;
     wireguard_profiles := 30;
     server_addr := "203.0.113.7";
     dns := "1.1.1.1";
     tick_time := 120;
     flag_expire_ticks := 5;
     initial_service_score := 5000;
     max_flags_per_request := 3000;
     submission_timeout := 0.5%float;
     network_limit_bandwidth := "20mbit";
     max_vm_cpus := "1";
     max_vm_mem := "2G";
     gameserver_token := "feedbeef";
     teams := ts;
     unsafe_privileged := false;
     start_time := None;
     end_time := None;
     max_disk_size := Some "30G";
     gameserver_exposed_port := Some "127.0.0.1:8888";
     debug := false;
     pin_data_added := false |}.

(** A nop team and three playing teams. *)
Definition with_nop : Config :=
  config 51000 [team 0 true; team 1 false; team 2 false; team 3 false].

(** Five playing teams from port 65533: the last port would be 65537. *)
Definition overflow : Config :=
  config 65533 [team 0 false; team 1 false; team 2 false; team 3 false;
                team 4 false].

Definition no_teams : Config := config 51000 [].

Definition linux_user : Host :=
  {| getuid := 1000; getgid := 1000; is_linux := true |}.
Definition linux_root : Host :=
  {| getuid := 0; getgid := 0; is_linux := true |}.
Definition other_os : Host :=
  {| getuid := 501; getgid := 20; is_linux := false |}.

(** A runtime to run the interactive prompt with: tokens are numbered,
    [int] reads an optional sign and decimal digits. *)
Definition digit (c : ascii) : option Z :=
  let n := nat_of_ascii c in
  if ((48 <=? n) && (n <=? 57))%nat then Some (Z.of_nat (n - 48)) else None.

Fixpoint digits (acc : Z) (s : string) : option Z :=
  match s with
  | "" => Some acc
  | String c s =>
      match digit c with
      | Some d => digits (10 * acc + d) s
      | None => None
      end
  end.

Definition parse_int (s : string) : option Z :=
  match s with
  | "" => None
  | String "-" r => if bool_decide (r = "") then None else Z.opp <$> digits 0 r
  | _ => digits 0 s
  end.

Definition runtime : Runtime :=
  {| Rng := nat;
     token_hex := fun _ n => ("token" +:+ pretty n, S n);
     py_int := parse_int;
     py_float := fun _ => None;
     fromisoformat_isoformat := fun s => Some s |}.

Definition defaults : args.t :=
  {| args.number_of_teams := 4;
     args.wireguard_start_port := 51000;
     args.wireguard_profiles := 30;
     args.dns := "1.1.1.1";
     args.tick_time := 120;
     args.flag_expire_ticks := 5;
     args.initial_service_score := 5000;
     args.max_flags_per_request := 3000;
     args.submission_timeout := 0.5%float;
     args.network_limit_bandwidth := "20mbit";
     args.max_vm_cpus := "1";
     args.max_vm_mem := "2G";
     args.max_disk_size := "30G";
     args.gameserver_port := "127.0.0.1:8888" |}.

(** A session that first asks for 5 teams from port 65533, is asked again
    for the port, and then keeps every default. *)
Definition session : list string :=
  ["5"; "65533"; "65530"; ""; "203.0.113.7"; ""; ""; ""; ""; ""; ""; "";
   ""; ""; ""; ""; ""; ""; ""; ""; ""; ""; ""].

(** Four playing teams from port 51000, as [generate_teams_array] makes
    them. *)
Definition four_teams : Config :=
  config 51000 (@generate_teams_array runtime 4 false 51000 0%nat).1.

Definition world : @World runtime :=
  @Build_World runtime session 0%nat.

(** A value tree with an empty mapping inside a sequence of mappings. *)
Definition tree : pyval :=
  PDict [("jobs", PList [PDict [("name", str "a"); ("env", PDict [])];
                         PDict [("name", str "b")]])].

End Sample.

(** ** Configs as dictionaries *)

(** What [json.load] returns and [json.dump] takes. *)
#[warnings="-register-all"]
Inductive json : Type :=
  | JNull
  | JBool (b : bool)
  | JInt (z : Z)
  | JFloat (f : float)
  | JStr (s : string)
  | JList (l : list json)
  | JDict (d : list (string * json)).

Module Json.

Definition dict : Type := list (string * json).

Inductive error : Type :=
  | TypeError
  | AttributeError.

(** A call returns a value or raises. *)
Definition and_then {A B : Type} (m : error + A) (f : A -> error + B)
    : error + B :=
  match m with
  | inl e => inl e
  | inr a => f a
  end.

(** A comprehension: the first element that raises ends it. *)
Fixpoint traverse {A B : Type} (f : A -> error + B) (l : list A)
    : error + list B :=
  match l with
  | [] => inr []
  | x :: l =>
      and_then (f x) (fun y =>
      and_then (traverse f l) (fun ys => inr (y :: ys)))
  end.

Fixpoint get (d : dict) (k : string) : option json :=
  match d with
  | [] => None
  | (k', v) :: d => if decide (k' = k) then Some v else get d k
  end.

Definition remove (d : list (string * json)) (k : string)
    : list (string * json) :=
  filter (fun kv => kv.1 <> k) d.

(** [value.pop(k, default)]: the value of the key, or the default, and what
    is left of [value].  A list has a [pop] of one argument, the other values
    have none. *)
Definition pop (value : json) (k : string) (dflt : json)
    : error + json * json :=
  match value with
  | JDict d => inr (from_option (fun v => v) dflt (get d k), JDict (remove d k))
  | JList _ => inl TypeError
  | _ => inl AttributeError
  end.

(** [for x in value]: the elements of a list, the keys of a dictionary, the
    characters of a string. *)
Definition iter (value : json) : error + list json :=
  match value with
  | JList l => inr l
  | JDict d => inr (map (fun kv => JStr kv.1) d)
  | JStr s => inr (map (fun c => JStr (String c "")) (Stdlib.Strings.String.list_ascii_of_string s))
  | _ => inl TypeError
  end.

(** [value] unpacked into the keywords of a call. *)
Definition mapping (value : json) : error + dict :=
  match value with
  | JDict d => inr d
  | _ => inl TypeError
  end.

(** [value[k]], where there is one. *)
Definition item (value : json) (k : string) : option json :=
  match value with
  | JDict d => get d k
  | _ => None
  end.

(** A keyword argument: the value given, or the default of the field; a
    field with no default and no value is a [TypeError]. *)
Definition arg (kwargs : dict) (field : string) (dflt : option json)
    : error + json :=
  match get kwargs field with
  | Some v => inr v
  | None =>
      match dflt with
      | Some v => inr v
      | None => inl TypeError
      end
  end.

(** A keyword that is no field is a [TypeError]. *)
Definition expected (fields : list string) (kwargs : dict) : error + unit :=
  if forallb (fun k => bool_decide (k ∈ fields)) kwargs.*1
  then inr tt
  else inl TypeError.

End Json.

(** A dataclass does not check what it is given: an instance holds the
    values it was made with. *)
Record PinEntry_object : Type := {
  pin_value : json;
  profile_value : json;
}.

Record Team_object : Type := {
  id_value : json;
  name_value : json;
  token_value : json;
  wireguard_port_value : json;
  nop_value : json;
  image_value : json;
  pins_value : list PinEntry_object;
}.

Record Config_object : Type := {
  wireguard_start_port_value : json;
  wireguard_profiles_value : json;
  server_addr_value : json;
  dns_value : json;
  tick_time_value : json;
  flag_expire_ticks_value : json;
  initial_service_score_value : json;
  max_flags_per_request_value : json;
  submission_timeout_value : json;
  network_limit_bandwidth_value : json;
  max_vm_cpus_value : json;
  max_vm_mem_value : json;
  gameserver_token_value : json;
  teams_value : list Team_object;
  unsafe_privileged_value : json;
  start_time_value : json;
  end_time_value : json;
  max_disk_size_value : json;
  gameserver_exposed_port_value : json;
  debug_value : json;
  pin_data_added_value : json;
}.

Notation "'let?' x := m 'in' f" := (Json.and_then m (fun x => f))
  (at level 10, x name, m at level 100, f at level 200, only parsing).

(** [PinEntry] called with the keywords [kwargs]. *)
Definition PinEntry_init (kwargs : Json.dict) : Json.error + PinEntry_object :=
  let? _ := Json.expected ["pin"; "profile"] kwargs in
  let? pin := Json.arg kwargs "pin" None in
  let? profile := Json.arg kwargs "profile" None in
  inr {| pin_value := pin; profile_value := profile |}.

(** [Team] called with [pins=pins] and the keywords [kwargs]. *)
Definition Team_init (pins : list PinEntry_object) (kwargs : Json.dict)
    : Json.error + Team_object :=
  let? _ := Json.expected
              ["id"; "name"; "token"; "wireguard_port"; "nop"; "image"]
              kwargs in
  let? id := Json.arg kwargs "id" None in
  let? name := Json.arg kwargs "name" None in
  let? token := Json.arg kwargs "token" None in
  let? wireguard_port := Json.arg kwargs "wireguard_port" None in
  let? nop := Json.arg kwargs "nop" (Some (JBool false)) in
  let? image := Json.arg kwargs "image" (Some (JStr "")) in
  inr {| id_value := id; name_value := name; token_value := token;
         wireguard_port_value := wireguard_port; nop_value := nop;
         image_value := image; pins_value := pins |}.

(** The fields of [Config] other than [teams]. *)
Definition Config_fields : list string :=
  ["wireguard_start_port"; "wireguard_profiles"; "server_addr"; "dns";
   "tick_time"; "flag_expire_ticks"; "initial_service_score";
   "max_flags_per_request"; "submission_timeout"; "network_limit_bandwidth";
   "max_vm_cpus"; "max_vm_mem"; "gameserver_token"; "unsafe_privileged";
   "start_time"; "end_time"; "max_disk_size"; "gameserver_exposed_port";
   "debug"; "pin_data_added"].

(** [Config] called with the keywords [kwargs] and [teams=teams]. *)
Definition Config_init (kwargs : Json.dict) (teams : list Team_object)
    : Json.error + Config_object :=
  let? _ := Json.expected Config_fields kwargs in
  let? wireguard_start_port := Json.arg kwargs "wireguard_start_port" None in
  let? wireguard_profiles := Json.arg kwargs "wireguard_profiles" None in
  let? server_addr := Json.arg kwargs "server_addr" None in
  let? dns := Json.arg kwargs "dns" None in
  let? tick_time := Json.arg kwargs "tick_time" None in
  let? flag_expire_ticks := Json.arg kwargs "flag_expire_ticks" None in
  let? initial_service_score :=
    Json.arg kwargs "initial_service_score" None in
  let? max_flags_per_request :=
    Json.arg kwargs "max_flags_per_request" None in
  let? submission_timeout := Json.arg kwargs "submission_timeout" None in
  let? network_limit_bandwidth :=
    Json.arg kwargs "network_limit_bandwidth" None in
  let? max_vm_cpus := Json.arg kwargs "max_vm_cpus" None in
  let? max_vm_mem := Json.arg kwargs "max_vm_mem" None in
  let? gameserver_token := Json.arg kwargs "gameserver_token" None in
  let? unsafe_privileged :=
    Json.arg kwargs "unsafe_privileged" (Some (JBool false)) in
  let? start_time := Json.arg kwargs "start_time" (Some JNull) in
  let? end_time := Json.arg kwargs "end_time" (Some JNull) in
  let? max_disk_size := Json.arg kwargs "max_disk_size" (Some JNull) in
  let? gameserver_exposed_port :=
    Json.arg kwargs "gameserver_exposed_port" (Some JNull) in
  let? debug := Json.arg kwargs "debug" (Some (JBool false)) in
  let? pin_data_added := Json.arg kwargs "pin_data_added" (Some (JBool false)) in
  inr {| wireguard_start_port_value := wireguard_start_port;
         wireguard_profiles_value := wireguard_profiles;
         server_addr_value := server_addr;
         dns_value := dns;
         tick_time_value := tick_time;
         flag_expire_ticks_value := flag_expire_ticks;
         initial_service_score_value := initial_service_score;
         max_flags_per_request_value := max_flags_per_request;
         submission_timeout_value := submission_timeout;
         network_limit_bandwidth_value := network_limit_bandwidth;
         max_vm_cpus_value := max_vm_cpus;
         max_vm_mem_value := max_vm_mem;
         gameserver_token_value := gameserver_token;
         teams_value := teams;
         unsafe_privileged_value := unsafe_privileged;
         start_time_value := start_time;
         end_time_value := end_time;
         max_disk_size_value := max_disk_size;
         gameserver_exposed_port_value := gameserver_exposed_port;
         debug_value := debug;
         pin_data_added_value := pin_data_added |}.

(** One team of the comprehension of lines 60-62: [pins] is popped out of
    the team's dictionary, every pin is unpacked into a [PinEntry], and what
    is left of the dictionary is unpacked into the [Team]. *)
Definition team_from_dict (team : json) : Json.error + Team_object :=
  let? popped := Json.pop team "pins" (JList []) in
  let pins_data := popped.1 in
  let team := popped.2 in
  let? pin_items := Json.iter pins_data in
  let? pins :=
    Json.traverse (fun pin =>
                     let? kwargs := Json.mapping pin in PinEntry_init kwargs)
      pin_items in
  let? kwargs := Json.mapping team in
  Team_init pins kwargs.

(** [Config.from_dict(data)], lines 57-64: the config, or the exception
    raised, and what the call leaves of [data], the caller's dictionary, out
    of which [teams] is popped. *)
Definition from_dict (data : json) : (Json.error + Config_object) * json :=
  match Json.pop data "teams" (JList []) with
  | inl e => (inl e, data)
  | inr (teams_data, data) =>
      (let? team_items := Json.iter teams_data in
       let? teams := Json.traverse team_from_dict team_items in
       let? kwargs := Json.mapping data in
       Config_init kwargs teams,
       data)
  end.

(** [dataclasses.asdict]: the fields in the order of the class. *)
Definition PinEntry_asdict (entry : PinEntry_object) : json :=
  JDict [("pin", pin_value entry); ("profile", profile_value entry)].

Definition Team_asdict (team : Team_object) : json :=
  JDict [("id", id_value team);
         ("name", name_value team);
         ("token", token_value team);
         ("wireguard_port", wireguard_port_value team);
         ("nop", nop_value team);
         ("image", image_value team);
         ("pins", JList (map PinEntry_asdict (pins_value team)))].

Definition asdict (config : Config_object) : json :=
  JDict [("wireguard_start_port", wireguard_start_port_value config);
         ("wireguard_profiles", wireguard_profiles_value config);
         ("server_addr", server_addr_value config);
         ("dns", dns_value config);
         ("tick_time", tick_time_value config);
         ("flag_expire_ticks", flag_expire_ticks_value config);
         ("initial_service_score", initial_service_score_value config);
         ("max_flags_per_request", max_flags_per_request_value config);
         ("submission_timeout", submission_timeout_value config);
         ("network_limit_bandwidth", network_limit_bandwidth_value config);
         ("max_vm_cpus", max_vm_cpus_value config);
         ("max_vm_mem", max_vm_mem_value config);
         ("gameserver_token", gameserver_token_value config);
         ("teams", JList (map Team_asdict (teams_value config)));
         ("unsafe_privileged", unsafe_privileged_value config);
         ("start_time", start_time_value config);
         ("end_time", end_time_value config);
         ("max_disk_size", max_disk_size_value config);
         ("gameserver_exposed_port", gameserver_exposed_port_value config);
         ("debug", debug_value config);
         ("pin_data_added", pin_data_added_value config)].

(** The instance that holds the values of a well-typed config. *)
Definition optional (o : option string) : json :=
  match o with
  | Some s => JStr s
  | None => JNull
  end.

Definition PinEntry_instance (entry : PinEntry) : PinEntry_object :=
  {| pin_value := JStr (pin entry); profile_value := JInt (profile entry) |}.

Definition Team_instance (team : Team) : Team_object :=
  {| id_value := JInt (id team);
     name_value := JStr (name team);
     token_value := JStr (token team);
     wireguard_port_value := JInt (wireguard_port team);
     nop_value := JBool (nop team);
     image_value := JStr (image team);
     pins_value := map PinEntry_instance (pins team) |}.

Definition Config_instance (config : Config) : Config_object :=
  {| wireguard_start_port_value := JInt (wireguard_start_port config);
     wireguard_profiles_value := JInt (wireguard_profiles config);
     server_addr_value := JStr (server_addr config);
     dns_value := JStr (dns config);
     tick_time_value := JInt (tick_time config);
     flag_expire_ticks_value := JInt (flag_expire_ticks config);
     initial_service_score_value := JInt (initial_service_score config);
     max_flags_per_request_value := JInt (max_flags_per_request config);
     submission_timeout_value := JFloat (submission_timeout config);
     network_limit_bandwidth_value := JStr (network_limit_bandwidth config);
     max_vm_cpus_value := JStr (max_vm_cpus config);
     max_vm_mem_value := JStr (max_vm_mem config);
     gameserver_token_value := JStr (gameserver_token config);
     teams_value := map Team_instance (teams config);
     unsafe_privileged_value := JBool (unsafe_privileged config);
     start_time_value := optional (start_time config);
     end_time_value := optional (end_time config);
     max_disk_size_value := optional (max_disk_size config);
     gameserver_exposed_port_value :=
       optional (gameserver_exposed_port config);
     debug_value := JBool (debug config);
     pin_data_added_value := JBool (pin_data_added config) |}.

(** [Config.to_dict], lines 71-72. *)
Definition to_dict (config : Config) : json := asdict (Config_instance config).

(** A config object with other teams. *)
Definition with_teams (config : Config_object) (teams : list Team_object)
    : Config_object :=
  {| wireguard_start_port_value := wireguard_start_port_value config;
     wireguard_profiles_value := wireguard_profiles_value config;
     server_addr_value := server_addr_value config;
     dns_value := dns_value config;
     tick_time_value := tick_time_value config;
     flag_expire_ticks_value := flag_expire_ticks_value config;
     initial_service_score_value := initial_service_score_value config;
     max_flags_per_request_value := max_flags_per_request_value config;
     submission_timeout_value := submission_timeout_value config;
     network_limit_bandwidth_value := network_limit_bandwidth_value config;
     max_vm_cpus_value := max_vm_cpus_value config;
     max_vm_mem_value := max_vm_mem_value config;
     gameserver_token_value := gameserver_token_value config;
     teams_value := teams;
     unsafe_privileged_value := unsafe_privileged_value config;
     start_time_value := start_time_value config;
     end_time_value := end_time_value config;
     max_disk_size_value := max_disk_size_value config;
     gameserver_exposed_port_value := gameserver_exposed_port_value config;
     debug_value := debug_value config;
     pin_data_added_value := pin_data_added_value config |}.

(** ** The commands *)

(** [main] and what it calls talk to docker, to the file system and to the
    terminal.  A program here is what the code asks of them, request by
    request, each answer deciding how it goes on.  What is printed is left
    out. *)
Module Cli.

(** The other constants of [class g], and [use_build_on_compose]. *)
Definition keep_file : bool := false.
Definition compose_project_name : string := "oasis".
Definition prebuild_image : string := "oasis-prebuilder".
Definition prebuilded_container : string := "oasis-prebuilded".
Definition prebuilt_image : string := "oasis-vm-base".
Definition use_build_on_compose : bool := true.

(** [sub in s]. *)
Fixpoint contains (s sub : string) : bool :=
  startswith s sub ||
  match s with
  | "" => false
  | String _ s' => contains s' sub
  end.

(** [sep.join(l)]. *)
Fixpoint join (sep : string) (l : list string) : string :=
  match l with
  | [] => ""
  | [x] => x
  | x :: l => x +:+ sep +:+ join sep l
  end.

(** The calls out of the program:
    - [Call]: [subprocess.call(program, shell=True) == 0], as [cmd_check]
      makes it, with its [print_output] and [no_stderr];
    - [Getoutput]: [subprocess.getoutput(program)];
    - [System]: [os.system(command)];
    - [Isfile], [Listdir], [Remove]: [os.path.isfile], [os.listdir],
      [os.remove];
    - [Rmtree]: [shutil.rmtree(path, ignore_errors=True)];
    - [Input]: [input()];
    - [ConfigInput]: [config_input()], with the defaults of the command line;
    - [SaveToFile]: [config.save_to_file(path)];
    - [FromJsonFile]: [Config.from_json_file(path)];
    - [WriteText]: the file is opened for writing and receives the text. *)
Inductive request : Type :=
  | Call (program : string) (print_output no_stderr : bool)
  | Getoutput (program : string)
  | System (command : string)
  | Isfile (path : string)
  | Listdir (path : string)
  | Remove (path : string)
  | Rmtree (path : string)
  | Input
  | ConfigInput (a : args.t)
  | SaveToFile (config : Config) (path : string)
  | FromJsonFile (path : string)
  | WriteText (path : string) (text : string).

Definition answer (r : request) : Type :=
  match r with
  | Call _ _ _ => bool
  | Getoutput _ => string
  | System _ => Z
  | Isfile _ => bool
  | Listdir _ => list string
  | Remove _ => unit
  | Rmtree _ => unit
  | Input => string
  | ConfigInput _ => Config
  | SaveToFile _ _ => unit
  | FromJsonFile _ => Config
  | WriteText _ _ => unit
  end.

(** A call returns or raises.  The code tells [FileNotFoundError] from the
    other exceptions. *)
Inductive exception : Type :=
  | FileNotFoundError
  | OtherError.

Inductive reply (X : Type) : Type :=
  | Value (x : X)
  | Throw (e : exception).
Arguments Value {X} x.
Arguments Throw {X} e.

(** How a program ends: it returns, it leaves through [exit(code)], or an
    exception goes up. *)
Inductive outcome (A : Type) : Type :=
  | Returned (a : A)
  | Exited (code : option Z)
  | Raised (e : exception).
Arguments Returned {A} a.
Arguments Exited {A} code.
Arguments Raised {A} e.

Inductive prog (A : Type) : Type :=
  | Ret (o : outcome A)
  | Ask (r : request) (k : reply (answer r) -> prog A).
Arguments Ret {A} o.
Arguments Ask {A} r k.

Fixpoint bind {A B : Type} (m : prog A) (f : A -> prog B) : prog B :=
  match m with
  | Ret (Returned a) => f a
  | Ret (Exited code) => Ret (Exited code)
  | Ret (Raised e) => Ret (Raised e)
  | Ask r k => Ask r (fun a => bind (k a) f)
  end.

Definition ret {A : Type} (a : A) : prog A := Ret (Returned a).

Local Notation "'let*' x := m 'in' f" := (bind m (fun x => f))
  (at level 10, x name, m at level 100, f at level 200, only parsing).
Local Notation "'do' m 'then' f" := (bind m (fun _ => f))
  (at level 10, m at level 100, f at level 200, only parsing).

(** A call whose exception goes up. *)
Definition ask (r : request) : prog (answer r) :=
  Ask r (fun a =>
           match a with
           | Value x => ret x
           | Throw e => Ret (Raised e)
           end).

(** [exit(code)]. *)
Definition exit {A : Type} (code : option Z) : prog A := Ret (Exited code).

(** [try: body finally: handler]: the handler runs however the body ends,
    and the body's end stands unless the handler ends otherwise. *)
Fixpoint finally {A : Type} (body : prog A) (handler : prog unit) : prog A :=
  match body with
  | Ret o =>
      (fix after (h : prog unit) : prog A :=
         match h with
         | Ret (Returned _) => Ret o
         | Ret (Exited code) => Ret (Exited code)
         | Ret (Raised e) => Ret (Raised e)
         | Ask r k => Ask r (fun a => after (k a))
         end) handler
  | Ask r k => Ask r (fun a => finally (k a) handler)
  end.

(** [for x in l: body(x)]. *)
Fixpoint for_each {A : Type} (l : list A) (body : A -> prog unit)
    : prog unit :=
  match l with
  | [] => ret tt
  | x :: l => do body x then for_each l body
  end.

(** [if b: body]. *)
Definition when (b : bool) (body : prog unit) : prog unit :=
  if b then body else ret tt.

(** [cmd_check(program, print_output=..., no_stderr=...)] and
    [cmd_check(program, get_output=True)], lines 140-145. *)
Definition cmd_check (program : string) (print_output no_stderr : bool)
    : prog bool :=
  ask (Call program print_output no_stderr).

Definition cmd_check_output (program : string) : prog string :=
  ask (Getoutput program).

(** [composecmd(cmd, composefile)], lines 218-230: the status of
    [os.system], or [None] where only a message is printed. *)
Definition composecmd (cmd : string) (composefile : option string)
    : prog (option Z) :=
  let cmd :=
    if truthy composefile
    then "-f " +:+ default "" composefile +:+ " " +:+ cmd
    else cmd in
  let* docker := cmd_check "docker --version" false false in
  if negb docker then ret None
  else
    let* docker_ps := cmd_check "docker ps" false false in
    if negb docker_ps then ret None
    else
      let* plugin := cmd_check "docker compose --version" false false in
      if (plugin : bool) then
        let* status :=
          ask (System ("docker compose -p " +:+ compose_project_name
                       +:+ " " +:+ cmd)) in
        ret (Some status)
      else
        let* standalone :=
          cmd_check "docker-compose --version" false false in
        if (standalone : bool) then
          let* status :=
            ask (System ("docker-compose -p " +:+ compose_project_name
                         +:+ " " +:+ cmd)) in
          ret (Some status)
        else ret None.

(** Lines 232-263. *)
Definition check_already_running : prog bool :=
  let* output :=
    cmd_check_output
      ("docker ps --filter " +:+ dquote +:+ "name=^" +:+ g.container_name
       +:+ "$" +:+ dquote) in
  ret (contains output g.container_name).

Definition prebuilder_exists : prog bool :=
  let* output :=
    cmd_check_output
      ("docker image ls --filter " +:+ dquote +:+ "reference="
       +:+ prebuild_image +:+ dquote) in
  ret (contains output prebuild_image).

Definition prebuilt_exists : prog bool :=
  let* output :=
    cmd_check_output
      ("docker image ls --filter " +:+ dquote +:+ "reference="
       +:+ prebuilt_image +:+ dquote) in
  ret (contains output prebuilt_image).

Definition remove_prebuilder : prog bool :=
  cmd_check ("docker image rm " +:+ prebuild_image) false false.

Definition remove_prebuilt : prog bool :=
  cmd_check ("docker image rm " +:+ prebuilt_image) false false.

Definition remove_prebuilded : prog bool :=
  cmd_check ("docker container rm " +:+ prebuilded_container) false false.

Definition remove_database_volume : prog bool :=
  cmd_check "docker volume rm -f oasis_oasis-postgres-db" false false.

Definition build_prebuilder : prog bool :=
  cmd_check ("docker build -t " +:+ prebuild_image
             +:+ " -f ./vm/Dockerfile.prebuilder ./vm/") true false.

Definition build_prebuilt (privileged : bool) : prog bool :=
  cmd_check ("docker run -it "
             +:+ (if privileged then "--privileged"
                  else "--runtime=sysbox-runc")
             +:+ " --name " +:+ prebuilded_container +:+ " "
             +:+ prebuild_image) true false.

Definition kill_builder : prog bool :=
  cmd_check ("docker kill " +:+ prebuilded_container) false true.

Definition commit_prebuilt : prog bool :=
  cmd_check ("docker commit " +:+ prebuilded_container +:+ " "
             +:+ prebuilt_image +:+ ":latest") true false.

(** [write_compose(config)] on the machine [host], lines 266-485. *)
Definition write_compose (host : Host) (config : Config) : prog unit :=
  ask (WriteText g.composefile
         (dict_to_yaml (compose_topology host config) 4 0 0 None)).

(** [try_to_remove(file)], lines 487-491. *)
Definition try_to_remove (file : string) : prog unit :=
  Ask (Remove file) (fun a =>
    match a with
    | Value _ => ret tt
    | Throw FileNotFoundError => ret tt
    | Throw e => Ret (Raised e)
    end).

(** [shutil.rmtree(path, ignore_errors=True)]. *)
Definition rmtree (path : string) : prog unit :=
  Ask (Rmtree path) (fun _ => ret tt).

(** [clear_data(...)], lines 493-525. *)
Definition clear_data
    (remove_config remove_prebuilded_container remove_prebuilder_image
       remove_prebuilt_image remove_wireguard remove_checkers_data
       remove_gameserver_data : bool) : prog unit :=
  do when remove_gameserver_data (do remove_database_volume then ret tt) then
  do when remove_wireguard
       (let* files := ask (Listdir "./wireguard") in
        for_each files (fun file =>
          when (startswith file "conf") (rmtree ("./wireguard/" +:+ file))))
  then
  do when remove_config (try_to_remove g.config_file) then
  do when remove_prebuilded_container (do remove_prebuilded then ret tt) then
  do when remove_prebuilder_image (do remove_prebuilder then ret tt) then
  do when remove_prebuilt_image (do remove_prebuilt then ret tt) then
  when remove_checkers_data
    (let* services := ask (Listdir "./game_server/checkers") in
     for_each services (fun service =>
       rmtree ("./game_server/checkers/" +:+ service +:+ "/flag_ids"))).

(** [clear_data_only(...)], lines 527-544; every default is [False]. *)
Definition clear_data_only
    (remove_config remove_prebuilded_container remove_prebuilder_image
       remove_prebuilt_image remove_wireguard remove_checkers_data
       remove_gameserver_data : bool) : prog unit :=
  clear_data remove_config remove_prebuilded_container
    remove_prebuilder_image remove_prebuilt_image remove_wireguard
    remove_checkers_data remove_gameserver_data.

(** Lines 658-668; [create_config] is given a [Config]. *)
Definition create_config (data : Config) : prog Config :=
  do ask (SaveToFile data g.config_file) then ret data.

Definition config_exists : prog bool := ask (Isfile g.config_file).

Definition read_config : prog Config := ask (FromJsonFile g.config_file).

(** The command line that [gen_args] has parsed, with what [main] reads of
    it. *)
Module clear_args.
Record t : Type := {
  all : bool;
  config : bool;
  prebuilded_container : bool;
  prebuilder_image : bool;
  prebuilt_image : bool;
  wireguard : bool;
  checkers_data : bool;
  gameserver_data : bool;
}.
End clear_args.

Inductive command : Type :=
  | Start (a : args.t) (logs config_only : bool)
  | Compose (compose_args : list string)
  | Restart (logs : bool)
  | Stop
  | Clear (flags : clear_args.t)
  | Status.

(** [True in vars(args).values()], for the [clear] command. *)
Definition any_flag (f : clear_args.t) : bool :=
  clear_args.all f || clear_args.config f
  || clear_args.prebuilded_container f || clear_args.prebuilder_image f
  || clear_args.prebuilt_image f || clear_args.wireguard f
  || clear_args.checkers_data f || clear_args.gameserver_data f.

(** ["logs" in args and args.logs]. *)
Definition wants_logs (args : command) : bool :=
  match args with
  | Start _ logs _ => logs
  | Restart logs => logs
  | _ => false
  end.

(** A branch of [main] comes to its end or leaves [main] with [return]. *)
Inductive flow : Type :=
  | Next
  | Return.

Section machine.
Variable host : Host.

(** [write_compose(read_config())] and a compose command on the file
    written. *)
Definition compose_with_file (cmd : string) : prog flow :=
  let* config := read_config in
  do write_compose host config then
  do composecmd cmd (Some g.composefile) then
  ret Next.

(** The branches of the [match] of [main], lines 691-787. *)
Definition main_start (config_only : bool) (a : args.t) : prog flow :=
  do check_already_running then
  let* found := config_exists in
  let* config :=
    (if negb found
     then let* config := ask (ConfigInput a) in create_config config
     else read_config) in
  if config_only then ret Return
  else
    do when (0 <? Z.of_nat (length (teams config)))
         (let* prebuilt := prebuilt_exists in
          when (negb prebuilt)
            (do remove_prebuilded then
             do remove_prebuilt then
             let* built := build_prebuilder in
             if negb built then exit (Some 1)
             else
               let* ran := build_prebuilt (unsafe_privileged config) in
               if negb ran then exit (Some 1)
               else
                 let* committed := commit_prebuilt in
                 if negb committed then exit (Some 1)
                 else do remove_prebuilded then ret tt))
    then
    let* found := config_exists in
    if negb found then ret Next
    else
      compose_with_file
        ("up -d" +:+ (if use_build_on_compose then " --build" else "")
         +:+ " --remove-orphans").

Definition main_compose (compose_args : list string) : prog flow :=
  let* found := config_exists in
  if negb found then ret Next
  else
    let* config := read_config in
    do write_compose host config then
    do composecmd (join " " compose_args) (Some g.composefile) then
    ret Next.

Definition main_restart : prog flow :=
  let* found := config_exists in
  if negb found then ret Next
  else
    let* running := check_already_running in
    if (running : bool) then compose_with_file "restart" else ret Next.

Definition main_stop : prog flow :=
  let* found := config_exists in
  if negb found then ret Next
  else
    let* running := check_already_running in
    if (running : bool) then compose_with_file "down --remove-orphans"
    else ret Next.

Definition main_clear (f : clear_args.t) : prog flow :=
  let* running := check_already_running in
  if (running : bool) then exit (Some 1)
  else
    do when (negb (any_flag f))
         (clear_data false true true true true true true)
    then
    let* confirmed :=
      (if clear_args.all f
       then
         let* line := ask Input in
         if bool_decide (lower line <> "y") then ret false
         else
           do clear_data true true true true true true true then ret true
       else ret true) in
    if negb confirmed then ret Return
    else
      do when (clear_args.config f)
           (clear_data_only true false false false false false false) then
      do when (clear_args.prebuilded_container f)
           (clear_data_only false true false false false false false) then
      do when (clear_args.prebuilder_image f)
           (clear_data_only false false true false false false false) then
      do when (clear_args.prebuilt_image f)
           (clear_data_only false false false true false false false) then
      do when (clear_args.wireguard f)
           (clear_data_only false false false false true false false) then
      do when (clear_args.checkers_data f)
           (clear_data_only false false false false false true false) then
      do when (clear_args.gameserver_data f)
           (clear_data_only false false false false false false true) then
      ret Next.

Definition main_status : prog flow :=
  do check_already_running then ret Next.

(** [main()], lines 670-795. *)
Definition main (args : command) : prog unit :=
  match args with
  | Start a _ true =>
      let* found := config_exists in
      if (found : bool) then ret tt
      else
        let* config := ask (ConfigInput a) in
        do create_config config then ret tt
  | _ =>
      do cmd_check "docker --version" false false then
      let* docker_ps := cmd_check "docker ps" false false in
      do (if negb docker_ps then exit None
          else
            let* standalone :=
              cmd_check "docker-compose --version" false false in
            if (standalone : bool) then ret tt
            else
              let* plugin :=
                cmd_check "docker compose --version" false false in
              if negb plugin then exit None else ret tt)
      then
      let* branch :=
        match args with
        | Start a _ config_only => main_start config_only a
        | Compose compose_args => main_compose compose_args
        | Restart _ => main_restart
        | Stop => main_stop
        | Clear f => main_clear f
        | Status => main_status
        end in
      match branch with
      | Return => ret tt
      | Next =>
          when (wants_logs args)
            (let* found := config_exists in
             do when found
                  (let* config := read_config in write_compose host config)
             then
             do composecmd "logs -f" None then ret tt)
      end
  end.

(** The script, lines 798-805: [main] and, however it ends, the end of the
    builder and of the compose file. *)
Definition script (args : command) : prog unit :=
  finally (main args)
    (do kill_builder then
     let* found := ask (Isfile g.composefile) in
     when (found && negb keep_file) (ask (Remove g.composefile))).

End machine.

(** *** Running a program *)

(** What was asked and what came back. *)
Record event : Type := Event {
  asked : request;
  got : reply (answer asked);
}.

(** The world that answers: a state and an answer to every request. *)
Record world : Type := {
  state : Type;
  respond : forall r : request, state -> reply (answer r) * state;
}.

Fixpoint run {A : Type} (w : world) (p : prog A) (s : state w)
    : list event * outcome A :=
  match p with
  | Ret o => ([], o)
  | Ask r k =>
      let (a, s) := respond w r s in
      let (trace, o) := run w (k a) s in
      (Event r a :: trace, o)
  end.

(** [runs p trace o]: some answers make [p] ask and get [trace] and end as
    [o]. *)
Fixpoint runs {A : Type} (p : prog A) (trace : list event) (o : outcome A)
    : Prop :=
  match p with
  | Ret o' => trace = [] /\ o = o'
  | Ask r k =>
      exists a rest, trace = Event r a :: rest /\ runs (k a) rest o
  end.

(** The requests of a trace. *)
Definition requests (trace : list event) : list request := map asked trace.

(** What [docker ps] printed names the gameserver container. *)
Definition shows_running (e : event) : Prop :=
  match e with
  | Event (Getoutput _) (Value output) =>
      contains output g.container_name = true
  | _ => False
  end.

(** A machine to run the commands on: docker works and answers every command
    with success, [docker ps] shows the gameserver or not, and so does
    [docker image ls] the images; [config.json] is there or not, and holds
    [config]; the directories [./wireguard] and [./game_server/checkers] have
    a few entries; [line] is typed at every question; the prompt gives
    [config]. *)
Definition machine (running found : bool) (line : string) (config : Config)
    : world :=
  {| state := unit;
     respond := fun r s =>
       (match r return reply (answer r) with
        | Call _ _ _ => Value true
        | Getoutput _ => Value (if running then g.container_name else "")
        | System _ => Value 0
        | Isfile path =>
            Value (if decide (path = g.config_file) then found else true)
        | Listdir path =>
            Value (if decide (path = "./wireguard")
                   then ["conf1"; "notes.txt"; "conf2"]
                   else ["service1"; "service2"])
        | Remove _ => Value tt
        | Rmtree _ => Value tt
        | Input => Value line
        | ConfigInput _ => Value config
        | SaveToFile _ _ => Value tt
        | FromJsonFile _ => Value config
        | WriteText _ _ => Value tt
        end, s) |}.

(** What stands at the end of [try: ... finally: ...], where the body ended
    as [o] and the handler as [o']. *)
Definition after_handler {A : Type} (o : outcome A) (o' : outcome unit)
    : outcome A :=
  match o' with
  | Returned _ => o
  | Exited code => Exited code
  | Raised e => Raised e
  end.

(** [only P p]: every request of every run of [p] satisfies [P]. *)
Definition only {A : Type} (P : request -> Prop) (p : prog A) : Prop :=
  forall t o, runs p t o -> Forall (fun e => P (asked e)) t.

(** [before P Q p]: in every run of [p], what was asked and answered before
    an event that satisfies [P] satisfies [Q]. *)
Definition before {A : Type} (P : event -> Prop) (Q : list event -> Prop)
    (p : prog A) : Prop :=
  forall t o, runs p t o ->
    forall t1 e t2, t = t1 ++ e :: t2 -> P e -> Q t1.

End Cli.

(** ** The machine *)

(** [is_linux()], lines 93-94, where [sys.platform] is [platform] and
    [platform.uname().release] is [release]. *)
Module Platform.
Definition is_linux (platform release : string) : bool :=
  Cli.contains platform "linux"
  && negb (Cli.contains release "microsoft-standard").
End Platform.

(** The machine of a user [uid], [gid]. *)
Definition host_of (platform release : string) (uid gid : Z) : Host :=
  {| getuid := uid; getgid := gid;
     is_linux := Platform.is_linux platform release |}.

(** ** More sample inputs *)

Module Variant.

(** The teams of [Sample.with_nop] under other names, with an image, a pin
    and a VPN port field of their own. *)
Definition team (i : Z) (is_nop : bool) : Team :=
  {| id := i; name := "renamed"; token := "c0ffee"; wireguard_port := 7;
     nop := is_nop; image := "custom";
     pins := [{| pin := "1234"; profile := 1 |}] |}.

(** [Sample.with_nop] with these teams and other game settings. *)
Definition config : Config :=
  {| wireguard_start_port := 51000;
     wireguard_profiles := 30;
     server_addr := "203.0.113.7";
     dns := "1.1.1.1";
     tick_time := 60;
     flag_expire_ticks := 10;
     initial_service_score := 1;
     max_flags_per_request := 2;
     submission_timeout := 2%float;
     network_limit_bandwidth := "20mbit";
     max_vm_cpus := "1";
     max_vm_mem := "2G";
     gameserver_token := "another";
     teams := [team 0 true; team 1 false; team 2 false; team 3 false];
     unsafe_privileged := false;
     start_time := Some "2026-01-01T00:00:00";
     end_time := Some "2026-01-02T00:00:00";
     max_disk_size := Some "30G";
     gameserver_exposed_port := Some "127.0.0.1:8888";
     debug := true;
     pin_data_added := true |}.

(** The least dictionary that [Config.from_dict] takes: the thirteen fields
    without a default. *)
Definition least_config : json :=
  JDict [("wireguard_start_port", JInt 51000);
         ("wireguard_profiles", JInt 30);
         ("server_addr", JStr "203.0.113.7");
         ("dns", JStr "1.1.1.1");
         ("tick_time", JInt 120);
         ("flag_expire_ticks", JInt 5);
         ("initial_service_score", JInt 5000);
         ("max_flags_per_request", JInt 3000);
         ("submission_timeout", JFloat 0.5%float);
         ("network_limit_bandwidth", JStr "20mbit");
         ("max_vm_cpus", JStr "1");
         ("max_vm_mem", JStr "2G");
         ("gameserver_token", JStr "feedbeef")].

(** [clear --all] and [clear] without a flag. *)
Definition clear_all : Cli.clear_args.t :=
  {| Cli.clear_args.all := true;
     Cli.clear_args.config := false;
     Cli.clear_args.prebuilded_container := false;
     Cli.clear_args.prebuilder_image := false;
     Cli.clear_args.prebuilt_image := false;
     Cli.clear_args.wireguard := false;
     Cli.clear_args.checkers_data := false;
     Cli.clear_args.gameserver_data := false |}.

Definition clear_plain : Cli.clear_args.t :=
  {| Cli.clear_args.all := false;
     Cli.clear_args.config := false;
     Cli.clear_args.prebuilded_container := false;
     Cli.clear_args.prebuilder_image := false;
     Cli.clear_args.prebuilt_image := false;
     Cli.clear_args.wireguard := false;
     Cli.clear_args.checkers_data := false;
     Cli.clear_args.gameserver_data := false |}.

End Variant.

(** ** Facts about dictionaries *)

Module DictFacts.
Import Dict.

Lemma get_Some_elem (d : dict) k v : get d k = Some v -> (k, v) ∈ d.
Proof.
  induction d as [|[k' v'] d IH]; simpl; [done|].
  case_decide; intros Hv; [injection Hv as <-; subst; left | right; auto].
Qed.

Lemma get_is_Some (d : dict) k : is_Some (get d k) <-> k ∈ keys d.
Proof.
  unfold keys. induction d as [|[k' v'] d IH]; simpl.
  - split; [intros [? ?]; done | intros H; inversion H].
  - case_decide; subst.
    + split; [intros _; left | eauto].
    + rewrite IH, elem_of_cons. split; [auto|]. by intros [->|?].
Qed.

Lemma get_None (d : dict) k : get d k = None <-> k ∉ keys d.
Proof. rewrite <- get_is_Some, eq_None_not_Some. done. Qed.

Lemma get_setitem (d : dict) k v k' :
  get (setitem d k v) k' = if decide (k = k') then Some v else get d k'.
Proof.
  induction d as [|[k0 v0] d IH]; simpl.
  - done.
  - destruct (decide (k0 = k)) as [->|Hne]; simpl.
    + repeat case_decide; congruence.
    + rewrite IH. repeat case_decide; congruence.
Qed.

Lemma keys_setitem (d : dict) k v :
  keys (setitem d k v)
  = if decide (k ∈ keys d) then keys d else keys d ++ [k].
Proof.
  unfold keys. induction d as [|[k0 v0] d IH]; csimpl.
  - destruct (decide (k ∈ [])) as [H|_]; [inversion H | done].
  - destruct (decide (k0 = k)) as [->|Hne]; csimpl.
    + rewrite decide_True by left. done.
    + rewrite IH. destruct (decide (k ∈ d.*1)) as [Hin|Hin].
      * rewrite decide_True by (right; done). done.
      * rewrite decide_False; [done|]. rewrite elem_of_cons. by intros [->|?].
Qed.

Lemma NoDup_setitem (d : dict) k v :
  NoDup (keys d) -> NoDup (keys (setitem d k v)).
Proof.
  intros Hd. rewrite keys_setitem. case_decide; [done|].
  apply NoDup_app. split_and!.
  - done.
  - intros x Hx Hx'. apply list_elem_of_singleton in Hx'. by subst.
  - apply NoDup_singleton.
Qed.

Lemma NoDup_update (d e : dict) : NoDup (keys d) -> NoDup (keys (update d e)).
Proof.
  unfold update. revert d.
  induction e as [|[k v] e IH]; intros d Hd; simpl; [done|].
  apply IH, NoDup_setitem, Hd.
Qed.

Lemma NoDup_comprehension (kvs : dict) : NoDup (keys (comprehension kvs)).
Proof. apply NoDup_update. constructor. Qed.

Lemma NoDup_literal (es : list entry) : NoDup (keys (literal es)).
Proof.
  unfold literal. generalize (NoDup_nil_2 (A := string)).
  change (@nil string) with (keys []). generalize (@nil (string * pyval)).
  induction es as [|e es IH]; intros d Hd; simpl; [done|].
  apply IH. destruct e; simpl; auto using NoDup_setitem, NoDup_update.
Qed.

(** After [d.update(e)] a key reads its last binding in [e], or else what it
    read in [d]. *)
Lemma get_update (d e : dict) k :
  get (update d e) k = from_option Some (get d k) (get (reverse e) k).
Proof.
  unfold update. revert d.
  induction e as [|[k0 v0] e IH]; intros d; simpl; [done|].
  rewrite IH, get_setitem, reverse_cons. clear IH.
  induction (reverse e) as [|[k1 v1] r IHr]; simpl.
  - by destruct (decide (k0 = k)).
  - destruct (decide (k1 = k)); [done | apply IHr].
Qed.

Lemma get_comprehension (kvs : dict) k :
  get (comprehension kvs) k = get (reverse kvs) k.
Proof.
  unfold comprehension. rewrite get_update. by destruct (get (reverse kvs) k).
Qed.

Lemma get_comprehension_Some (kvs : dict) k v :
  get (comprehension kvs) k = Some v -> (k, v) ∈ kvs.
Proof.
  rewrite get_comprehension. intros H%get_Some_elem.
  by rewrite elem_of_reverse in H.
Qed.

Lemma get_comprehension_elem (kvs : dict) k :
  k ∈ kvs.*1 ->
  exists v, get (comprehension kvs) k = Some v /\ (k, v) ∈ kvs.
Proof.
  intros Hk.
  assert (is_Some (get (comprehension kvs) k)) as [v Hv].
  { rewrite get_comprehension, get_is_Some. unfold keys.
    by rewrite fmap_reverse, elem_of_reverse. }
  eauto using get_comprehension_Some.
Qed.

Lemma NoDup_keys_functional (d : dict) k v1 v2 :
  NoDup (keys d) -> (k, v1) ∈ d -> (k, v2) ∈ d -> v1 = v2.
Proof.
  unfold keys. induction d as [|[k0 v0] d IH]; csimpl.
  - intros _ H. inversion H.
  - rewrite NoDup_cons, !elem_of_cons. intros [Hk0 Hd] [H1|H1] [H2|H2].
    + congruence.
    + injection H1 as -> ->. destruct Hk0.
      apply list_elem_of_fmap. by exists (k0, v2).
    + injection H2 as -> ->. destruct Hk0.
      apply list_elem_of_fmap. by exists (k0, v1).
    + by apply IH.
Qed.

(** Unpacking a comprehension into a dictionary: its keys read the
    comprehension's values, every other key is untouched. *)
Lemma get_update_comprehension (d kvs : dict) k :
  get (update d (comprehension kvs)) k
  = from_option Some (get d k) (get (comprehension kvs) k).
Proof.
  rewrite get_update. f_equal.
  pose proof (NoDup_comprehension kvs) as Hnd.
  generalize dependent (comprehension kvs). clear kvs.
  intros e Hnd. unfold keys in Hnd.
  destruct (get e k) as [v|] eqn:He.
  - apply get_Some_elem in He.
    destruct (get (reverse e) k) as [v'|] eqn:Hr.
    + apply get_Some_elem in Hr. rewrite elem_of_reverse in Hr.
      f_equal. by eapply (NoDup_keys_functional e k).
    + apply get_None in Hr. exfalso. apply Hr. unfold keys.
      rewrite fmap_reverse, elem_of_reverse. apply list_elem_of_fmap.
      by exists (k, v).
  - apply get_None in He. apply get_None. unfold keys in *.
    by rewrite fmap_reverse, elem_of_reverse.
Qed.

End DictFacts.

(** ** Facts about the serializer *)

Module YamlFacts.
Import YamlSpec.

(** Induction on a value with the hypothesis on every element of a list and
    every value of a dictionary. *)
Lemma pyval_nested_ind (P : pyval -> Prop) :
  (forall s, P (PScalar s)) ->
  (forall items, Forall P items -> P (PList items)) ->
  (forall entries, Forall (fun kv => P kv.2) entries -> P (PDict entries)) ->
  forall v, P v.
Proof.
  intros Hs Hl Hd. fix IH 1. intros [s|items|entries].
  - apply Hs.
  - apply Hl. induction items as [|x items IHitems]; constructor; auto.
  - apply Hd. induction entries as [|[k x] entries IHentries];
      constructor; auto.
Qed.

Lemma append_String c (s1 s2 : string) :
  String c s1 +:+ s2 = String c (s1 +:+ s2).
Proof. reflexivity. Qed.

Lemma append_assoc (s1 s2 s3 : string) :
  (s1 +:+ s2) +:+ s3 = s1 +:+ (s2 +:+ s3).
Proof.
  induction s1 as [|c s1 IH]; [done|]. by rewrite !append_String, IH.
Qed.

Lemma append_nil_r (s : string) : s +:+ "" = s.
Proof. induction s as [|c s IH]; [done|]. by rewrite append_String, IH. Qed.

Lemma append_length (s1 s2 : string) :
  String.length (s1 +:+ s2) = (String.length s1 + String.length s2)%nat.
Proof.
  induction s1 as [|c s1 IH]; [done|]. rewrite append_String. simpl.
  by rewrite IH.
Qed.

Lemma str_repeat_length n : String.length (str_repeat " " n) = n.
Proof.
  induction n as [|n IH]; [done|]. simpl. by rewrite append_length, IH.
Qed.

Lemma len_str_mul n : 0 <= n -> len (str_mul " " n) = n.
Proof. intros Hn. unfold len, str_mul. rewrite str_repeat_length. lia. Qed.

(** *** The layout of lines *)

Lemma shift_app n ls1 ls2 : shift n (ls1 ++ ls2) = shift n ls1 ++ shift n ls2.
Proof. apply map_app. Qed.

Lemma shift_shift n m ls : shift n (shift m ls) = shift (n + m) ls.
Proof.
  unfold shift. rewrite map_map. apply map_ext. intros [c t]; simpl.
  f_equal. lia.
Qed.

Lemma flatten_app ls1 ls2 : flatten (ls1 ++ ls2) = flatten ls1 +:+ flatten ls2.
Proof.
  induction ls1 as [|l ls1 IH]; simpl; [done|].
  by rewrite IH, !append_assoc.
Qed.

(** *** The equations of [dict_to_yaml] *)

Section equations.
Variables indent_spaces base_indent additional_spaces : Z.

Lemma dict_to_yaml_dict_nil add :
  dict_to_yaml (PDict []) indent_spaces base_indent additional_spaces add
  = "".
Proof. reflexivity. Qed.

Lemma dict_to_yaml_dict_cons key value entries add :
  dict_to_yaml (PDict ((key, value) :: entries)) indent_spaces base_indent
    additional_spaces add
  = (match value with
     | PScalar s =>
         key_prefix indent_spaces base_indent additional_spaces add
         +:+ key +:+ ": " +:+ py_str s +:+ nl
     | PDict _ | PList _ =>
         (key_prefix indent_spaces base_indent additional_spaces add
          +:+ key +:+ ":" +:+ nl)
         +:+ dict_to_yaml value indent_spaces (base_indent + 1)
               additional_spaces None
     end)
    +:+ dict_to_yaml (PDict entries) indent_spaces base_indent
          additional_spaces None.
Proof. destruct add; reflexivity. Qed.

Lemma dict_to_yaml_list_nil add :
  dict_to_yaml (PList []) indent_spaces base_indent additional_spaces add
  = "".
Proof. reflexivity. Qed.

Lemma dict_to_yaml_list_cons item items add :
  dict_to_yaml (PList (item :: items)) indent_spaces base_indent
    additional_spaces add
  = (match item with
     | PScalar s =>
         str_mul " " (indent_spaces * base_indent + additional_spaces)
         +:+ "- " +:+ py_str s +:+ nl
     | PDict _ =>
         dict_to_yaml item indent_spaces base_indent
           (additional_spaces + 2) (Some "- ")
     | PList _ =>
         dict_to_yaml item indent_spaces (base_indent + 1)
           additional_spaces None
     end)
    +:+ dict_to_yaml (PList items) indent_spaces base_indent
          additional_spaces add.
Proof. reflexivity. Qed.

End equations.

Lemma lines_dict_cons unit key value entries :
  lines unit (PDict ((key, value) :: entries))
  = (match value with
     | PScalar s => [(O, key +:+ ": " +:+ py_str s)]
     | PDict _ | PList _ => (O, key +:+ ":") :: shift unit (lines unit value)
     end)
    ++ lines unit (PDict entries).
Proof. reflexivity. Qed.

Lemma lines_list_cons unit item items :
  lines unit (PList (item :: items))
  = (match item with
     | PScalar s => [(O, marker +:+ py_str s)]
     | PDict _ => mark (lines unit item)
     | PList _ => shift unit (lines unit item)
     end)
    ++ lines unit (PList items).
Proof. reflexivity. Qed.

Lemma key_prefix_marker ind b a :
  0 <= ind -> 0 <= b -> 0 <= a ->
  key_prefix ind b (a + 2) (Some "- ")
  = str_repeat " " (Z.to_nat (ind * b + a)) +:+ marker.
Proof.
  intros Hind Hb Ha. unfold key_prefix. rewrite len_str_mul by nia.
  unfold str_mul, marker. do 2 f_equal. change (len "- ") with 2. lia.
Qed.

Lemma shift_0 ls : shift 0 ls = ls.
Proof. unfold shift. induction ls as [|[c t] ls IH]; simpl; by f_equal. Qed.

Lemma flatten_cons c t ls :
  flatten ((c, t) :: ls) = str_repeat " " c +:+ t +:+ nl +:+ flatten ls.
Proof. reflexivity. Qed.

Lemma shift_cons n c t ls :
  shift n ((c, t) :: ls) = ((n + c)%nat, t) :: shift n ls.
Proof. reflexivity. Qed.

Lemma mark_cons_app c t ls ls' :
  mark (((c, t) :: ls) ++ ls') = (c, marker +:+ t) :: shift 2 (ls ++ ls').
Proof. reflexivity. Qed.

Ltac norm_str :=
  rewrite ?shift_cons, ?flatten_cons, ?Nat.add_0_r, ?append_nil_r,
    ?append_assoc.

(** A mapping or a sequence renders as its layout from its column, and a
    mapping that is an element of a sequence as its layout with the marker
    put. *)
Lemma dict_to_yaml_layout_rec v :
  forall ind b a, 0 <= ind -> 0 <= b -> 0 <= a ->
  let unit := Z.to_nat ind in
  let col := Z.to_nat (ind * b + a) in
  (is_container v = true ->
   dict_to_yaml v ind b a None = flatten (shift col (lines unit v)))
  /\ (forall entries, v = PDict entries ->
      dict_to_yaml v ind b (a + 2) (Some "- ")
      = flatten (shift col (mark (lines unit v)))).
Proof.
  induction v as [s|items IH|entries IH] using pyval_nested_ind;
    intros ind b a Hind Hb Ha unit col.
  - split; [done|]. intros ? [=].
  - split; [intros _ | intros ? [=]].
    induction IH as [|item items Hitem _ IHitems]; [done|].
    rewrite dict_to_yaml_list_cons, lines_list_cons, shift_app, flatten_app.
    rewrite IHitems. f_equal.
    destruct item as [s|sub|sub].
    + simpl. by norm_str.
    + destruct (Hitem ind (b + 1) a) as [H1 _]; [lia..|].
      rewrite H1 by done.
      rewrite shift_shift. do 2 f_equal. subst unit col. nia.
    + destruct (Hitem ind b a) as [_ H2]; [lia..|].
      by rewrite (H2 sub).
  - assert (forall es a,
              Forall (fun kv : string * pyval =>
                forall ind b a, 0 <= ind -> 0 <= b -> 0 <= a ->
                is_container kv.2 = true ->
                dict_to_yaml kv.2 ind b a None
                = flatten (shift (Z.to_nat (ind * b + a))
                             (lines (Z.to_nat ind) kv.2))) es ->
              0 <= a ->
              dict_to_yaml (PDict es) ind b a None
              = flatten (shift (Z.to_nat (ind * b + a))
                           (lines unit (PDict es)))) as HA.
    { clear -Hind Hb. intros es a Hes Ha.
      induction Hes as [|[key value] es Hvalue _ IHes]; [done|].
      rewrite dict_to_yaml_dict_cons, lines_dict_cons, shift_app, flatten_app.
      rewrite IHes. f_equal. simpl in Hvalue.
      specialize (Hvalue ind (b + 1) a).
      unfold key_prefix, str_mul.
      assert (Z.to_nat (ind * (b + 1) + a)
              = (Z.to_nat (ind * b + a) + unit)%nat) as Hcol
        by (subst unit; nia).
      destruct value as [s|sub|sub]; norm_str.
      - done.
      - rewrite Hvalue by (done || lia). by rewrite shift_shift, Hcol.
      - rewrite Hvalue by (done || lia). by rewrite shift_shift, Hcol. }
    assert (Forall (fun kv : string * pyval =>
                forall ind b a, 0 <= ind -> 0 <= b -> 0 <= a ->
                is_container kv.2 = true ->
                dict_to_yaml kv.2 ind b a None
                = flatten (shift (Z.to_nat (ind * b + a))
                             (lines (Z.to_nat ind) kv.2))) entries) as IH'.
    { eapply Forall_impl; [exact IH|]. intros kv Hkv ind' b' a' ? ? ? ?.
      by apply Hkv. }
    split; [intros _; by apply HA|]. intros ? _.
    destruct IH' as [|[key value] entries Hvalue IH'].
    + done.
    + rewrite dict_to_yaml_dict_cons, lines_dict_cons.
      rewrite key_prefix_marker by done.
      rewrite (HA entries (a + 2)) by (done || lia). simpl in Hvalue.
      specialize (Hvalue ind (b + 1) (a + 2)).
      assert (Z.to_nat (ind * (b + 1) + (a + 2))
              = (col + 2 + unit)%nat) as Hcol by (subst unit col; nia).
      assert (Z.to_nat (ind * b + (a + 2)) = (col + 2)%nat) as Hcol'
        by (subst unit col; nia).
      rewrite Hcol'.
      destruct value as [s|sub|sub]; rewrite mark_cons_app;
        rewrite ?shift_app, ?shift_shift, ?flatten_app; norm_str;
        rewrite ?shift_app, ?shift_shift, ?flatten_app; norm_str.
      * done.
      * rewrite Hvalue by (done || lia). by rewrite Hcol, Nat.add_assoc.
      * rewrite Hvalue by (done || lia). by rewrite Hcol, Nat.add_assoc.
Qed.

Lemma dict_to_yaml_layout v ind :
  0 <= ind -> dict_to_yaml v ind 0 0 None = render (Z.to_nat ind) v.
Proof.
  intros Hind. destruct v as [s|items|entries].
  - unfold render. simpl. by norm_str.
  - destruct (dict_to_yaml_layout_rec (PList items) ind 0 0) as [H _];
      [lia..|]. rewrite H by done. unfold render.
    rewrite Z.mul_0_r. simpl. by rewrite shift_0.
  - destruct (dict_to_yaml_layout_rec (PDict entries) ind 0 0) as [H _];
      [lia..|]. rewrite H by done. unfold render.
    rewrite Z.mul_0_r. simpl. by rewrite shift_0.
Qed.
End YamlFacts.

(** ** Facts about the topology *)

Module TopologyFacts.
Import Dict DictFacts.

(** *** Comprehensions over the teams *)

Lemma get_comprehension_map_Some {A : Type} (f : A -> string * pyval)
    (l : list A) k v :
  get (comprehension (map f l)) k = Some v ->
  exists x, x ∈ l /\ f x = (k, v).
Proof.
  intros H%get_comprehension_Some. apply list_elem_of_fmap in H.
  destruct H as (x & Hx & Hin). eauto.
Qed.

Lemma get_comprehension_map_elem {A : Type} (f : A -> string * pyval)
    (l : list A) x :
  x ∈ l ->
  exists y, y ∈ l /\ (f y).1 = (f x).1
            /\ get (comprehension (map f l)) (f x).1 = Some (f y).2.
Proof.
  intros Hx.
  destruct (get_comprehension_elem (map f l) (f x).1) as (v & Hv & Hin).
  { apply list_elem_of_fmap. exists (f x). split; [done|].
    apply list_elem_of_fmap. eauto. }
  apply list_elem_of_fmap in Hin. destruct Hin as (y & Hy & Hin).
  exists y. rewrite <- Hy. simpl. eauto.
Qed.

Lemma get_comprehension_map_None {A : Type} (f : A -> string * pyval)
    (l : list A) k :
  (forall x, x ∈ l -> (f x).1 <> k) ->
  get (comprehension (map f l)) k = None.
Proof.
  intros Hne. destruct (get _ k) as [v|] eqn:Hv; [|done].
  apply get_comprehension_map_Some in Hv. destruct Hv as (x & Hx & Hfx).
  destruct (Hne x Hx). by rewrite Hfx.
Qed.

Lemma get_comprehension_map_is_Some {A : Type} (f : A -> string * pyval)
    (l : list A) k :
  is_Some (get (comprehension (map f l)) k) <->
  exists x, x ∈ l /\ (f x).1 = k.
Proof.
  split.
  - intros [v Hv]. apply get_comprehension_map_Some in Hv.
    destruct Hv as (x & Hx & Hfx). exists x. by rewrite Hfx.
  - intros (x & Hx & <-).
    destruct (get_comprehension_map_elem f l x Hx) as (y & _ & _ & ->).
    eauto.
Qed.

(** *** Keys of different families never meet *)

Lemma team_key_inj (prefix : string) (i j : Z) :
  prefix +:+ pretty i = prefix +:+ pretty j -> i = j.
Proof. intros H. by simplify_eq. Qed.

(** *** Reading [services], [networks] and the router's networks *)

Section lookups.
Variable host : Host.
Variable config : Config.

Lemma services_get k :
  get (services host config) k
  = from_option Some
      (from_option Some
         (if decide ("gameserver" = k) then Some (gameserver_service config)
          else if decide ("database" = k) then Some (database_service config)
          else if decide ("router" = k) then Some (router_service config)
          else None)
         (get (comprehension
                 (map (fun team =>
                         ("team" +:+ pretty (id team),
                          team_service config team))
                      (teams config))) k))
      (get (comprehension
              (map (fun team =>
                      ("wireguard" +:+ pretty (id team),
                       wireguard_service host config team))
                   (filter (fun team => nop team = false) (teams config))))
           k).
Proof.
  unfold services, literal. cbn [foldl add_entry].
  by rewrite !get_update_comprehension, !get_setitem.
Qed.

Lemma networks_get k :
  get (networks config) k
  = from_option Some
      (from_option Some
         (if decide ("gameserver" = k) then Some gameserver_network
          else if decide ("internalnet" = k) then Some (str "")
          else if decide ("externalnet" = k) then Some (str "")
          else None)
         (get (comprehension
                 (map (fun team =>
                         ("vm-team" +:+ pretty (id team), vm_network team))
                      (teams config))) k))
      (get (comprehension
              (map (fun team =>
                      ("players" +:+ pretty (id team),
                       players_network team))
                   (filter (fun team => nop team = false) (teams config))))
           k).
Proof.
  unfold networks, literal. cbn [foldl add_entry].
  by rewrite !get_update_comprehension, !get_setitem.
Qed.

Lemma router_networks_get k :
  get (router_networks config) k
  = from_option Some
      (if decide ("externalnet" = k)
       then Some (PDict (literal ["priority" ~> int 1]))
       else if decide ("gameserver" = k)
       then Some (PDict (literal [
                    "priority" ~> int 10;
                    "ipv4_address" ~> str "10.10.0.250"]))
       else get (comprehension
              (map (fun team =>
                      ("vm-team" +:+ pretty (id team),
                       PDict (literal [
                         "priority" ~> int 10;
                         "ipv4_address" ~>
                           str ("10.60." +:+ pretty (id team) +:+ ".250")])))
                   (teams config))) k)
      (get (comprehension
              (map (fun team =>
                      ("players" +:+ pretty (id team),
                       PDict (literal [
                         "priority" ~> int 10;
                         "ipv4_address" ~>
                           str ("10.80." +:+ pretty (id team) +:+ ".250")])))
                   (filter (fun team => nop team = false) (teams config))))
           k).
Proof.
  unfold router_networks, literal at 1. cbn [foldl add_entry].
  rewrite !get_update_comprehension, !get_setitem, get_update_comprehension.
  cbn [get]. by destruct (get _ k).
Qed.

(** A lookup that is not in a comprehension of another family. *)
Ltac other_family :=
  match goal with
  | |- context [get (comprehension (map ?f ?l)) ?k] =>
      rewrite (get_comprehension_map_None f l k) by (intros ? _; done)
  end.

Lemma services_router :
  get (services host config) "router" = Some (router_service config).
Proof. rewrite services_get. by repeat other_family. Qed.

Lemma services_database :
  get (services host config) "database" = Some (database_service config).
Proof. rewrite services_get. by repeat other_family. Qed.

Lemma services_gameserver :
  get (services host config) "gameserver"
  = Some (gameserver_service config).
Proof. rewrite services_get. by repeat other_family. Qed.

Lemma services_team team :
  team ∈ teams config ->
  exists team', team' ∈ teams config /\ id team' = id team
    /\ get (services host config) ("team" +:+ pretty (id team))
       = Some (team_service config team').
Proof.
  intros Hin. rewrite services_get. other_family.
  destruct (get_comprehension_map_elem
              (fun team => ("team" +:+ pretty (id team),
                            team_service config team))
              (teams config) team Hin) as (team' & Hin' & Hkey & Hget).
  simpl in Hkey, Hget. rewrite Hget. exists team'.
  split_and!; [done | by simplify_eq | done].
Qed.

Lemma services_wireguard team :
  team ∈ teams config -> nop team = false ->
  exists team', team' ∈ teams config /\ id team' = id team
    /\ nop team' = false
    /\ get (services host config) ("wireguard" +:+ pretty (id team))
       = Some (wireguard_service host config team').
Proof.
  intros Hin Hnop. rewrite services_get.
  destruct (get_comprehension_map_elem
              (fun team => ("wireguard" +:+ pretty (id team),
                            wireguard_service host config team))
              (filter (fun team => nop team = false) (teams config)) team)
    as (team' & Hin' & Hkey & Hget).
  { by apply list_elem_of_filter. }
  simpl in Hkey, Hget. rewrite Hget. exists team'.
  apply list_elem_of_filter in Hin'. destruct Hin'.
  split_and!; [done | by simplify_eq | done | done].
Qed.

Lemma services_wireguard_None i :
  (forall team, team ∈ teams config -> id team = i -> nop team = true) ->
  get (services host config) ("wireguard" +:+ pretty i) = None.
Proof.
  intros Hnop. rewrite services_get. other_family.
  rewrite get_comprehension_map_None; [done|].
  intros team [Hn Hin]%list_elem_of_filter Hkey. simpl in Hkey.
  rewrite (Hnop team) in Hn; [done | done | by simplify_eq].
Qed.

Lemma services_get_Some k v :
  get (services host config) k = Some v ->
  (k = "router" /\ v = router_service config)
  \/ (k = "database" /\ v = database_service config)
  \/ (k = "gameserver" /\ v = gameserver_service config)
  \/ (exists team, team ∈ teams config
         /\ k = "team" +:+ pretty (id team)
         /\ v = team_service config team)
  \/ (exists team, team ∈ teams config /\ nop team = false
         /\ k = "wireguard" +:+ pretty (id team)
         /\ v = wireguard_service host config team).
Proof.
  rewrite services_get.
  destruct (get (comprehension (map _ (filter _ _))) k) as [w|] eqn:Hw.
  { simpl. intros [= <-]. apply get_comprehension_map_Some in Hw.
    destruct Hw as (team & [Hnop Hin]%list_elem_of_filter & [= <- <-]).
    do 4 right. eauto. }
  destruct (get (comprehension (map _ (teams config))) k) as [w|] eqn:Ht.
  { simpl. intros [= <-]. apply get_comprehension_map_Some in Ht.
    destruct Ht as (team & Hin & [= <- <-]). do 3 right. left. eauto. }
  simpl. repeat case_decide; intros [= <-]; subst; auto.
Qed.

Lemma networks_gameserver :
  get (networks config) "gameserver" = Some gameserver_network.
Proof. rewrite networks_get. by repeat other_family. Qed.

Lemma networks_internalnet :
  get (networks config) "internalnet" = Some (str "").
Proof. rewrite networks_get. by repeat other_family. Qed.

Lemma networks_externalnet :
  get (networks config) "externalnet" = Some (str "").
Proof. rewrite networks_get. by repeat other_family. Qed.

Lemma networks_vm team :
  team ∈ teams config ->
  exists team', team' ∈ teams config /\ id team' = id team
    /\ get (networks config) ("vm-team" +:+ pretty (id team))
       = Some (vm_network team').
Proof.
  intros Hin. rewrite networks_get. other_family.
  destruct (get_comprehension_map_elem
              (fun team => ("vm-team" +:+ pretty (id team), vm_network team))
              (teams config) team Hin) as (team' & Hin' & Hkey & Hget).
  simpl in Hkey, Hget. rewrite Hget. exists team'.
  split_and!; [done | by simplify_eq | done].
Qed.

Lemma networks_players team :
  team ∈ teams config -> nop team = false ->
  exists team', team' ∈ teams config /\ id team' = id team
    /\ get (networks config) ("players" +:+ pretty (id team))
       = Some (players_network team').
Proof.
  intros Hin Hnop. rewrite networks_get.
  destruct (get_comprehension_map_elem
              (fun team =>
                 ("players" +:+ pretty (id team), players_network team))
              (filter (fun team => nop team = false) (teams config)) team)
    as (team' & Hin' & Hkey & Hget).
  { by apply list_elem_of_filter. }
  simpl in Hkey, Hget. rewrite Hget. exists team'.
  apply list_elem_of_filter in Hin'. destruct Hin'.
  split_and!; [done | by simplify_eq | done].
Qed.

Lemma networks_players_None i :
  (forall team, team ∈ teams config -> id team = i -> nop team = true) ->
  get (networks config) ("players" +:+ pretty i) = None.
Proof.
  intros Hnop. rewrite networks_get. other_family.
  rewrite get_comprehension_map_None; [done|].
  intros team [Hn Hin]%list_elem_of_filter Hkey. simpl in Hkey.
  rewrite (Hnop team) in Hn; [done | done | by simplify_eq].
Qed.

Lemma router_networks_gameserver :
  get (router_networks config) "gameserver"
  = Some (PDict (literal [
            "priority" ~> int 10;
            "ipv4_address" ~> str "10.10.0.250"])).
Proof. rewrite router_networks_get. by repeat other_family. Qed.

Lemma router_networks_internalnet :
  get (router_networks config) "internalnet" = None.
Proof. rewrite router_networks_get. by repeat other_family. Qed.

Lemma router_networks_vm team :
  team ∈ teams config ->
  get (router_networks config) ("vm-team" +:+ pretty (id team))
  = Some (PDict (literal [
            "priority" ~> int 10;
            "ipv4_address" ~>
              str ("10.60." +:+ pretty (id team) +:+ ".250")])).
Proof.
  intros Hin. rewrite router_networks_get. other_family.
  destruct (get_comprehension_map_elem
              (fun team =>
                 ("vm-team" +:+ pretty (id team),
                  PDict (literal [
                    "priority" ~> int 10;
                    "ipv4_address" ~>
                      str ("10.60." +:+ pretty (id team) +:+ ".250")])))
              (teams config) team Hin) as (team' & Hin' & Hkey & Hget).
  simpl in Hkey, Hget. rewrite decide_False, decide_False by done.
  rewrite Hget. simpl. apply team_key_inj in Hkey. by rewrite Hkey.
Qed.

Lemma router_networks_players team :
  team ∈ teams config -> nop team = false ->
  get (router_networks config) ("players" +:+ pretty (id team))
  = Some (PDict (literal [
            "priority" ~> int 10;
            "ipv4_address" ~>
              str ("10.80." +:+ pretty (id team) +:+ ".250")])).
Proof.
  intros Hin Hnop. rewrite router_networks_get.
  destruct (get_comprehension_map_elem
              (fun team =>
                 ("players" +:+ pretty (id team),
                  PDict (literal [
                    "priority" ~> int 10;
                    "ipv4_address" ~>
                      str ("10.80." +:+ pretty (id team) +:+ ".250")])))
              (filter (fun team => nop team = false) (teams config)) team)
    as (team' & Hin' & Hkey & Hget).
  { by apply list_elem_of_filter. }
  simpl in Hkey, Hget. rewrite Hget. simpl.
  apply team_key_inj in Hkey. by rewrite Hkey.
Qed.

Lemma router_networks_players_None i :
  (forall team, team ∈ teams config -> id team = i -> nop team = true) ->
  get (router_networks config) ("players" +:+ pretty i) = None.
Proof.
  intros Hnop. rewrite router_networks_get. other_family.
  rewrite get_comprehension_map_None; [done|].
  intros team [Hn Hin]%list_elem_of_filter Hkey. simpl in Hkey.
  rewrite (Hnop team) in Hn; [done | done | by simplify_eq].
Qed.

(** The keys of the router's networks and of the networks. *)
Lemma router_networks_keys k :
  k ∈ keys (router_networks config) <->
  k = "externalnet" \/ k = "gameserver"
  \/ (exists team, team ∈ teams config /\ k = "vm-team" +:+ pretty (id team))
  \/ (exists team, team ∈ teams config /\ nop team = false
         /\ k = "players" +:+ pretty (id team)).
Proof.
  rewrite <- get_is_Some, router_networks_get.
  pose proof (get_comprehension_map_is_Some
    (fun team =>
       ("players" +:+ pretty (id team),
        PDict (literal [
          "priority" ~> int 10;
          "ipv4_address" ~>
            str ("10.80." +:+ pretty (id team) +:+ ".250")])))
    (filter (fun team => nop team = false) (teams config)) k) as Hp.
  pose proof (get_comprehension_map_is_Some
    (fun team =>
       ("vm-team" +:+ pretty (id team),
        PDict (literal [
          "priority" ~> int 10;
          "ipv4_address" ~>
            str ("10.60." +:+ pretty (id team) +:+ ".250")])))
    (teams config) k) as Hv.
  simpl in Hp, Hv. setoid_rewrite list_elem_of_filter in Hp.
  destruct (get (comprehension (map _ (filter _ _))) k) as [w|]; simpl.
  { split; [intros _ | eauto].
    destruct Hp as [(team & [? ?] & <-) _]; [eauto|]. do 3 right. eauto. }
  destruct (decide ("externalnet" = k)) as [<-|?]; [split; eauto|].
  destruct (decide ("gameserver" = k)) as [<-|?]; [split; eauto|].
  rewrite Hv. split.
  - intros (team & ? & <-). right. right. left. eauto.
  - intros [->|[->|[(team & ? & ->)|(team & ? & ? & ->)]]]; [done..|eauto|].
    destruct Hp as [_ Hp]. destruct Hp as [? [=]]. exists team. eauto.
Qed.

Lemma networks_keys k :
  k ∈ keys (networks config) <->
  k = "externalnet" \/ k = "internalnet" \/ k = "gameserver"
  \/ (exists team, team ∈ teams config /\ k = "vm-team" +:+ pretty (id team))
  \/ (exists team, team ∈ teams config /\ nop team = false
         /\ k = "players" +:+ pretty (id team)).
Proof.
  rewrite <- get_is_Some, networks_get.
  pose proof (get_comprehension_map_is_Some
    (fun team => ("players" +:+ pretty (id team), players_network team))
    (filter (fun team => nop team = false) (teams config)) k) as Hp.
  pose proof (get_comprehension_map_is_Some
    (fun team => ("vm-team" +:+ pretty (id team), vm_network team))
    (teams config) k) as Hv.
  simpl in Hp, Hv. setoid_rewrite list_elem_of_filter in Hp.
  destruct (get (comprehension (map _ (filter _ _))) k) as [w|]; simpl.
  { split; [intros _ | eauto].
    destruct Hp as [(team & [? ?] & <-) _]; [eauto|]. do 4 right. eauto. }
  destruct (get (comprehension (map _ (teams config))) k) as [w|]; simpl.
  { split; [intros _ | eauto].
    destruct Hv as [(team & ? & <-) _]; [eauto|]. do 3 right. left. eauto. }
  destruct (decide ("gameserver" = k)) as [<-|?]; [split; eauto|].
  destruct (decide ("internalnet" = k)) as [<-|?]; [split; eauto|].
  destruct (decide ("externalnet" = k)) as [<-|?]; [split; eauto|].
  split; [by intros [? [=]]|].
  intros [->|[->|[->|[(team & ? & ->)|(team & ? & ? & ->)]]]]; [done..| |].
  - destruct Hv as [_ Hv]. destruct Hv as [? [=]]. eauto.
  - destruct Hp as [_ Hp]. destruct Hp as [? [=]]. exists team. eauto.
Qed.

(** Whatever is keyed [players<j>] or [wireguard<j>] comes from a team that
    is not a nop team. *)
Lemma networks_players_Some j v :
  get (networks config) ("players" +:+ j) = Some v ->
  exists team, team ∈ teams config /\ nop team = false
    /\ j = pretty (id team) /\ v = players_network team.
Proof.
  rewrite networks_get. other_family.
  destruct (get (comprehension (map _ (filter _ _))) _) as [w|] eqn:Hw;
    [|done].
  simpl. intros [= <-]. apply get_comprehension_map_Some in Hw.
  destruct Hw as (team & [Hnop Hin]%list_elem_of_filter & [= Hkey <-]).
  exists team. split_and!; [done..| |done]. by simplify_eq.
Qed.

Lemma router_networks_players_Some j v :
  get (router_networks config) ("players" +:+ j) = Some v ->
  exists team, team ∈ teams config /\ nop team = false
    /\ j = pretty (id team).
Proof.
  rewrite router_networks_get. other_family.
  destruct (get (comprehension (map _ (filter _ _))) _) as [w|] eqn:Hw;
    [|done].
  intros _. apply get_comprehension_map_Some in Hw.
  destruct Hw as (team & [Hnop Hin]%list_elem_of_filter & [= Hkey _]).
  exists team. split_and!; [done..|]. by simplify_eq.
Qed.

Lemma services_wireguard_Some j v :
  get (services host config) ("wireguard" +:+ j) = Some v ->
  exists team, team ∈ teams config /\ nop team = false
    /\ j = pretty (id team) /\ v = wireguard_service host config team.
Proof.
  rewrite services_get. other_family.
  destruct (get (comprehension (map _ (filter _ _))) _) as [w|] eqn:Hw;
    [|done].
  simpl. intros [= <-]. apply get_comprehension_map_Some in Hw.
  destruct Hw as (team & [Hnop Hin]%list_elem_of_filter & [= Hkey <-]).
  exists team. split_and!; [done..| |done]. by simplify_eq.
Qed.

(** *** Inside the services *)

Lemma topology_services :
  py_step (compose_topology host config) (Key "services")
  = Some (PDict (services host config)).
Proof. reflexivity. Qed.

Lemma topology_networks :
  py_step (compose_topology host config) (Key "networks")
  = Some (PDict (networks config)).
Proof. reflexivity. Qed.

Lemma router_service_networks :
  py_get (router_service config) "networks"
  = Some (PDict (router_networks config)).
Proof. reflexivity. Qed.

Lemma router_service_depends_on :
  py_get (router_service config) "depends_on" = None.
Proof. reflexivity. Qed.

Lemma database_service_networks :
  py_get (database_service config) "networks"
  = Some (PDict (literal ["internalnet" ~> str ""])).
Proof. reflexivity. Qed.

Lemma database_service_depends_on :
  py_get (database_service config) "depends_on" = None.
Proof. reflexivity. Qed.

Lemma gameserver_service_depends_on :
  py_get (gameserver_service config) "depends_on"
  = Some (PList (str "router" :: str "database"
                 :: map (fun team => str ("team" +:+ pretty (id team)))
                      (teams config))).
Proof.
  unfold gameserver_service.
  by destruct (gameserver_exposed_port config).
Qed.

Lemma gameserver_service_networks :
  py_get (gameserver_service config) "networks"
  = Some (PDict (literal [
            "internalnet" ~> PDict (literal ["priority" ~> int 1]);
            "gameserver" ~> PDict (literal [
              "priority" ~> int 10;
              "ipv4_address" ~> str "10.10.0.1"])])).
Proof.
  unfold gameserver_service.
  by destruct (gameserver_exposed_port config).
Qed.

Lemma team_service_networks team :
  py_get (team_service config team) "networks"
  = Some (PDict (literal [
            "vm-team" +:+ pretty (id team) ~> PDict (literal [
              "ipv4_address" ~>
                str ("10.60." +:+ pretty (id team) +:+ ".1")])])).
Proof.
  unfold team_service.
  by destruct (truthy (max_disk_size config)),
              (unsafe_privileged config).
Qed.

Lemma team_service_depends_on team :
  py_get (team_service config team) "depends_on" = None.
Proof.
  unfold team_service.
  by destruct (truthy (max_disk_size config)),
              (unsafe_privileged config).
Qed.

Lemma wireguard_service_networks team :
  py_get (wireguard_service host config team) "networks"
  = Some (PDict (literal [
            "players" +:+ pretty (id team) ~> PDict (literal [
              "ipv4_address" ~>
                str ("10.80." +:+ pretty (id team) +:+ ".128")])])).
Proof. reflexivity. Qed.

Lemma wireguard_service_depends_on team :
  py_get (wireguard_service host config team) "depends_on" = None.
Proof. reflexivity. Qed.

Lemma wireguard_service_ports team :
  py_get (wireguard_service host config team) "ports"
  = Some (PList [
            str (pretty (wireguard_start_port config + id team)
                 +:+ ":51820/udp")]).
Proof. reflexivity. Qed.

Lemma wireguard_service_serverport team :
  py_path (wireguard_service host config team)
    [Key "environment"; Key "SERVERPORT"]
  = Some (int (wireguard_start_port config + id team)).
Proof. reflexivity. Qed.

Lemma router_service_serverport :
  py_path (router_service config) [Key "environment"; Key "SERVERPORT"] = None.
Proof. reflexivity. Qed.

Lemma database_service_serverport :
  py_path (database_service config) [Key "environment"; Key "SERVERPORT"]
  = None.
Proof. reflexivity. Qed.

Lemma gameserver_service_serverport :
  py_path (gameserver_service config) [Key "environment"; Key "SERVERPORT"]
  = None.
Proof.
  unfold gameserver_service. by destruct (gameserver_exposed_port config).
Qed.

Lemma team_service_serverport team :
  py_path (team_service config team) [Key "environment"; Key "SERVERPORT"]
  = None.
Proof.
  unfold team_service.
  by destruct (truthy (max_disk_size config)), (unsafe_privileged config).
Qed.

End lookups.

Lemma py_path_cons v s v' p :
  py_step v s = Some v' -> py_path v (s :: p) = py_path v' p.
Proof. intros H. simpl. by rewrite H. Qed.

Lemma py_path_key d k v' p :
  get d k = Some v' -> py_path (PDict d) (Key k :: p) = py_path v' p.
Proof. intros H. simpl. by rewrite H. Qed.

Lemma py_path_singleton k v p :
  py_path (PDict (literal [k ~> v])) (Key k :: p) = py_path v p.
Proof.
  apply py_path_key. unfold literal. cbn [foldl add_entry setitem get].
  by rewrite decide_True.
Qed.

Lemma py_path_get v k v' p :
  py_get v k = Some v' -> py_path v (Key k :: p) = py_path v' p.
Proof. intros H. destruct v; [done..|]. by apply py_path_key. Qed.

End TopologyFacts.

(** ** Facts about team generation *)

Module TeamFacts.
Section generation.
Context `{rt : Runtime}.
Variable enable_nop_team : bool.
Variable wireguard_start_port : Z.

Lemma generate_teams_array_generated number_of_teams rng :
  Forall2 (generated enable_nop_team wireguard_start_port)
    (range (number_of_teams + (if enable_nop_team then 1 else 0)))
    (generate_teams_array number_of_teams enable_nop_team
       wireguard_start_port rng).1.
Proof.
  unfold generate_teams_array.
  generalize (range (number_of_teams + (if enable_nop_team then 1 else 0))).
  intros l.
  match goal with |- context [foldl ?F _ l] => set (body := F) end.
  enough (forall acc r,
            exists ts,
              Forall2 (generated enable_nop_team wireguard_start_port) l ts
              /\ (foldl body (acc, r) l).1 = acc ++ ts) as Hgen.
  { destruct (Hgen [] rng) as (ts & Hts & ->). done. }
  induction l as [|i l IH]; intros acc r; simpl.
  - exists []. split; [constructor | by rewrite app_nil_r].
  - destruct (token_hex 32 r) as [tok r'].
    match goal with
    | |- context [foldl body (acc ++ [?t], r') l] =>
        destruct (IH (acc ++ [t]) r') as (ts & Hts & ->); exists (t :: ts)
    end.
    split; [|by rewrite <- app_assoc].
    constructor; [|done].
    unfold generated. by destruct (bool_decide (i = 0) && enable_nop_team).
Qed.

Lemma generated_ids l ts :
  Forall2 (generated enable_nop_team wireguard_start_port) l ts ->
  map id ts = l.
Proof.
  induction 1 as [|i t l ts (Hid & _) _ IH]; [done|]. simpl. by rewrite Hid, IH.
Qed.

End generation.
End TeamFacts.

(** ** Facts about the interactive prompt *)

Module InputFacts.
Section prompt.
Context `{rt : Runtime}.

Lemma bind_Ok {A B : Type} (m : io A) (f : A -> io B) w b w' :
  (m ≫= f) w = Ok b w' ->
  exists a w1, m w = Ok a w1 /\ f a w1 = Ok b w'.
Proof.
  unfold mbind, io_bind. destruct (m w) as [a w1| |]; [eauto|done..].
Qed.

Lemma ret_Ok {A : Type} (a b : A) w w' :
  mret (M := io) a w = Ok b w' -> b = a /\ w' = w.
Proof. by intros [= -> ->]. Qed.

(** A loop that returns has left its condition false. *)
Lemma while_Ok {S : Type} fuel (cond : S -> bool) (body : S -> io S) s w s' w' :
  while fuel cond body s w = Ok s' w' -> cond s' = false.
Proof.
  revert s w. induction fuel as [|fuel IH]; intros s w; simpl.
  - destruct (cond s) eqn:Hc; [done|]. by intros [= <- _].
  - destruct (cond s) eqn:Hc; [|by intros [= <- _]].
    intros (s1 & w1 & _ & Hrest)%bind_Ok. eauto.
Qed.

Lemma with_rng_Ok {A : Type} (f : Rng -> A * Rng) w a w' :
  with_rng f w = Ok a w' -> a = (f (rng w)).1.
Proof. unfold with_rng. destruct (f (rng w)). by intros [= <- _]. Qed.

(** What [config_input] has checked of the config it returns. *)
Lemma config_input_Ok fuel a w config w' :
  config_input fuel a w = Ok config w' ->
  exists (n : Z) (enable_nop_team : bool) (r : Rng),
    0 <= n < 250
    /\ 1 <= wireguard_start_port config <= 65535 - n
    /\ teams config
       = (generate_teams_array n enable_nop_team
            (wireguard_start_port config) r).1.
Proof.
  unfold config_input. intros H.
  apply bind_Ok in H as (n0 & w1 & _ & H).
  apply bind_Ok in H as (n & w2 & Hn & H).
  apply bind_Ok in H as (p0 & w3 & _ & H).
  apply bind_Ok in H as (p & w4 & Hp & H).
  apply while_Ok in Hn. apply while_Ok in Hp.
  do 17 (apply bind_Ok in H as (? & ? & _ & H)).
  apply bind_Ok in H as (gameserver_token & ? & _ & H).
  apply bind_Ok in H as (enable_nop_team & ? & _ & H).
  apply bind_Ok in H as (sysbox & wt & _ & H).
  apply bind_Ok in H as (ts & ? & Hts & H).
  apply with_rng_Ok in Hts.
  do 3 (apply bind_Ok in H as (? & ? & _ & H)).
  apply ret_Ok in H as [-> _]. simpl.
  exists n, enable_nop_team, (rng wt). split_and!; (lia || done).
Qed.

(** *** Fuel *)

Lemma reads_tame {A : Type} fuel (m : io A) : reads fuel m -> tame fuel m.
Proof.
  intros Hm w Hw. destruct (Hm w Hw) as [Hfuel Hlen]. split; [done|].
  intros a w' Hok. specialize (Hlen a w' Hok). lia.
Qed.

Lemma tame_ret {A : Type} fuel (a : A) : tame fuel (mret a).
Proof. intros w _. split; [done|]. by intros ? ? [= _ <-]. Qed.

Lemma tame_value_or {A : Type} fuel (o : option A) : tame fuel (value_or o).
Proof. destruct o; [apply tame_ret|]. intros w _. by split. Qed.

Lemma tame_with_rng {A : Type} fuel (f : Rng -> A * Rng) :
  tame fuel (with_rng f).
Proof.
  intros w _. unfold with_rng. destruct (f (rng w)). split; [done|].
  by intros ? ? [= _ <-].
Qed.

Lemma reads_input fuel : reads fuel input.
Proof.
  intros w _. unfold input. destruct (stdin w) as [|line rest]; [by split|].
  split; [done|]. intros ? ? [= _ <-]. simpl. lia.
Qed.

Lemma tame_bind {A B : Type} fuel (m : io A) (f : A -> io B) :
  tame fuel m -> (forall a, tame fuel (f a)) -> tame fuel (m ≫= f).
Proof.
  intros Hm Hf w Hw. unfold mbind, io_bind.
  destruct (Hm w Hw) as [Hfuel Hlen].
  destruct (m w) as [a w1| |]; [|by split|done].
  specialize (Hlen a w1 eq_refl).
  destruct (Hf a w1) as [Hfuel' Hlen']; [lia|]. split; [done|].
  intros b w' Hok. specialize (Hlen' b w' Hok). lia.
Qed.

Lemma reads_bind {A B : Type} fuel (m : io A) (f : A -> io B) :
  reads fuel m -> (forall a, tame fuel (f a)) -> reads fuel (m ≫= f).
Proof.
  intros Hm Hf w Hw. unfold mbind, io_bind.
  destruct (Hm w Hw) as [Hfuel Hlen].
  destruct (m w) as [a w1| |]; [|by split|done].
  specialize (Hlen a w1 eq_refl).
  destruct (Hf a w1) as [Hfuel' Hlen']; [lia|]. split; [done|].
  intros b w' Hok. specialize (Hlen' b w' Hok). lia.
Qed.

(** A loop whose body reads a line each time round has fuel enough when it
    has more fuel than there are lines. *)
Lemma tame_while {S : Type} fuel (cond : S -> bool) (body : S -> io S) s :
  (forall s, reads fuel (body s)) -> tame fuel (while fuel cond body s).
Proof.
  intros Hbody.
  enough (forall k s w,
            (length (stdin w) < k)%nat -> (length (stdin w) < fuel)%nat ->
            while k cond body s w <> OutOfFuel
            /\ forall s' w', while k cond body s w = Ok s' w' ->
                 (length (stdin w') <= length (stdin w))%nat) as Hloop.
  { intros w Hw. by apply Hloop. }
  clear s. induction k as [|k IH]; intros s w Hk Hw; [lia|]. simpl.
  destruct (cond s); [|by apply (tame_ret fuel s w)].
  unfold mbind, io_bind. destruct (Hbody s w Hw) as [Hfuel Hlen].
  destruct (body s w) as [s1 w1| |]; [|by split|done].
  specialize (Hlen s1 w1 eq_refl).
  destruct (IH s1 w1) as [Hfuel' Hlen']; [lia..|]. split; [done|].
  intros s' w' Hok. specialize (Hlen' s' w' Hok). lia.
Qed.

Lemma reads_get_input {A : Type} fuel (default : A) is_required :
  reads fuel (get_input fuel default is_required).
Proof.
  unfold get_input. apply reads_bind; [apply reads_input|]. intros line.
  case_bool_decide; [apply tame_ret|].
  destruct is_required; [|apply tame_ret].
  apply tame_bind; [|intros ?; apply tame_ret].
  apply tame_while. intros _.
  apply reads_bind; [apply reads_input | intros ?; apply tame_ret].
Qed.

Lemma reads_abs_int_input fuel default :
  reads fuel (abs_int_input fuel default).
Proof.
  unfold abs_int_input. apply reads_bind; [apply reads_get_input|]. intros x.
  apply tame_bind; [apply tame_value_or | intros ?; apply tame_ret].
Qed.

Lemma reads_yes_input fuel : reads fuel (yes_input fuel).
Proof.
  unfold yes_input. apply reads_bind; [apply reads_get_input|]. intros x.
  apply tame_ret.
Qed.

Lemma tame_config_input fuel a : tame fuel (config_input fuel a).
Proof.
  unfold config_input.
  repeat first
    [ apply tame_ret
    | apply tame_value_or
    | apply tame_with_rng
    | apply tame_while; intros ?
    | apply reads_tame, reads_get_input
    | apply reads_tame, reads_abs_int_input
    | apply reads_tame, reads_yes_input
    | apply reads_abs_int_input
    | apply tame_bind; [|intros ?]
    | match goal with |- tame _ (if ?b then _ else _) => destruct b end ].
Qed.

(** With more fuel than lines on the terminal, [config_input] returns a
    config or raises: the fuel does not run out. *)
Lemma config_input_fuel fuel a w :
  (length (stdin w) < fuel)%nat -> config_input fuel a w <> OutOfFuel.
Proof. intros Hw. by apply tame_config_input. Qed.

End prompt.
End InputFacts.

(** ** The code on small inputs *)

Example dict_to_yaml_sample_tree :
  dict_to_yaml Sample.tree 4 0 0 None
  = "jobs:" +:+ nl
    +:+ "    - name: a" +:+ nl
    +:+ "      env:" +:+ nl
    +:+ "    - name: b" +:+ nl.
Proof. reflexivity. Qed.

Example dict_to_yaml_empty_element :
  dict_to_yaml (PList [PDict []; str "x"]) 4 0 0 None = "- x" +:+ nl.
Proof. reflexivity. Qed.

Example setitem_keeps_position :
  Dict.literal ["a" ~> int 1; "b" ~> int 2; ** [("a", int 3)]]
  = [("a", int 3); ("b", int 2)].
Proof. reflexivity. Qed.

Example services_of_sample :
  Dict.keys (services Sample.linux_user Sample.with_nop)
  = ["router"; "database"; "gameserver"; "team0"; "team1"; "team2"; "team3";
     "wireguard1"; "wireguard2"; "wireguard3"].
Proof. reflexivity. Qed.

Example networks_of_sample :
  Dict.keys (networks Sample.with_nop)
  = ["externalnet"; "internalnet"; "gameserver"; "vm-team0"; "vm-team1";
     "vm-team2"; "vm-team3"; "players1"; "players2"; "players3"].
Proof. reflexivity. Qed.

Example generate_teams_array_sample :
  map (fun team => (id team, name team, wireguard_port team, nop team))
    (@generate_teams_array Sample.runtime 2 true 51000 0%nat).1
  = [(0, "Nop Team", 51000, true); (1, "Team 1", 51001, false);
     (2, "Team 2", 51002, false)].
Proof. reflexivity. Qed.

Example config_input_asks_again :
  match @config_input Sample.runtime 30 Sample.defaults Sample.world with
  | Ok config w' =>
      wireguard_start_port config = 65530 /\ length (teams config) = 6%nat
      /\ @stdin Sample.runtime w' = []
  | _ => False
  end.
Proof. vm_compute. done. Qed.

Example config_input_end_of_input :
  @config_input Sample.runtime 30 Sample.defaults
    (@Build_World Sample.runtime ["5"; "65533"] 0%nat)
  = Raise EOFError.
Proof. reflexivity. Qed.

(** * The properties of the generated topology *)

Import Dict DictFacts TopologyFacts.

(** Walking a path one step at a time. *)
Ltac path_key H := rewrite (py_path_key _ _ _ _ H).
Ltac path_get H := rewrite (py_path_get _ _ _ _ H).
Ltac path_into_services :=
  rewrite (py_path_cons _ _ _ _ (topology_services _ _)).
Ltac path_into_networks :=
  rewrite (py_path_cons _ _ _ _ (topology_networks _ _)).

Lemma filter_eq_not_elem (l : list string) (x : string) :
  x ∉ l -> filter (fun y => y = x) l = [].
Proof.
  induction l as [|y l IH]; [done|].
  rewrite not_elem_of_cons, filter_cons. intros [Hne Hl].
  rewrite decide_False by done. auto.
Qed.

Lemma count_NoDup_elem (l : list string) (x : string) :
  NoDup l -> x ∈ l -> length (filter (fun y => y = x) l) = 1%nat.
Proof.
  induction 1 as [|y l Hy Hl IH]; [by intros ?%elem_of_nil|].
  rewrite filter_cons. intros [->|Hin]%elem_of_cons.
  - rewrite decide_True by done. by rewrite filter_eq_not_elem.
  - rewrite decide_False by (intros ->; done). auto.
Qed.

(** ** Determinism *)

(** C1, as stated, fails: the compose file is not a function of the config
    alone.  The same config compiled for a Linux user with uid 1000 and on
    another system gives two different files ([PUID], [PGID]). *)
Lemma compose_depends_on_host :
  py_path (compose_topology Sample.linux_user Sample.with_nop)
    [Key "services"; Key "wireguard1"; Key "environment"; Key "PUID"]
  = Some (int 1000)
  /\ py_path (compose_topology Sample.other_os Sample.with_nop)
       [Key "services"; Key "wireguard1"; Key "environment"; Key "PUID"]
     = Some (int 0)
  /\ write_compose Sample.linux_user Sample.with_nop ∅ !! g.composefile
     <> write_compose Sample.other_os Sample.with_nop ∅ !! g.composefile.
Proof. split_and!; [reflexivity | reflexivity | compute_done]. Qed.

Lemma wireguard_service_host host1 host2 config team :
  effective_uid host1 = effective_uid host2 ->
  effective_gid host1 = effective_gid host2 ->
  wireguard_service host1 config team = wireguard_service host2 config team.
Proof.
  unfold effective_uid, effective_gid, wireguard_service. by intros -> ->.
Qed.

(** C1, amended: on a given host (what [os.getuid()], [os.getgid()] and
    [is_linux()] return there) the compose file is a function of the config:
    two compilations of a config, whatever the file held before, on hosts
    that give the same uid and gid to the compose file, write the same text,
    and compiling again changes nothing. *)
Theorem write_compose_deterministic (host1 host2 : Host) (config : Config)
    (fs1 fs2 : gmap string string) :
  effective_uid host1 = effective_uid host2 ->
  effective_gid host1 = effective_gid host2 ->
  write_compose host1 config fs1 !! g.composefile
  = write_compose host2 config fs2 !! g.composefile
  /\ write_compose host1 config fs1 !! g.composefile
     = Some (dict_to_yaml (compose_topology host1 config) 4 0 0 None)
  /\ write_compose host1 config (write_compose host1 config fs1)
     = write_compose host1 config fs1.
Proof.
  intros Huid Hgid. unfold write_compose. split_and!.
  - rewrite !lookup_insert_eq. do 2 f_equal.
    unfold compose_topology, services.
    rewrite (map_ext
               (fun team => ("wireguard" +:+ pretty (id team),
                             wireguard_service host1 config team))
               (fun team => ("wireguard" +:+ pretty (id team),
                             wireguard_service host2 config team)));
      [done|].
    intros team. by rewrite (wireguard_service_host host1 host2).
  - by rewrite lookup_insert_eq.
  - by rewrite insert_insert_eq.
Qed.

Lemma write_compose_deterministic_witness :
  effective_uid Sample.linux_root = effective_uid Sample.other_os
  /\ effective_gid Sample.linux_root = effective_gid Sample.other_os
  /\ write_compose Sample.linux_root Sample.with_nop ∅ !! g.composefile
     = write_compose Sample.other_os Sample.with_nop
         {[ g.composefile := "stale" ]} !! g.composefile.
Proof.
  split_and!; [reflexivity | reflexivity |].
  exact (proj1 (write_compose_deterministic Sample.linux_root Sample.other_os
                  Sample.with_nop ∅ {[ g.composefile := "stale" ]}
                  eq_refl eq_refl)).
Defined.

(** ** The address plan *)

(** C2: the shared gameserver network is [10.10.0.0/24] with gateway [.254],
    router attachment [.250] and gameserver host [.1], and there is one such
    network; every team [i] of the config has the VM network [10.60.i.0/24]
    with gateway [.254], router attachment [.250] and team VM host [.1]; every
    team that is not the nop team has the player network [10.80.i.0/24] with
    gateway [.254], router attachment [.250] and VPN endpoint host [.128]. *)
Theorem address_plan (host : Host) (config : Config) :
  let topology := compose_topology host config in
  (py_path topology
     [Key "networks"; Key "gameserver"; Key "ipam"; Key "config"; Index 0;
      Key "subnet"] = Some (str "10.10.0.0/24")
   /\ py_path topology
        [Key "networks"; Key "gameserver"; Key "ipam"; Key "config"; Index 0;
         Key "gateway"] = Some (str "10.10.0.254")
   /\ py_path topology
        [Key "services"; Key "router"; Key "networks"; Key "gameserver";
         Key "ipv4_address"] = Some (str "10.10.0.250")
   /\ py_path topology
        [Key "services"; Key "gameserver"; Key "networks"; Key "gameserver";
         Key "ipv4_address"] = Some (str "10.10.0.1")
   /\ length (filter (fun k => k = "gameserver") (keys (networks config)))
      = 1%nat)
  /\ forall team, team ∈ teams config ->
     let i := pretty (id team) in
     (py_path topology
        [Key "networks"; Key ("vm-team" +:+ i); Key "ipam"; Key "config";
         Index 0; Key "subnet"] = Some (str ("10.60." +:+ i +:+ ".0/24"))
      /\ py_path topology
           [Key "networks"; Key ("vm-team" +:+ i); Key "ipam"; Key "config";
            Index 0; Key "gateway"] = Some (str ("10.60." +:+ i +:+ ".254"))
      /\ py_path topology
           [Key "services"; Key "router"; Key "networks";
            Key ("vm-team" +:+ i); Key "ipv4_address"]
         = Some (str ("10.60." +:+ i +:+ ".250"))
      /\ py_path topology
           [Key "services"; Key ("team" +:+ i); Key "networks";
            Key ("vm-team" +:+ i); Key "ipv4_address"]
         = Some (str ("10.60." +:+ i +:+ ".1")))
     /\ (nop team = false ->
         py_path topology
           [Key "networks"; Key ("players" +:+ i); Key "ipam"; Key "config";
            Index 0; Key "subnet"] = Some (str ("10.80." +:+ i +:+ ".0/24"))
         /\ py_path topology
              [Key "networks"; Key ("players" +:+ i); Key "ipam"; Key "config";
               Index 0; Key "gateway"]
            = Some (str ("10.80." +:+ i +:+ ".254"))
         /\ py_path topology
              [Key "services"; Key "router"; Key "networks";
               Key ("players" +:+ i); Key "ipv4_address"]
            = Some (str ("10.80." +:+ i +:+ ".250"))
         /\ py_path topology
              [Key "services"; Key ("wireguard" +:+ i); Key "networks";
               Key ("players" +:+ i); Key "ipv4_address"]
            = Some (str ("10.80." +:+ i +:+ ".128"))).
Proof.
  intros topology. subst topology. split.
  - split_and!.
    + path_into_networks. by path_key (networks_gameserver config).
    + path_into_networks. by path_key (networks_gameserver config).
    + path_into_services. path_key (services_router host config).
      path_get (router_service_networks config).
      by path_key (router_networks_gameserver config).
    + path_into_services. path_key (services_gameserver host config).
      by path_get (gameserver_service_networks config).
    + apply count_NoDup_elem; [apply NoDup_literal|].
      apply get_is_Some. rewrite networks_gameserver. eauto.
  - intros team Hin i. subst i. split.
    + destruct (networks_vm config team Hin) as (t1 & _ & Hid1 & Hvm).
      destruct (services_team host config team Hin) as (t2 & _ & Hid2 & Hsvc).
      split_and!.
      * path_into_networks. path_key Hvm. by rewrite <- Hid1.
      * path_into_networks. path_key Hvm. by rewrite <- Hid1.
      * path_into_services. path_key (services_router host config).
        path_get (router_service_networks config).
        by path_key (router_networks_vm config team Hin).
      * path_into_services. path_key Hsvc.
        path_get (team_service_networks config t2).
        by rewrite Hid2, py_path_singleton.
    + intros Hnop.
      destruct (networks_players config team Hin Hnop) as (t1 & _ & Hid1 & Hpl).
      destruct (services_wireguard host config team Hin Hnop)
        as (t2 & _ & Hid2 & _ & Hsvc).
      split_and!.
      * path_into_networks. path_key Hpl. by rewrite <- Hid1.
      * path_into_networks. path_key Hpl. by rewrite <- Hid1.
      * path_into_services. path_key (services_router host config).
        path_get (router_service_networks config).
        by path_key (router_networks_players config team Hin Hnop).
      * path_into_services. path_key Hsvc.
        path_get (wireguard_service_networks host config t2).
        by rewrite Hid2, py_path_singleton.
Qed.

Lemma address_plan_witness :
  Sample.team 1 false ∈ teams Sample.with_nop
  /\ nop (Sample.team 1 false) = false
  /\ py_path (compose_topology Sample.linux_user Sample.with_nop)
       [Key "networks"; Key "vm-team1"; Key "ipam"; Key "config"; Index 0;
        Key "subnet"] = Some (str "10.60.1.0/24")
  /\ py_path (compose_topology Sample.linux_user Sample.with_nop)
       [Key "services"; Key "wireguard1"; Key "networks"; Key "players1";
        Key "ipv4_address"] = Some (str "10.80.1.128").
Proof.
  assert (Sample.team 1 false ∈ teams Sample.with_nop) as Hin
    by apply list_elem_of_further, list_elem_of_here.
  destruct (address_plan Sample.linux_user Sample.with_nop) as [_ Hteam].
  destruct (Hteam (Sample.team 1 false) Hin) as [(Hsubnet & _) Hplayers].
  destruct (Hplayers eq_refl) as (_ & _ & _ & Hvpn).
  split_and!; [exact Hin | reflexivity | exact Hsubnet | exact Hvpn].
Defined.

(** ** The VPN ports *)

(** The services of a config with the four playing teams 0 to 3. *)
Lemma services_four_teams host config t0 t1 t2 t3 :
  teams config = [t0; t1; t2; t3] ->
  map id [t0; t1; t2; t3] = [0; 1; 2; 3] ->
  Forall (fun team => nop team = false) [t0; t1; t2; t3] ->
  services host config
  = [("router", router_service config);
     ("database", database_service config);
     ("gameserver", gameserver_service config);
     ("team0", team_service config t0);
     ("team1", team_service config t1);
     ("team2", team_service config t2);
     ("team3", team_service config t3);
     ("wireguard0", wireguard_service host config t0);
     ("wireguard1", wireguard_service host config t1);
     ("wireguard2", wireguard_service host config t2);
     ("wireguard3", wireguard_service host config t3)].
Proof.
  intros Hteams [= Hid0 Hid1 Hid2 Hid3] Hnop.
  apply Forall_cons in Hnop as [Hnop0 Hnop].
  apply Forall_cons in Hnop as [Hnop1 Hnop].
  apply Forall_cons in Hnop as [Hnop2 Hnop].
  apply Forall_cons in Hnop as [Hnop3 _].
  unfold services. rewrite Hteams.
  rewrite !filter_cons, filter_nil, !decide_True by done.
  cbn [map]. rewrite Hid0, Hid1, Hid2, Hid3.
  generalize (router_service config), (database_service config),
    (gameserver_service config), (team_service config),
    (wireguard_service host config).
  intros R D G T W.
  generalize (T t0), (T t1), (T t2), (T t3), (W t0), (W t1), (W t2), (W t3).
  intros. vm_compute. reflexivity.
Qed.

(** C3: the VPN endpoint of every team that is not the nop team publishes the
    external port [wireguard_start_port + team.id], in its port mapping and
    in its [SERVERPORT]; with start port 51000 and the four playing teams that
    [generate_teams_array] makes, the ports are 51000, 51001, 51002, 51003. *)
Theorem vpn_port_allocation `{rt : Runtime} (host : Host) (config : Config) :
  (forall team, team ∈ teams config -> nop team = false ->
     let port := wireguard_start_port config + id team in
     py_path (compose_topology host config)
       [Key "services"; Key ("wireguard" +:+ pretty (id team)); Key "ports"]
     = Some (PList [str (pretty port +:+ ":51820/udp")])
     /\ py_path (compose_topology host config)
          [Key "services"; Key ("wireguard" +:+ pretty (id team));
           Key "environment"; Key "SERVERPORT"]
        = Some (int port))
  /\ (forall rng,
        wireguard_start_port config = 51000 ->
        teams config = (generate_teams_array 4 false 51000 rng).1 ->
        allocated_ports (compose_topology host config)
        = [51000; 51001; 51002; 51003]).
Proof.
  split.
  - intros team Hin Hnop port. subst port.
    destruct (services_wireguard host config team Hin Hnop)
      as (team' & _ & Hid & _ & Hsvc).
    split.
    + path_into_services. path_key Hsvc.
      path_get (wireguard_service_ports host config team').
      by rewrite Hid.
    + path_into_services. path_key Hsvc.
      rewrite wireguard_service_serverport. by rewrite Hid.
  - intros rng Hstart Hteams.
    pose proof (TeamFacts.generate_teams_array_generated false 51000 4 rng)
      as Hgen.
    rewrite <- Hteams in Hgen. change (range (4 + 0)) with [0; 1; 2; 3] in Hgen.
    destruct (teams config) as [|t0 [|t1 [|t2 [|t3 [|t4 ts]]]]] eqn:Hts;
      try by (repeat match goal with
                     | H : Forall2 _ _ _ |- _ => inversion H; clear H; subst
                     end).
    assert (map id [t0; t1; t2; t3] = [0; 1; 2; 3]) as Hids
      by (eapply TeamFacts.generated_ids, Hgen).
    assert (Forall (fun team => nop team = false) [t0; t1; t2; t3]) as Hnops.
    { eapply Forall2_Forall_r; [exact Hgen|]. apply Forall_forall.
      intros i _ team (_ & _ & -> & _). apply andb_false_r. }
    unfold allocated_ports.
    change (py_get (compose_topology host config) "services")
      with (Some (PDict (services host config))).
    rewrite (services_four_teams host config t0 t1 t2 t3 Hts Hids Hnops).
    injection Hids as Hid0 Hid1 Hid2 Hid3.
    cbn [omap list_omap snd].
    rewrite !wireguard_service_serverport, Hstart, Hid0, Hid1, Hid2, Hid3.
    rewrite router_service_serverport, database_service_serverport,
      gameserver_service_serverport, !team_service_serverport.
    reflexivity.
Qed.

Lemma vpn_port_allocation_witness :
  Sample.team 2 false ∈ teams Sample.with_nop
  /\ nop (Sample.team 2 false) = false
  /\ py_path (compose_topology Sample.linux_user Sample.with_nop)
       [Key "services"; Key "wireguard2"; Key "ports"]
     = Some (PList [str "51002:51820/udp"])
  /\ wireguard_start_port Sample.four_teams = 51000
  /\ teams Sample.four_teams
     = (@generate_teams_array Sample.runtime 4 false 51000 0%nat).1
  /\ allocated_ports (compose_topology Sample.linux_user Sample.four_teams)
     = [51000; 51001; 51002; 51003].
Proof.
  assert (Sample.team 2 false ∈ teams Sample.with_nop) as Hin
    by apply list_elem_of_further, list_elem_of_further, list_elem_of_here.
  destruct (@vpn_port_allocation Sample.runtime Sample.linux_user
              Sample.with_nop) as [Hteam _].
  destruct (Hteam (Sample.team 2 false) Hin eq_refl) as [Hports _].
  destruct (@vpn_port_allocation Sample.runtime Sample.linux_user
              Sample.four_teams) as [_ Hfour].
  split_and!; [exact Hin | reflexivity | exact Hports | reflexivity
              | reflexivity | exact (Hfour 0%nat eq_refl eq_refl)].
Defined.

(** ** The services and what they depend on *)

Lemma strings_map_str (l : list string) : strings (PList (map str l)) = l.
Proof.
  unfold strings. induction l as [|s l IH]; [done|]. csimpl. by rewrite IH.
Qed.

Lemma gameserver_depends_on_names config :
  service_depends_on (gameserver_service config)
  = "router" :: "database"
    :: map (fun team => "team" +:+ pretty (id team)) (teams config).
Proof.
  unfold service_depends_on. rewrite gameserver_service_depends_on.
  change (str "router" :: str "database" :: ?l)
    with (map str ["router"; "database"] ++ l).
  rewrite <- (map_map (fun team => "team" +:+ pretty (id team)) str).
  rewrite <- map_app. by rewrite strings_map_str.
Qed.

(** C4: the gameserver service depends on the router, the database and the VM
    service of every team (the nop team too), and on nothing else, whatever
    the number of teams; each of these VM services is in the topology; with no
    team at all the services are the router, the database and the gameserver,
    and no network or attachment is keyed by a team. *)
Theorem gameserver_dependencies (host : Host) (config : Config) :
  let topology := compose_topology host config in
  py_path topology [Key "services"; Key "gameserver"]
  = Some (gameserver_service config)
  /\ service_depends_on (gameserver_service config)
     = "router" :: "database"
       :: map (fun team => "team" +:+ pretty (id team)) (teams config)
  /\ (forall name,
        name ∈ service_depends_on (gameserver_service config) <->
        name = "router" \/ name = "database"
        \/ exists team, team ∈ teams config
                        /\ name = "team" +:+ pretty (id team))
  /\ (forall team, team ∈ teams config ->
        exists team', team' ∈ teams config /\ id team' = id team
          /\ py_path topology
               [Key "services"; Key ("team" +:+ pretty (id team))]
             = Some (team_service config team'))
  /\ (teams config = [] ->
        keys (services host config) = ["router"; "database"; "gameserver"]
        /\ service_depends_on (gameserver_service config)
           = ["router"; "database"]
        /\ keys (networks config) = ["externalnet"; "internalnet"; "gameserver"]
        /\ service_networks (router_service config)
           = ["gameserver"; "externalnet"]).
Proof.
  intros topology. subst topology. split_and!.
  - path_into_services. by path_key (services_gameserver host config).
  - apply gameserver_depends_on_names.
  - intros name. rewrite gameserver_depends_on_names, !elem_of_cons.
    rewrite list_elem_of_fmap. naive_solver.
  - intros team Hin.
    destruct (services_team host config team Hin)
      as (team' & Hin' & Hid & Hsvc).
    exists team'. split_and!; [done..|].
    path_into_services. by path_key Hsvc.
  - intros Hnone. rewrite gameserver_depends_on_names.
    unfold services, networks, service_networks.
    rewrite router_service_networks. unfold router_networks.
    rewrite Hnone. done.
Qed.

Lemma gameserver_dependencies_witness :
  teams Sample.no_teams = []
  /\ keys (services Sample.linux_user Sample.no_teams)
     = ["router"; "database"; "gameserver"]
  /\ Sample.team 0 true ∈ teams Sample.with_nop
  /\ "team0" ∈ service_depends_on (gameserver_service Sample.with_nop).
Proof.
  destruct (gameserver_dependencies Sample.linux_user Sample.no_teams)
    as (_ & _ & _ & _ & Hnone).
  destruct (gameserver_dependencies Sample.linux_user Sample.with_nop)
    as (_ & _ & Hdeps & _).
  split_and!.
  - reflexivity.
  - exact (proj1 (Hnone eq_refl)).
  - apply list_elem_of_here.
  - apply Hdeps. right. right. exists (Sample.team 0 true).
    split; [apply list_elem_of_here | reflexivity].
Defined.

(** ** The nop team *)

Lemma NoDup_ids_eq (l : list Team) (t t' : Team) :
  NoDup (map id l) -> t ∈ l -> t' ∈ l -> id t = id t' -> t = t'.
Proof.
  induction l as [|x l IH]; [by intros _ ?%elem_of_nil|].
  csimpl. rewrite NoDup_cons, !elem_of_cons.
  intros [Hx Hl] [->|Ht] [->|Ht'] Hid; [done| | |by apply IH].
  - destruct Hx. rewrite Hid. apply list_elem_of_fmap. eauto.
  - destruct Hx. rewrite <- Hid. apply list_elem_of_fmap. eauto.
Qed.

(** The networks each kind of service is attached to. *)
Lemma service_networks_cases host config name service :
  get (services host config) name = Some service ->
  service_networks service = keys (router_networks config)
  \/ service_networks service = ["internalnet"]
  \/ service_networks service = ["internalnet"; "gameserver"]
  \/ (exists team, team ∈ teams config
        /\ service_networks service = ["vm-team" +:+ pretty (id team)])
  \/ (exists team, team ∈ teams config /\ nop team = false
        /\ service_networks service = ["players" +:+ pretty (id team)]).
Proof.
  intros [(_ & ->)|[(_ & ->)|[(_ & ->)|[(team & Hin & _ & ->)
                                       |(team & Hin & Hnop & _ & ->)]]]]
    %services_get_Some; unfold service_networks.
  - left. by rewrite router_service_networks.
  - right. left. by rewrite database_service_networks.
  - do 2 right. left. by rewrite gameserver_service_networks.
  - do 3 right. left. exists team. by rewrite team_service_networks.
  - do 4 right. exists team. by rewrite wireguard_service_networks.
Qed.

(** C5: the nop team never appears in a player or VPN network or service.
    Whatever the config, a player network, a VPN endpoint service or a router
    attachment to a player network is keyed by the id of a team that is not a
    nop team, and a nop team still has its VM network, its VM service and its
    place in what the gameserver depends on.  In a config whose team ids are
    distinct, as the Config Model has them, nothing of the three is keyed by
    the id of the nop team, and no service is attached to a player network of
    that id. *)
Theorem nop_team_excluded (host : Host) (config : Config) (team : Team) :
  team ∈ teams config ->
  nop team = true ->
  let topology := compose_topology host config in
  let i := pretty (id team) in
  (forall j definition,
     py_path topology [Key "networks"; Key ("players" +:+ j)]
     = Some definition ->
     exists other, other ∈ teams config /\ nop other = false
                   /\ j = pretty (id other))
  /\ (forall j service,
        py_path topology [Key "services"; Key ("wireguard" +:+ j)]
        = Some service ->
        exists other, other ∈ teams config /\ nop other = false
                      /\ j = pretty (id other))
  /\ (forall j attachment,
        py_path topology
          [Key "services"; Key "router"; Key "networks"; Key ("players" +:+ j)]
        = Some attachment ->
        exists other, other ∈ teams config /\ nop other = false
                      /\ j = pretty (id other))
  /\ py_path topology [Key "networks"; Key ("vm-team" +:+ i)]
     = Some (vm_network team)
  /\ (exists team', team' ∈ teams config /\ id team' = id team
        /\ py_path topology [Key "services"; Key ("team" +:+ i)]
           = Some (team_service config team'))
  /\ "team" +:+ i ∈ service_depends_on (gameserver_service config)
  /\ (NoDup (map id (teams config)) ->
      py_path topology [Key "networks"; Key ("players" +:+ i)] = None
      /\ py_path topology [Key "services"; Key ("wireguard" +:+ i)] = None
      /\ py_path topology
           [Key "services"; Key "router"; Key "networks"; Key ("players" +:+ i)]
         = None
      /\ (forall name service,
            py_path topology [Key "services"; Key name] = Some service ->
            "players" +:+ i ∉ service_networks service)
      /\ py_path topology [Key "services"; Key ("team" +:+ i)]
         = Some (team_service config team)).
Proof.
  intros Hin Hnop topology i. subst topology i. split_and!.
  - intros j definition. path_into_networks. cbn [py_path py_step].
    destruct (get (networks config) ("players" +:+ j)) as [v|] eqn:Hv; [|done].
    intros _. apply networks_players_Some in Hv.
    destruct Hv as (other & ? & ? & ? & _). eauto.
  - intros j service. path_into_services. cbn [py_path py_step].
    destruct (get (services host config) ("wireguard" +:+ j)) as [v|] eqn:Hv;
      [|done].
    intros _. apply services_wireguard_Some in Hv.
    destruct Hv as (other & ? & ? & ? & _). eauto.
  - intros j attachment. path_into_services.
    path_key (services_router host config).
    path_get (router_service_networks config). cbn [py_path py_step].
    destruct (get (router_networks config) ("players" +:+ j)) as [v|] eqn:Hv;
      [|done].
    intros _. by apply router_networks_players_Some in Hv.
  - destruct (networks_vm config team Hin) as (team' & Hin' & Hid & Hvm).
    path_into_networks. path_key Hvm. simpl. unfold vm_network.
    by rewrite Hid.
  - destruct (services_team host config team Hin)
      as (team' & Hin' & Hid & Hsvc).
    exists team'. split_and!; [done..|]. path_into_services. by path_key Hsvc.
  - rewrite gameserver_depends_on_names. do 2 right.
    apply list_elem_of_fmap. eauto.
  - intros Hids.
    assert (forall team', team' ∈ teams config -> id team' = id team ->
                          nop team' = true) as Honly.
    { intros team' Hin' Hid.
      by rewrite (NoDup_ids_eq _ team' team Hids Hin' Hin Hid). }
    split_and!.
    + path_into_networks. cbn [py_path py_step].
      by rewrite networks_players_None.
    + path_into_services. cbn [py_path py_step].
      by rewrite services_wireguard_None.
    + path_into_services. path_key (services_router host config).
      path_get (router_service_networks config). cbn [py_path py_step].
      by rewrite router_networks_players_None.
    + intros name service Hpath.
      rewrite (py_path_cons _ _ _ _ (topology_services _ _)) in Hpath.
      cbn [py_path py_step] in Hpath.
      destruct (get (services host config) name) as [svc|] eqn:Hsvc; [|done].
      injection Hpath as ->.
      destruct (service_networks_cases host config name service Hsvc)
        as [->|[->|[->|[(team' & _ & ->)|(team' & Hin' & Hnop' & ->)]]]].
      * apply get_None. by apply router_networks_players_None.
      * by intros ?%list_elem_of_singleton.
      * by intros [?|?%list_elem_of_singleton]%elem_of_cons.
      * by intros ?%list_elem_of_singleton.
      * intros Heq%list_elem_of_singleton. apply team_key_inj in Heq.
        rewrite (Honly team' Hin') in Hnop'; [done | by symmetry].
    + destruct (services_team host config team Hin)
        as (team' & Hin' & Hid & Hsvc).
      path_into_services. path_key Hsvc. simpl.
      by rewrite (NoDup_ids_eq _ team' team Hids Hin' Hin Hid).
Qed.

Lemma nop_team_excluded_witness :
  Sample.team 0 true ∈ teams Sample.with_nop
  /\ nop (Sample.team 0 true) = true
  /\ NoDup (map id (teams Sample.with_nop))
  /\ py_path (compose_topology Sample.linux_user Sample.with_nop)
       [Key "networks"; Key "players0"] = None
  /\ py_path (compose_topology Sample.linux_user Sample.with_nop)
       [Key "services"; Key "wireguard0"] = None
  /\ py_path (compose_topology Sample.linux_user Sample.with_nop)
       [Key "networks"; Key "vm-team0"]
     = Some (vm_network (Sample.team 0 true)).
Proof.
  assert (NoDup (map id (teams Sample.with_nop))) as Hids
    by compute_done.
  assert (Sample.team 0 true ∈ teams Sample.with_nop) as Hin
    by apply list_elem_of_here.
  destruct (nop_team_excluded Sample.linux_user Sample.with_nop
              (Sample.team 0 true) Hin eq_refl)
    as (_ & _ & _ & Hvm & _ & _ & Hdistinct).
  destruct (Hdistinct Hids) as (Hplayers & Hvpn & _).
  split_and!; [exact Hin | reflexivity | exact Hids | exact Hplayers
              | exact Hvpn | exact Hvm].
Defined.

(** ** The port range *)

(** C6, as stated, fails: [write_compose] rejects nothing.  With start port
    65533 and five teams the last port is 65537, and the compose file is
    written with it. *)
Lemma overflow_config_is_compiled :
  port_overflow Sample.overflow
  /\ write_compose Sample.linux_user Sample.overflow ∅ !! g.composefile
     = Some (dict_to_yaml
               (compose_topology Sample.linux_user Sample.overflow) 4 0 0 None)
  /\ py_path (compose_topology Sample.linux_user Sample.overflow)
       [Key "services"; Key "wireguard4"; Key "ports"]
     = Some (PList [str "65537:51820/udp"])
  /\ allocated_ports (compose_topology Sample.linux_user Sample.overflow)
     = [65533; 65534; 65535; 65536; 65537].
Proof.
  split_and!.
  - unfold port_overflow. apply Exists_exists. exists (Sample.team 4 false).
    split; [|simpl; lia].
    do 4 apply list_elem_of_further. apply list_elem_of_here.
  - unfold write_compose. by rewrite lookup_insert_eq.
  - reflexivity.
  - reflexivity.
Qed.

(** C6, amended: the port range is checked where the config is typed in, not
    where it is compiled.  [config_input] asks again until the number of
    teams is below 250 and the start port is between 1 and 65535 minus the
    number of teams, so every team of a config it returns has a port up to
    65535; [write_compose] compiles any config it is given, in range or not,
    and publishes [wireguard_start_port + team.id] for each team that is not
    the nop team.  (The prompt is run with fuel for its loops: more fuel than
    lines to read is enough.) *)
Theorem port_range_checked_at_input `{rt : Runtime} :
  (forall fuel a w config w',
     config_input fuel a w = Ok config w' ->
     1 <= wireguard_start_port config
     /\ (length (teams config) <= 250)%nat
     /\ Forall (fun team =>
                  0 <= id team
                  /\ wireguard_port team = wireguard_start_port config + id team
                  /\ wireguard_port team <= 65535) (teams config)
     /\ ~ port_overflow config)
  /\ (forall fuel a w,
        (length (stdin w) < fuel)%nat -> config_input fuel a w <> OutOfFuel)
  /\ (forall host config fs,
        write_compose host config fs !! g.composefile
        = Some (dict_to_yaml (compose_topology host config) 4 0 0 None))
  /\ (forall host config team,
        team ∈ teams config -> nop team = false ->
        py_path (compose_topology host config)
          [Key "services"; Key ("wireguard" +:+ pretty (id team)); Key "ports"]
        = Some (PList [
                  str (pretty (wireguard_start_port config + id team)
                       +:+ ":51820/udp")])).
Proof.
  split_and!.
  - intros fuel a w config w' Hok.
    apply InputFacts.config_input_Ok in Hok
      as (n & enable_nop_team & r & Hn & Hport & Hteams).
    pose proof (TeamFacts.generate_teams_array_generated enable_nop_team
                  (wireguard_start_port config) n r) as Hgen.
    rewrite <- Hteams in Hgen.
    assert (Forall (fun team =>
                      0 <= id team <= n
                      /\ wireguard_port team
                         = wireguard_start_port config + id team)
              (teams config)) as Hids.
    { eapply Forall2_Forall_r; [exact Hgen|]. apply Forall_forall.
      intros i Hi team (Hid & Hp & _). unfold range in Hi.
      apply elem_of_seqZ in Hi. rewrite Hp, Hid.
      destruct enable_nop_team; lia. }
    split_and!.
    + lia.
    + rewrite <- (Forall2_length _ _ _ Hgen). unfold range.
      rewrite length_seqZ. destruct enable_nop_team; lia.
    + eapply Forall_impl; [exact Hids|]. intros team. simpl. lia.
    + unfold port_overflow. rewrite <- Forall_Exists_neg.
      eapply Forall_impl; [exact Hids|]. intros team. simpl. lia.
  - intros fuel a w. apply InputFacts.config_input_fuel.
  - intros host config fs. unfold write_compose. by rewrite lookup_insert_eq.
  - intros host config team Hin Hnop.
    destruct (services_wireguard host config team Hin Hnop)
      as (team' & _ & Hid & _ & Hsvc).
    path_into_services. path_key Hsvc.
    path_get (wireguard_service_ports host config team'). by rewrite Hid.
Qed.

Lemma port_range_checked_at_input_witness :
  (exists config w',
     @config_input Sample.runtime 30 Sample.defaults Sample.world
     = Ok config w'
     /\ ~ port_overflow config
     /\ wireguard_start_port config = 65530
     /\ map wireguard_port (teams config)
        = [65530; 65531; 65532; 65533; 65534; 65535])
  /\ Sample.team 4 false ∈ teams Sample.overflow
  /\ nop (Sample.team 4 false) = false
  /\ py_path (compose_topology Sample.linux_user Sample.overflow)
       [Key "services"; Key "wireguard4"; Key "ports"]
     = Some (PList [str "65537:51820/udp"]).
Proof.
  destruct (@port_range_checked_at_input Sample.runtime)
    as (Hinput & _ & _ & Hcompile).
  assert (Sample.team 4 false ∈ teams Sample.overflow) as Hin
    by (do 4 apply list_elem_of_further; apply list_elem_of_here).
  split_and!.
  - destruct (@config_input Sample.runtime 30 Sample.defaults Sample.world)
      as [config w'| |] eqn:Hrun; [|by vm_compute in Hrun..].
    exists config, w'. split; [done|].
    split; [exact (proj2 (proj2 (proj2 (Hinput _ _ _ _ _ Hrun))))|].
    vm_compute in Hrun. by injection Hrun as <- <-.
  - exact Hin.
  - reflexivity.
  - exact (Hcompile Sample.linux_user Sample.overflow (Sample.team 4 false)
             Hin eq_refl).
Defined.

(** ** The router *)

(** C7, as stated, fails: the router is not attached to the internal-only
    network, which [networks] defines. *)
Lemma router_not_on_every_network :
  py_path (compose_topology Sample.linux_user Sample.with_nop)
    [Key "networks"; Key "internalnet"] = Some (str "")
  /\ py_path (compose_topology Sample.linux_user Sample.with_nop)
       [Key "services"; Key "router"; Key "networks"; Key "internalnet"]
     = None
  /\ "internalnet" ∈ keys (networks Sample.with_nop)
  /\ "internalnet" ∉ service_networks (router_service Sample.with_nop).
Proof.
  split_and!; [reflexivity | reflexivity | compute_done | compute_done].
Qed.

(** C7, amended: the router service is attached to every network of the
    topology but the internal-only one, that is to the external-facing
    network, the shared gameserver network, every team's VM network and the
    player network of every team that is not the nop team, and to nothing
    else; its environment carries the number of teams and the bandwidth
    limit. *)
Theorem router_attachments (host : Host) (config : Config) :
  let topology := compose_topology host config in
  py_path topology [Key "services"; Key "router"]
  = Some (router_service config)
  /\ (forall name,
        name ∈ service_networks (router_service config) <->
        name ∈ keys (networks config) /\ name <> "internalnet")
  /\ (forall name,
        name ∈ service_networks (router_service config) <->
        name = "externalnet" \/ name = "gameserver"
        \/ (exists team, team ∈ teams config
              /\ name = "vm-team" +:+ pretty (id team))
        \/ (exists team, team ∈ teams config /\ nop team = false
              /\ name = "players" +:+ pretty (id team)))
  /\ py_path topology
       [Key "services"; Key "router"; Key "environment"; Key "NTEAM"]
     = Some (int (Z.of_nat (length (teams config))))
  /\ py_path topology
       [Key "services"; Key "router"; Key "environment"; Key "RATE_NET"]
     = Some (str (network_limit_bandwidth config)).
Proof.
  intros topology. subst topology.
  assert (service_networks (router_service config)
          = keys (router_networks config)) as Hnets.
  { unfold service_networks. by rewrite router_service_networks. }
  split_and!.
  - path_into_services. by path_key (services_router host config).
  - intros name. rewrite Hnets, router_networks_keys, networks_keys.
    split.
    + intros [->|[->|[(team & ? & ->)|(team & ? & ? & ->)]]];
        (split; [eauto 10 | done]).
    + intros [[->|[->|[->|[?|?]]]] Hne]; auto; done.
  - intros name. by rewrite Hnets, router_networks_keys.
  - path_into_services. by path_key (services_router host config).
  - path_into_services. by path_key (services_router host config).
Qed.

(** ** The serializer *)

(** C8: [dict_to_yaml] follows the layout rules.  A document renders as its
    layout, and so does a mapping or a sequence at any depth; the value of a
    key that is a mapping or a sequence is laid out one unit to the right of
    the key, and a sequence that is an element of a sequence one unit to the
    right of that sequence; a mapping that is an element of a sequence has
    its first key on the line of the marker and its other keys under the
    first; a key whose value is an empty mapping is rendered, with nothing
    under it, also in a mapping that is an element of a sequence. *)
Theorem dict_to_yaml_rules (v : pyval)
    (indent_spaces base_indent additional_spaces : Z) :
  0 <= indent_spaces -> 0 <= base_indent -> 0 <= additional_spaces ->
  let unit := Z.to_nat indent_spaces in
  let col := Z.to_nat (indent_spaces * base_indent + additional_spaces) in
  let yaml data add :=
    dict_to_yaml data indent_spaces base_indent add None in
  dict_to_yaml v indent_spaces 0 0 None = YamlSpec.render unit v
  /\ (is_container v = true ->
      yaml v additional_spaces = YamlSpec.render_at unit col v)
  /\ (forall key entries,
        is_container v = true ->
        yaml (PDict ((key, v) :: entries)) additional_spaces
        = str_repeat " " col +:+ key +:+ ":" +:+ nl
          +:+ YamlSpec.render_at unit (col + unit) v
          +:+ yaml (PDict entries) additional_spaces)
  /\ (forall inner items,
        yaml (PList (PList inner :: items)) additional_spaces
        = YamlSpec.render_at unit (col + unit) (PList inner)
          +:+ yaml (PList items) additional_spaces)
  /\ (forall key s entries items,
        yaml (PList (PDict ((key, PScalar s) :: entries) :: items))
          additional_spaces
        = str_repeat " " col +:+ "- " +:+ key +:+ ": " +:+ py_str s +:+ nl
          +:+ YamlSpec.render_at unit (col + 2) (PDict entries)
          +:+ yaml (PList items) additional_spaces)
  /\ (forall key entries,
        yaml (PDict ((key, PDict []) :: entries)) additional_spaces
        = str_repeat " " col +:+ key +:+ ":" +:+ nl
          +:+ yaml (PDict entries) additional_spaces)
  /\ (forall key entries items,
        yaml (PList (PDict ((key, PDict []) :: entries) :: items))
          additional_spaces
        = str_repeat " " col +:+ "- " +:+ key +:+ ":" +:+ nl
          +:+ YamlSpec.render_at unit (col + 2) (PDict entries)
          +:+ yaml (PList items) additional_spaces).
Proof.
  intros Hind Hb Ha unit col yaml. subst yaml. cbv beta.
  assert (forall w b a, 0 <= b -> 0 <= a -> is_container w = true ->
            dict_to_yaml w indent_spaces b a None
            = YamlSpec.render_at unit (Z.to_nat (indent_spaces * b + a)) w)
    as Hat.
  { intros w b a Hb' Ha' Hw.
    by destruct (YamlFacts.dict_to_yaml_layout_rec w indent_spaces b a)
      as [-> _]. }
  assert (Z.to_nat (indent_spaces * (base_indent + 1) + additional_spaces)
          = (col + unit)%nat) as Hdeeper by (subst unit col; nia).
  assert (Z.to_nat (indent_spaces * base_indent + (additional_spaces + 2))
          = (col + 2)%nat) as Hmarker by (subst unit col; nia).
  split_and!.
  - by apply YamlFacts.dict_to_yaml_layout.
  - by apply Hat.
  - intros key entries Hv. rewrite YamlFacts.dict_to_yaml_dict_cons.
    rewrite (Hat v (base_indent + 1)) by (done || lia). rewrite Hdeeper.
    unfold key_prefix, str_mul. fold col.
    destruct v; [done|..]; by rewrite !YamlFacts.append_assoc.
  - intros inner items. rewrite YamlFacts.dict_to_yaml_list_cons.
    by rewrite (Hat (PList inner) (base_indent + 1)), Hdeeper by (done || lia).
  - intros key s entries items. rewrite YamlFacts.dict_to_yaml_list_cons.
    rewrite YamlFacts.dict_to_yaml_dict_cons.
    rewrite YamlFacts.key_prefix_marker by done. fold col.
    rewrite (Hat (PDict entries) base_indent (additional_spaces + 2))
      by (done || lia).
    rewrite Hmarker. by rewrite !YamlFacts.append_assoc.
  - intros key entries. rewrite YamlFacts.dict_to_yaml_dict_cons.
    rewrite YamlFacts.dict_to_yaml_dict_nil, YamlFacts.append_nil_r.
    unfold key_prefix, str_mul. fold col. by rewrite !YamlFacts.append_assoc.
  - intros key entries items. rewrite YamlFacts.dict_to_yaml_list_cons.
    rewrite YamlFacts.dict_to_yaml_dict_cons.
    rewrite YamlFacts.dict_to_yaml_dict_nil, YamlFacts.append_nil_r.
    rewrite YamlFacts.key_prefix_marker by done. fold col.
    rewrite (Hat (PDict entries) base_indent (additional_spaces + 2))
      by (done || lia).
    rewrite Hmarker. by rewrite !YamlFacts.append_assoc.
Qed.

Lemma dict_to_yaml_rules_witness :
  0 <= 4 /\ 0 <= 0
  /\ dict_to_yaml Sample.tree 4 0 0 None = YamlSpec.render 4 Sample.tree
  /\ YamlSpec.lines 4 Sample.tree
     = [(0, "jobs:"); (4, "- name: a"); (6, "env:"); (4, "- name: b")]%nat.
Proof.
  split_and!; [lia | lia | | reflexivity].
  exact (proj1 (dict_to_yaml_rules Sample.tree 4 0 0
                  ltac:(lia) ltac:(lia) ltac:(lia))).
Defined.

(** ** No dangling reference *)

(** C9: every name in a service's [depends_on] is the key of a service of the
    topology, and every network a service is attached to is the key of a
    network definition of the topology. *)
Theorem topology_consistent (host : Host) (config : Config)
    (name : string) (service : pyval) :
  py_path (compose_topology host config) [Key "services"; Key name]
  = Some service ->
  (forall dep,
     dep ∈ service_depends_on service ->
     exists target,
       py_path (compose_topology host config) [Key "services"; Key dep]
       = Some target)
  /\ (forall net,
        net ∈ service_networks service ->
        exists definition,
          py_path (compose_topology host config) [Key "networks"; Key net]
          = Some definition).
Proof.
  intros Hpath.
  rewrite (py_path_cons _ _ _ _ (topology_services _ _)) in Hpath.
  cbn [py_path py_step] in Hpath.
  destruct (get (services host config) name) as [svc|] eqn:Hsvc; [|done].
  injection Hpath as ->. split.
  - intros dep Hdep. path_into_services. cbn [py_path py_step].
    enough (is_Some (get (services host config) dep)) as [target ->] by eauto.
    apply services_get_Some in Hsvc.
    destruct Hsvc as [(_ & ->)|[(_ & ->)|[(_ & ->)|[(team & Hin & _ & ->)
                                       |(team & Hin & Hnop & _ & ->)]]]];
      unfold service_depends_on in Hdep.
    + by rewrite router_service_depends_on in Hdep; apply elem_of_nil in Hdep.
    + by rewrite database_service_depends_on in Hdep; apply elem_of_nil in Hdep.
    + fold (service_depends_on (gameserver_service config)) in Hdep.
      rewrite gameserver_depends_on_names, !elem_of_cons in Hdep.
      destruct Hdep as [->|[->|Hdep]].
      * rewrite services_router. eauto.
      * rewrite services_database. eauto.
      * apply list_elem_of_fmap in Hdep. destruct Hdep as (team & -> & Hin).
        destruct (services_team host config team Hin) as (? & _ & _ & ->).
        eauto.
    + by rewrite team_service_depends_on in Hdep; apply elem_of_nil in Hdep.
    + by rewrite wireguard_service_depends_on in Hdep;
        apply elem_of_nil in Hdep.
  - intros net Hnet. path_into_networks. cbn [py_path py_step].
    enough (is_Some (get (networks config) net)) as [definition ->] by eauto.
    apply get_is_Some, networks_keys.
    destruct (service_networks_cases host config name service Hsvc)
      as [Heq|[Heq|[Heq|[(team & Hin & Heq)|(team & Hin & Hnop & Heq)]]]];
      rewrite Heq in Hnet.
    + apply router_networks_keys in Hnet.
      destruct Hnet as [->|[->|[?|?]]]; auto 10.
    + apply list_elem_of_singleton in Hnet. auto.
    + apply elem_of_cons in Hnet as [->|Hnet]; [auto|].
      apply list_elem_of_singleton in Hnet. subst. auto.
    + apply list_elem_of_singleton in Hnet. subst. eauto 10.
    + apply list_elem_of_singleton in Hnet. subst. eauto 10.
Qed.

Lemma topology_consistent_witness :
  py_path (compose_topology Sample.linux_user Sample.with_nop)
    [Key "services"; Key "gameserver"]
  = Some (gameserver_service Sample.with_nop)
  /\ (exists target,
        py_path (compose_topology Sample.linux_user Sample.with_nop)
          [Key "services"; Key "team3"] = Some target)
  /\ (exists definition,
        py_path (compose_topology Sample.linux_user Sample.with_nop)
          [Key "networks"; Key "internalnet"] = Some definition).
Proof.
  assert (py_path (compose_topology Sample.linux_user Sample.with_nop)
            [Key "services"; Key "gameserver"]
          = Some (gameserver_service Sample.with_nop)) as Hsvc
    by reflexivity.
  destruct (topology_consistent Sample.linux_user Sample.with_nop
              "gameserver" (gameserver_service Sample.with_nop) Hsvc)
    as [Hdeps Hnets].
  split_and!.
  - exact Hsvc.
  - apply Hdeps. compute_done.
  - apply Hnets. compute_done.
Defined.

(** ** Team generation *)

(** C10: for [n >= 0], [generate_teams_array(n, enable_nop, p)] returns [n + 1]
    teams when [enable_nop] is true and [n] teams otherwise; the ids are
    [0 .. len - 1] in array order, each team's [wireguard_port] is [p + id],
    and the nop flag is set on team 0 alone when [enable_nop] is true and on
    no team otherwise. *)
Theorem generate_teams_array_teams `{rt : Runtime} (n : Z) (enable_nop : bool)
    (p : Z) (rng : Rng) :
  0 <= n ->
  let ts := (generate_teams_array n enable_nop p rng).1 in
  Z.of_nat (length ts) = (if enable_nop then n + 1 else n)
  /\ map id ts = range (Z.of_nat (length ts))
  /\ Forall (fun team => wireguard_port team = p + id team) ts
  /\ Forall (fun team =>
               nop team = true <-> enable_nop = true /\ id team = 0) ts.
Proof.
  intros Hn ts.
  pose proof (TeamFacts.generate_teams_array_generated enable_nop p n rng)
    as Hgen.
  fold ts in Hgen.
  assert (Z.of_nat (length ts) = n + (if enable_nop then 1 else 0)) as Hlen.
  { rewrite <- (Forall2_length _ _ _ Hgen). unfold range.
    rewrite length_seqZ. destruct enable_nop; lia. }
  split_and!.
  - destruct enable_nop; lia.
  - rewrite Hlen. by apply TeamFacts.generated_ids in Hgen.
  - eapply Forall2_Forall_r; [exact Hgen|]. apply Forall_forall.
    intros i _ team (Hid & Hport & _). by rewrite Hport, Hid.
  - eapply Forall2_Forall_r; [exact Hgen|]. apply Forall_forall.
    intros i _ team (Hid & _ & Hnop & _). rewrite Hnop, Hid.
    destruct enable_nop, (bool_decide_reflect (i = 0)); simpl;
      split; (done || by intros [? ?] || by intros ?).
Qed.

Lemma generate_teams_array_teams_witness :
  0 <= 3
  /\ Z.of_nat (length (@generate_teams_array Sample.runtime 3 true 51000
                         0%nat).1) = 4
  /\ map nop (@generate_teams_array Sample.runtime 3 true 51000 0%nat).1
     = [true; false; false; false].
Proof.
  split_and!; [lia | | reflexivity].
  exact (proj1 (@generate_teams_array_teams Sample.runtime 3 true 51000 0%nat
                  ltac:(lia))).
Defined.


(** * Further properties *)

(** ** The serializer on concatenations and on empty containers *)

Module YamlMore.
Import YamlFacts.

Lemma dict_to_yaml_dict_app ind b a es1 es2 add :
  es1 <> [] ->
  dict_to_yaml (PDict (es1 ++ es2)) ind b a add
  = dict_to_yaml (PDict es1) ind b a add
    +:+ dict_to_yaml (PDict es2) ind b a None.
Proof.
  revert add. induction es1 as [|[key value] es1 IH]; intros add Hne; [done|].
  rewrite <- app_comm_cons.
  rewrite (dict_to_yaml_dict_cons _ _ _ key value (es1 ++ es2)).
  rewrite (dict_to_yaml_dict_cons _ _ _ key value es1).
  destruct es1 as [|e es1].
  - by rewrite dict_to_yaml_dict_nil, append_nil_r.
  - rewrite IH by done. symmetry. apply append_assoc.
Qed.

Lemma dict_to_yaml_list_app ind b a xs ys add :
  dict_to_yaml (PList (xs ++ ys)) ind b a add
  = dict_to_yaml (PList xs) ind b a add +:+ dict_to_yaml (PList ys) ind b a add.
Proof.
  induction xs as [|x xs IH]; [reflexivity|].
  rewrite <- app_comm_cons.
  rewrite (dict_to_yaml_list_cons _ _ _ x (xs ++ ys)).
  rewrite (dict_to_yaml_list_cons _ _ _ x xs).
  rewrite IH. symmetry. apply append_assoc.
Qed.

End YamlMore.

(** X1: rendering goes entry by entry.  The text of a mapping is the text of
    its first entries followed by the text of the others, the marker (when
    the mapping is an element of a sequence) going to the first entry only;
    the text of a sequence is the texts of its parts one after the other.
    This holds for any indentation arguments. *)
Theorem dict_to_yaml_concatenates (indent_spaces base_indent additional_spaces : Z) :
  (forall entries1 entries2,
     dict_to_yaml (PDict (entries1 ++ entries2)) indent_spaces base_indent
       additional_spaces None
     = dict_to_yaml (PDict entries1) indent_spaces base_indent
         additional_spaces None
       +:+ dict_to_yaml (PDict entries2) indent_spaces base_indent
             additional_spaces None)
  /\ (forall entry entries1 entries2 text,
        dict_to_yaml (PDict ((entry :: entries1) ++ entries2)) indent_spaces
          base_indent additional_spaces (Some text)
        = dict_to_yaml (PDict (entry :: entries1)) indent_spaces base_indent
            additional_spaces (Some text)
          +:+ dict_to_yaml (PDict entries2) indent_spaces base_indent
                additional_spaces None)
  /\ (forall items1 items2 add,
        dict_to_yaml (PList (items1 ++ items2)) indent_spaces base_indent
          additional_spaces add
        = dict_to_yaml (PList items1) indent_spaces base_indent
            additional_spaces add
          +:+ dict_to_yaml (PList items2) indent_spaces base_indent
                additional_spaces add).
Proof.
  split_and!.
  - intros [|e es1] es2; [done|]. by apply YamlMore.dict_to_yaml_dict_app.
  - intros e es1 es2 text. by apply YamlMore.dict_to_yaml_dict_app.
  - intros. apply YamlMore.dict_to_yaml_list_app.
Qed.

(** X2: empty containers leave no trace of what they were.  An element of a
    sequence that is an empty mapping or an empty sequence renders as
    nothing, wherever it stands, so the sequence renders as if the element
    were not there; and a key renders the same whether its value is an empty
    mapping or an empty sequence.  Different value trees thus give the same
    text. *)
Theorem dict_to_yaml_drops_empty_containers
    (indent_spaces base_indent additional_spaces : Z) :
  (forall items1 items2 add,
     dict_to_yaml (PList (items1 ++ PDict [] :: items2)) indent_spaces
       base_indent additional_spaces add
     = dict_to_yaml (PList (items1 ++ items2)) indent_spaces base_indent
         additional_spaces add)
  /\ (forall items1 items2 add,
        dict_to_yaml (PList (items1 ++ PList [] :: items2)) indent_spaces
          base_indent additional_spaces add
        = dict_to_yaml (PList (items1 ++ items2)) indent_spaces base_indent
            additional_spaces add)
  /\ (forall entries1 key entries2 add,
        dict_to_yaml (PDict (entries1 ++ (key, PDict []) :: entries2))
          indent_spaces base_indent additional_spaces add
        = dict_to_yaml (PDict (entries1 ++ (key, PList []) :: entries2))
            indent_spaces base_indent additional_spaces add).
Proof.
  split_and!.
  - intros items1 items2 add.
    rewrite !YamlMore.dict_to_yaml_list_app, YamlFacts.dict_to_yaml_list_cons.
    reflexivity.
  - intros items1 items2 add.
    rewrite !YamlMore.dict_to_yaml_list_app, YamlFacts.dict_to_yaml_list_cons.
    reflexivity.
  - intros entries1 key entries2 add.
    destruct entries1 as [|e entries1].
    + simpl app. by rewrite !YamlFacts.dict_to_yaml_dict_cons.
    + rewrite !YamlMore.dict_to_yaml_dict_app by done.
      by rewrite !YamlFacts.dict_to_yaml_dict_cons.
Qed.


(** ** The exact shape of the topology *)

Module DictMore.
Import Dict DictFacts.

Lemma setitem_fresh (d : dict) k v :
  k ∉ keys d -> setitem d k v = d ++ [(k, v)].
Proof.
  unfold keys. induction d as [|[k0 v0] d IH]; csimpl; [done|].
  rewrite not_elem_of_cons. intros [Hne Hd].
  rewrite decide_False by done. by rewrite IH.
Qed.

Lemma update_fresh (d e : dict) :
  NoDup (keys e) -> (forall k, k ∈ keys e -> k ∉ keys d) -> update d e = d ++ e.
Proof.
  unfold update, keys. revert d.
  induction e as [|[k v] e IH]; intros d Hnd Hfresh; csimpl.
  - by rewrite app_nil_r.
  - csimpl in Hnd. apply NoDup_cons in Hnd as [Hk Hnd].
    rewrite setitem_fresh by (apply Hfresh; left).
    rewrite IH; [by rewrite <- app_assoc | done |].
    intros k' Hk'. rewrite fmap_app, elem_of_app. csimpl.
    intros [Hin|Hin%list_elem_of_singleton].
    + apply (Hfresh k'); [by right | done].
    + by subst.
Qed.

Lemma comprehension_NoDup (kvs : dict) :
  NoDup (keys kvs) -> comprehension kvs = kvs.
Proof.
  intros Hnd. unfold comprehension. rewrite update_fresh; [done..|].
  intros k _ Hk. inversion Hk.
Qed.

End DictMore.

Module TopologyMore.
Import Dict DictFacts DictMore TopologyFacts.

(** The keys of a comprehension over teams with distinct ids are distinct. *)
Lemma NoDup_team_keys (prefix : string) (value : Team -> pyval)
    (l : list Team) :
  NoDup (map id l) ->
  NoDup (keys (map (fun team => (prefix +:+ pretty (id team), value team)) l)).
Proof.
  intros Hnd. unfold keys.
  replace ((map (fun team => (prefix +:+ pretty (id team), value team)) l).*1)
    with ((fun i : Z => prefix +:+ pretty i) <$> map id l).
  - apply NoDup_fmap_2; [|done]. intros i j Hij. by simplify_eq.
  - clear Hnd. induction l as [|team l IH]; [done|]. csimpl. by rewrite IH.
Qed.

Lemma NoDup_ids_filter (P : Team -> Prop) `{forall team, Decision (P team)}
    (l : list Team) :
  NoDup (map id l) -> NoDup (map id (filter P l)).
Proof.
  intros Hnd. eapply sublist_NoDup; [exact Hnd|].
  apply (fmap_sublist id), sublist_filter.
Qed.

Lemma team_keys_elem (prefix : string) (value : Team -> pyval)
    (l : list Team) k :
  k ∈ keys (map (fun team => (prefix +:+ pretty (id team), value team)) l) ->
  exists team, team ∈ l /\ k = prefix +:+ pretty (id team).
Proof.
  unfold keys. intros Hk. apply list_elem_of_fmap in Hk as ([k' v] & -> & Hin).
  apply list_elem_of_fmap in Hin as (team & [= -> _] & Hin). eauto.
Qed.

(** Unpacking a comprehension over teams with distinct ids, whose keys are
    not in the dictionary yet, appends its pairs. *)
Lemma update_team_comprehension (d : dict) (prefix : string)
    (value : Team -> pyval) (l : list Team) :
  NoDup (map id l) ->
  (forall team, team ∈ l -> prefix +:+ pretty (id team) ∉ keys d) ->
  update d (comprehension
              (map (fun team => (prefix +:+ pretty (id team), value team)) l))
  = d ++ map (fun team => (prefix +:+ pretty (id team), value team)) l.
Proof.
  intros Hnd Hfresh.
  rewrite comprehension_NoDup by by apply NoDup_team_keys.
  apply update_fresh; [by apply NoDup_team_keys|].
  intros k (team & Hin & ->)%team_keys_elem. by apply Hfresh.
Qed.

Section exact.
Variable host : Host.
Variable config : Config.
Hypothesis distinct_ids : NoDup (map id (teams config)).

Lemma services_distinct_ids :
  services host config
  = [("router", router_service config);
     ("database", database_service config);
     ("gameserver", gameserver_service config)]
    ++ map (fun team => ("team" +:+ pretty (id team),
                         team_service config team))
         (teams config)
    ++ map (fun team => ("wireguard" +:+ pretty (id team),
                         wireguard_service host config team))
         (filter (fun team => nop team = false) (teams config)).
Proof.
  unfold services, literal. cbn [foldl add_entry].
  rewrite (update_team_comprehension _ "team") by
    (done || (intros team _ Hin; vm_compute in Hin;
              repeat (apply elem_of_cons in Hin as [Hin|Hin]; [done|]);
              inversion Hin)).
  rewrite (update_team_comprehension _ "wireguard").
  - by rewrite <- app_assoc.
  - by apply NoDup_ids_filter.
  - intros team _ Hin. unfold keys in Hin.
    rewrite fmap_app, elem_of_app in Hin. destruct Hin as [Hin|Hin].
    + repeat (apply elem_of_cons in Hin as [Hin|Hin]; [done|]).
      inversion Hin.
    + by apply (team_keys_elem "team") in Hin as (team' & _ & ?).
Qed.

Lemma networks_distinct_ids :
  networks config
  = [("externalnet", str ""); ("internalnet", str "");
     ("gameserver", gameserver_network)]
    ++ map (fun team => ("vm-team" +:+ pretty (id team), vm_network team))
         (teams config)
    ++ map (fun team => ("players" +:+ pretty (id team), players_network team))
         (filter (fun team => nop team = false) (teams config)).
Proof.
  unfold networks, literal. cbn [foldl add_entry].
  rewrite (update_team_comprehension _ "vm-team") by
    (done || (intros team _ Hin; vm_compute in Hin;
              repeat (apply elem_of_cons in Hin as [Hin|Hin]; [done|]);
              inversion Hin)).
  rewrite (update_team_comprehension _ "players").
  - by rewrite <- app_assoc.
  - by apply NoDup_ids_filter.
  - intros team _ Hin. unfold keys in Hin.
    rewrite fmap_app, elem_of_app in Hin. destruct Hin as [Hin|Hin].
    + repeat (apply elem_of_cons in Hin as [Hin|Hin]; [done|]).
      inversion Hin.
    + by apply (team_keys_elem "vm-team") in Hin as (team' & _ & ?).
Qed.

Lemma router_networks_distinct_ids :
  router_networks config
  = map (fun team =>
           ("vm-team" +:+ pretty (id team),
            PDict (literal [
              "priority" ~> int 10;
              "ipv4_address" ~>
                str ("10.60." +:+ pretty (id team) +:+ ".250")])))
      (teams config)
    ++ [("gameserver",
         PDict (literal [
           "priority" ~> int 10;
           "ipv4_address" ~> str "10.10.0.250"]));
        ("externalnet", PDict (literal ["priority" ~> int 1]))]
    ++ map (fun team =>
              ("players" +:+ pretty (id team),
               PDict (literal [
                 "priority" ~> int 10;
                 "ipv4_address" ~>
                   str ("10.80." +:+ pretty (id team) +:+ ".250")])))
         (filter (fun team => nop team = false) (teams config)).
Proof.
  unfold router_networks, literal at 1. cbn [foldl add_entry].
  rewrite (update_team_comprehension [] "vm-team")
    by (done || (intros team _ Hin; inversion Hin)).
  rewrite app_nil_l.
  assert (forall k (l : dict),
            (forall team, team ∈ teams config ->
                          "vm-team" +:+ pretty (id team) <> k) ->
            l.*1 = map (fun team => "vm-team" +:+ pretty (id team))
                     (teams config) ->
            k ∉ keys l) as Hfresh.
  { intros k l Hk Hl Hin. unfold keys in Hin. rewrite Hl in Hin.
    apply list_elem_of_fmap in Hin as (team & -> & Hin). by apply (Hk team). }
  assert (forall value : Team -> pyval,
            (map (fun team => ("vm-team" +:+ pretty (id team), value team))
               (teams config)).*1
            = map (fun team => "vm-team" +:+ pretty (id team)) (teams config))
    as Hkeys.
  { intros value. generalize (teams config). intros l.
    induction l as [|t l IH]; [done|]. csimpl. f_equal. exact IH. }
  rewrite (setitem_fresh _ "gameserver")
    by (apply Hfresh; [done | apply Hkeys]).
  rewrite (setitem_fresh _ "externalnet").
  2:{ unfold keys. rewrite fmap_app, elem_of_app.
      intros [Hin|Hin%list_elem_of_singleton]; [|done].
      revert Hin. apply (Hfresh "externalnet"); [done | apply Hkeys]. }
  rewrite (update_team_comprehension _ "players").
  - by rewrite <- !app_assoc.
  - by apply NoDup_ids_filter.
  - intros team _ Hin. unfold keys in Hin.
    rewrite !fmap_app, !elem_of_app in Hin.
    destruct Hin as [[Hin|Hin%list_elem_of_singleton]
                    |Hin%list_elem_of_singleton]; [|done..].
    by apply (team_keys_elem "vm-team") in Hin as (team' & _ & ?).
Qed.

End exact.

(** A key of a dictionary that starts with pairs of other keys. *)
Lemma get_app_fresh (d1 d2 : dict) k :
  k ∉ keys d1 -> get (d1 ++ d2) k = get d2 k.
Proof.
  unfold keys. induction d1 as [|[k0 v0] d1 IH]; csimpl; [done|].
  rewrite not_elem_of_cons. intros [Hne Hd1].
  rewrite decide_False by done. auto.
Qed.

(** With several teams of one id, the comprehension keeps the value of the
    last. *)
Lemma get_comprehension_last (prefix : string) (value : Team -> pyval)
    (before after : list Team) (team : Team) :
  (forall other, other ∈ after -> id other <> id team) ->
  get (comprehension
         (map (fun team => (prefix +:+ pretty (id team), value team))
            (before ++ team :: after)))
    (prefix +:+ pretty (id team))
  = Some (value team).
Proof.
  intros Hafter. rewrite get_comprehension, map_app, reverse_app. csimpl.
  rewrite reverse_cons, <- app_assoc, get_app_fresh.
  - simpl. by rewrite decide_True.
  - unfold keys. rewrite fmap_reverse, elem_of_reverse.
    intros (other & Hin & Hkey)%(team_keys_elem prefix value after).
    apply team_key_inj in Hkey. by apply (Hafter other).
Qed.

End TopologyMore.


Import Dict DictFacts TopologyFacts.

(** X3: in a config whose team ids are distinct no name is used twice, so the
    topology has exactly these services, networks and router attachments, in
    this order: the router, the database, the gameserver, one VM service per
    team and one VPN endpoint per team that is not a nop team; the external,
    internal and gameserver networks, one VM network per team and one player
    network per team that is not a nop team. *)
Theorem topology_exact (host : Host) (config : Config) :
  NoDup (map id (teams config)) ->
  let playing := filter (fun team => nop team = false) (teams config) in
  py_get (compose_topology host config) "services"
  = Some (PDict (
      [("router", router_service config);
       ("database", database_service config);
       ("gameserver", gameserver_service config)]
      ++ map (fun team => ("team" +:+ pretty (id team),
                           team_service config team)) (teams config)
      ++ map (fun team => ("wireguard" +:+ pretty (id team),
                           wireguard_service host config team)) playing))
  /\ py_get (compose_topology host config) "networks"
     = Some (PDict (
         [("externalnet", str ""); ("internalnet", str "");
          ("gameserver", gameserver_network)]
         ++ map (fun team => ("vm-team" +:+ pretty (id team),
                              vm_network team)) (teams config)
         ++ map (fun team => ("players" +:+ pretty (id team),
                              players_network team)) playing))
  /\ service_networks (router_service config)
     = map (fun team => "vm-team" +:+ pretty (id team)) (teams config)
       ++ ["gameserver"; "externalnet"]
       ++ map (fun team => "players" +:+ pretty (id team)) playing
  /\ length (services host config)
     = (3 + length (teams config) + length playing)%nat
  /\ length (networks config)
     = (3 + length (teams config) + length playing)%nat.
Proof.
  intros Hids playing. subst playing.
  pose proof (TopologyMore.services_distinct_ids host config Hids) as Hsvc.
  pose proof (TopologyMore.networks_distinct_ids config Hids) as Hnet.
  split_and!.
  - change (py_get (compose_topology host config) "services")
      with (Some (PDict (services host config))). by rewrite Hsvc.
  - change (py_get (compose_topology host config) "networks")
      with (Some (PDict (networks config))). by rewrite Hnet.
  - unfold service_networks. rewrite router_service_networks.
    rewrite (TopologyMore.router_networks_distinct_ids config Hids).
    unfold keys. rewrite !fmap_app. f_equal; [|f_equal].
    + generalize (teams config). intros l.
      induction l as [|t l IH]; [done|]. csimpl. f_equal. exact IH.
    + generalize (filter (fun team => nop team = false) (teams config)).
      intros l. induction l as [|t l IH]; [done|]. csimpl. f_equal. exact IH.
  - rewrite Hsvc. rewrite !length_app, !length_map. simpl. lia.
  - rewrite Hnet. rewrite !length_app, !length_map. simpl. lia.
Qed.

Lemma topology_exact_witness :
  NoDup (map id (teams Sample.with_nop))
  /\ length (services Sample.linux_user Sample.with_nop) = 10%nat
  /\ service_networks (router_service Sample.with_nop)
     = ["vm-team0"; "vm-team1"; "vm-team2"; "vm-team3"; "gameserver";
        "externalnet"; "players1"; "players2"; "players3"].
Proof.
  assert (NoDup (map id (teams Sample.with_nop))) as Hids by compute_done.
  destruct (topology_exact Sample.linux_user Sample.with_nop Hids)
    as (_ & _ & Hrouter & Hlen & _).
  split_and!; [exact Hids | exact Hlen | exact Hrouter].
Defined.

Lemma team_service_token config team :
  py_path (team_service config team) [Key "build"; Key "args"; Key "TOKEN"]
  = Some (str (token team)).
Proof.
  unfold team_service.
  by destruct (truthy (max_disk_size config)), (unsafe_privileged config).
Qed.

(** X4: when several teams have one id, the VM service of that id is the one
    of the last of them in the config: it is built with the token of that
    team, and the teams before it with the same id have no service of their
    own.  With distinct ids every team is the last of its id, so each VM is
    built with its own token. *)
Theorem last_team_of_an_id_has_the_vm (host : Host) (config : Config)
    (before after : list Team) (team : Team) :
  teams config = before ++ team :: after ->
  (forall other, other ∈ after -> id other <> id team) ->
  py_path (compose_topology host config)
    [Key "services"; Key ("team" +:+ pretty (id team))]
  = Some (team_service config team)
  /\ py_path (compose_topology host config)
       [Key "services"; Key ("team" +:+ pretty (id team)); Key "build";
        Key "args"; Key "TOKEN"]
     = Some (str (token team)).
Proof.
  intros Hteams Hafter.
  assert (get (services host config) ("team" +:+ pretty (id team))
          = Some (team_service config team)) as Hsvc.
  { rewrite services_get.
    rewrite (get_comprehension_map_None
               (fun team => ("wireguard" +:+ pretty (id team),
                             wireguard_service host config team)))
      by (intros ? _; done).
    rewrite Hteams.
    by rewrite (TopologyMore.get_comprehension_last "team"
                  (team_service config) before after team Hafter). }
  split.
  - rewrite (py_path_cons _ _ _ _ (topology_services _ _)).
    by rewrite (py_path_key _ _ _ _ Hsvc).
  - rewrite (py_path_cons _ _ _ _ (topology_services _ _)).
    rewrite (py_path_key _ _ _ _ Hsvc). apply team_service_token.
Qed.

Lemma last_team_of_an_id_has_the_vm_witness :
  teams (Sample.config 51000 [Sample.team 1 false; Sample.team 1 true])
  = [Sample.team 1 false] ++ Sample.team 1 true :: []
  /\ py_path
       (compose_topology Sample.linux_user
          (Sample.config 51000 [Sample.team 1 false; Sample.team 1 true]))
       [Key "services"; Key "team1"]
     = Some (team_service
               (Sample.config 51000 [Sample.team 1 false; Sample.team 1 true])
               (Sample.team 1 true)).
Proof.
  split; [reflexivity|].
  refine (proj1 (last_team_of_an_id_has_the_vm Sample.linux_user
                   (Sample.config 51000
                      [Sample.team 1 false; Sample.team 1 true])
                   [Sample.team 1 false] [] (Sample.team 1 true) eq_refl _)).
  intros other Hin. inversion Hin.
Defined.


Module AddressFacts.
Import Dict DictFacts TopologyFacts YamlFacts.

(** A suffix can be cancelled. *)
Lemma append_inj_r_length (s1 s2 t : string) :
  String.length s1 = String.length s2 -> s1 +:+ t = s2 +:+ t -> s1 = s2.
Proof.
  revert s2. induction s1 as [|c s1 IH]; intros [|c' s2] Hlen Heq;
    try done.
  rewrite !append_String in Heq. injection Heq as -> Heq.
  f_equal. apply IH; [|done]. simpl in Hlen. lia.
Qed.

Lemma append_inj_r (s1 s2 t : string) : s1 +:+ t = s2 +:+ t -> s1 = s2.
Proof.
  intros Heq. apply (append_inj_r_length s1 s2 t); [|done].
  apply (f_equal String.length) in Heq. rewrite !append_length in Heq. lia.
Qed.

(** An address of the plan names its team: the text between the prefix and
    the suffix is the id. *)
Lemma address_inj (prefix suffix : string) (i j : Z) :
  prefix +:+ pretty i +:+ suffix = prefix +:+ pretty j +:+ suffix -> i = j.
Proof.
  intros Heq. apply (inj (String.app prefix)) in Heq.
  apply append_inj_r in Heq. by apply (inj pretty).
Qed.

Section plan.
Variable host : Host.
Variable config : Config.

(** Where the addresses of a team are in the topology. *)
Lemma vm_addresses team :
  team ∈ teams config ->
  let i := pretty (id team) in
  let topology := compose_topology host config in
  py_path topology
    [Key "networks"; Key ("vm-team" +:+ i); Key "ipam"; Key "config";
     Index 0; Key "subnet"] = Some (str ("10.60." +:+ i +:+ ".0/24"))
  /\ py_path topology
       [Key "networks"; Key ("vm-team" +:+ i); Key "ipam"; Key "config";
        Index 0; Key "gateway"] = Some (str ("10.60." +:+ i +:+ ".254"))
  /\ py_path topology
       [Key "services"; Key "router"; Key "networks";
        Key ("vm-team" +:+ i); Key "ipv4_address"]
     = Some (str ("10.60." +:+ i +:+ ".250"))
  /\ py_path topology
       [Key "services"; Key ("team" +:+ i); Key "networks";
        Key ("vm-team" +:+ i); Key "ipv4_address"]
     = Some (str ("10.60." +:+ i +:+ ".1")).
Proof.
  intros Hin i topology. subst i topology.
  destruct (networks_vm config team Hin) as (t1 & _ & Hid1 & Hvm).
  destruct (services_team host config team Hin) as (t2 & _ & Hid2 & Hsvc).
  split_and!.
  - path_into_networks. path_key Hvm. by rewrite <- Hid1.
  - path_into_networks. path_key Hvm. by rewrite <- Hid1.
  - path_into_services. path_key (services_router host config).
    path_get (router_service_networks config).
    by path_key (router_networks_vm config team Hin).
  - path_into_services. path_key Hsvc.
    path_get (team_service_networks config t2).
    by rewrite Hid2, py_path_singleton.
Qed.

Lemma player_addresses team :
  team ∈ teams config -> nop team = false ->
  let i := pretty (id team) in
  let topology := compose_topology host config in
  py_path topology
    [Key "networks"; Key ("players" +:+ i); Key "ipam"; Key "config";
     Index 0; Key "subnet"] = Some (str ("10.80." +:+ i +:+ ".0/24"))
  /\ py_path topology
       [Key "networks"; Key ("players" +:+ i); Key "ipam"; Key "config";
        Index 0; Key "gateway"] = Some (str ("10.80." +:+ i +:+ ".254"))
  /\ py_path topology
       [Key "services"; Key "router"; Key "networks";
        Key ("players" +:+ i); Key "ipv4_address"]
     = Some (str ("10.80." +:+ i +:+ ".250"))
  /\ py_path topology
       [Key "services"; Key ("wireguard" +:+ i); Key "networks";
        Key ("players" +:+ i); Key "ipv4_address"]
     = Some (str ("10.80." +:+ i +:+ ".128"))
  /\ py_path topology
       [Key "services"; Key ("wireguard" +:+ i); Key "ports"; Index 0]
     = Some (str (pretty (wireguard_start_port config + id team)
                  +:+ ":51820/udp"))
  /\ py_path topology
       [Key "services"; Key ("wireguard" +:+ i); Key "volumes"; Index 0]
     = Some (str ("./wireguard/conf" +:+ i +:+ ":/config:z")).
Proof.
  intros Hin Hnop i topology. subst i topology.
  destruct (networks_players config team Hin Hnop) as (t1 & _ & Hid1 & Hpl).
  destruct (services_wireguard host config team Hin Hnop)
    as (t2 & _ & Hid2 & _ & Hsvc).
  split_and!.
  - path_into_networks. path_key Hpl. by rewrite <- Hid1.
  - path_into_networks. path_key Hpl. by rewrite <- Hid1.
  - path_into_services. path_key (services_router host config).
    path_get (router_service_networks config).
    by path_key (router_networks_players config team Hin Hnop).
  - path_into_services. path_key Hsvc.
    path_get (wireguard_service_networks host config t2).
    by rewrite Hid2, py_path_singleton.
  - path_into_services. path_key Hsvc.
    path_get (wireguard_service_ports host config t2). by rewrite Hid2.
  - path_into_services. path_key Hsvc. by rewrite <- Hid2.
Qed.

End plan.
End AddressFacts.

(** X5: two teams of a config with different ids share no address: their VM
    subnets, VM gateways, router attachments and VM hosts differ, and when
    neither is a nop team so do their player subnets, player gateways, router
    attachments, VPN endpoint hosts, published VPN ports and VPN
    configuration directories. *)
Theorem teams_share_no_address (host : Host) (config : Config)
    (team1 team2 : Team) :
  team1 ∈ teams config -> team2 ∈ teams config -> id team1 <> id team2 ->
  let topology := compose_topology host config in
  let vm_net team leaf :=
    py_path topology
      [Key "networks"; Key ("vm-team" +:+ pretty (id team)); Key "ipam";
       Key "config"; Index 0; Key leaf] in
  let players_net team leaf :=
    py_path topology
      [Key "networks"; Key ("players" +:+ pretty (id team)); Key "ipam";
       Key "config"; Index 0; Key leaf] in
  let router_on family team :=
    py_path topology
      [Key "services"; Key "router"; Key "networks";
       Key (family +:+ pretty (id team)); Key "ipv4_address"] in
  let vm_host team :=
    py_path topology
      [Key "services"; Key ("team" +:+ pretty (id team)); Key "networks";
       Key ("vm-team" +:+ pretty (id team)); Key "ipv4_address"] in
  let vpn team rest :=
    py_path topology
      (Key "services" :: Key ("wireguard" +:+ pretty (id team)) :: rest team) in
  (vm_net team1 "subnet" <> vm_net team2 "subnet"
   /\ vm_net team1 "gateway" <> vm_net team2 "gateway"
   /\ router_on "vm-team" team1 <> router_on "vm-team" team2
   /\ vm_host team1 <> vm_host team2)
  /\ (nop team1 = false -> nop team2 = false ->
      players_net team1 "subnet" <> players_net team2 "subnet"
      /\ players_net team1 "gateway" <> players_net team2 "gateway"
      /\ router_on "players" team1 <> router_on "players" team2
      /\ vpn team1 (fun team =>
                      [Key "networks";
                       Key ("players" +:+ pretty (id team));
                       Key "ipv4_address"])
         <> vpn team2 (fun team =>
                         [Key "networks";
                          Key ("players" +:+ pretty (id team));
                          Key "ipv4_address"])
      /\ vpn team1 (fun _ => [Key "ports"; Index 0])
         <> vpn team2 (fun _ => [Key "ports"; Index 0])
      /\ vpn team1 (fun _ => [Key "volumes"; Index 0])
         <> vpn team2 (fun _ => [Key "volumes"; Index 0])).
Proof.
  intros Hin1 Hin2 Hne topology vm_net players_net router_on vm_host vpn.
  subst topology vm_net players_net router_on vm_host vpn. cbv beta.
  split.
  - destruct (AddressFacts.vm_addresses host config team1 Hin1)
      as (-> & -> & -> & ->).
    destruct (AddressFacts.vm_addresses host config team2 Hin2)
      as (-> & -> & -> & ->).
    split_and!; intros [= Heq]; by apply AddressFacts.address_inj in Heq.
  - intros Hnop1 Hnop2.
    destruct (AddressFacts.player_addresses host config team1 Hin1 Hnop1)
      as (-> & -> & -> & -> & -> & ->).
    destruct (AddressFacts.player_addresses host config team2 Hin2 Hnop2)
      as (-> & -> & -> & -> & -> & ->).
    split_and!; intros [= Heq];
      try by apply AddressFacts.address_inj in Heq.
    apply AddressFacts.append_inj_r in Heq. apply (inj pretty) in Heq. lia.
Qed.

Lemma teams_share_no_address_witness :
  Sample.team 1 false ∈ teams Sample.with_nop
  /\ Sample.team 2 false ∈ teams Sample.with_nop
  /\ py_path (compose_topology Sample.linux_user Sample.with_nop)
       [Key "services"; Key "wireguard1"; Key "ports"; Index 0]
     <> py_path (compose_topology Sample.linux_user Sample.with_nop)
          [Key "services"; Key "wireguard2"; Key "ports"; Index 0].
Proof.
  assert (Sample.team 1 false ∈ teams Sample.with_nop) as Hin1
    by apply list_elem_of_further, list_elem_of_here.
  assert (Sample.team 2 false ∈ teams Sample.with_nop) as Hin2
    by apply list_elem_of_further, list_elem_of_further, list_elem_of_here.
  split_and!; [exact Hin1 | exact Hin2 |].
  destruct (teams_share_no_address Sample.linux_user Sample.with_nop
              (Sample.team 1 false) (Sample.team 2 false) Hin1 Hin2
              ltac:(done)) as [_ Hplayers].
  exact (proj1 (proj2 (proj2 (proj2 (proj2 (Hplayers eq_refl eq_refl)))))).
Defined.


Module ServiceFacts.
Import Dict DictFacts TopologyFacts.

Section keys.
Variable host : Host.
Variable config : Config.

Lemma team_service_confinement team :
  py_get (team_service config team) "privileged"
  = (if unsafe_privileged config then Some (str "true") else None)
  /\ py_get (team_service config team) "runtime"
     = (if unsafe_privileged config then None else Some (str "sysbox-runc"))
  /\ py_get (team_service config team) "storage_opt"
     = (if truthy (max_disk_size config)
        then Some (PDict [("size", str (default "" (max_disk_size config)))])
        else None)
  /\ py_path (team_service config team)
       [Key "deploy"; Key "resources"; Key "limits"]
     = Some (PDict [("cpus", str (dquote +:+ max_vm_cpus config +:+ dquote));
                    ("memory", str (max_vm_mem config))])
  /\ py_get (team_service config team) "cap_add" = None
  /\ py_get (team_service config team) "ports" = None
  /\ py_get (team_service config team) "volumes" = None.
Proof.
  unfold team_service.
  by destruct (truthy (max_disk_size config)), (unsafe_privileged config).
Qed.

Lemma gameserver_service_ports :
  py_get (gameserver_service config) "ports"
  = (fun port => PList [str (port +:+ ":80")])
    <$> gameserver_exposed_port config.
Proof. unfold gameserver_service. by destruct (gameserver_exposed_port _). Qed.

Lemma router_service_ports : py_get (router_service config) "ports" = None.
Proof. reflexivity. Qed.

Lemma database_service_ports : py_get (database_service config) "ports" = None.
Proof. reflexivity. Qed.

End keys.
End ServiceFacts.

(** X6: the VM service of every team of the config is confined as the config
    says: it has [privileged: true] and no [runtime] when [unsafe_privileged]
    is set, and [runtime: sysbox-runc] and no [privileged] otherwise; it has a
    [storage_opt] size exactly when [max_disk_size] is a non-empty string; its
    limits are the config's CPUs, in double quotes, and memory; and it is
    given no capability, no published port and no volume. *)
Theorem vm_confinement (host : Host) (config : Config) (team : Team) :
  team ∈ teams config ->
  let vm p :=
    py_path (compose_topology host config)
      (Key "services" :: Key ("team" +:+ pretty (id team)) :: p) in
  vm [Key "privileged"]
  = (if unsafe_privileged config then Some (str "true") else None)
  /\ vm [Key "runtime"]
     = (if unsafe_privileged config then None else Some (str "sysbox-runc"))
  /\ vm [Key "storage_opt"]
     = (if truthy (max_disk_size config)
        then Some (PDict [("size", str (default "" (max_disk_size config)))])
        else None)
  /\ vm [Key "deploy"; Key "resources"; Key "limits"]
     = Some (PDict [("cpus", str (dquote +:+ max_vm_cpus config +:+ dquote));
                    ("memory", str (max_vm_mem config))])
  /\ vm [Key "cap_add"] = None
  /\ vm [Key "ports"] = None
  /\ vm [Key "volumes"] = None.
Proof.
  intros Hin vm. subst vm. cbv beta.
  destruct (TopologyFacts.services_team host config team Hin)
    as (team' & _ & _ & Hsvc).
  destruct (ServiceFacts.team_service_confinement config team')
    as (Hpriv & Hrun & Hdisk & Hlimits & Hcap & Hports & Hvol).
  assert (forall p,
            py_path (compose_topology host config)
              (Key "services" :: Key ("team" +:+ pretty (id team)) :: p)
            = py_path (team_service config team') p) as Hinto.
  { intros p. path_into_services. by path_key Hsvc. }
  assert (forall k,
            py_path (team_service config team') [Key k]
            = py_get (team_service config team') k) as Hkey.
  { intros k. unfold team_service. cbn [py_path py_step py_get].
    by destruct (Dict.get _ k). }
  rewrite !Hinto, !Hkey. by split_and!.
Qed.

Lemma vm_confinement_witness :
  Sample.team 1 false ∈ teams Sample.with_nop
  /\ py_path (compose_topology Sample.linux_user Sample.with_nop)
       [Key "services"; Key "team1"; Key "runtime"]
     = Some (str "sysbox-runc")
  /\ py_path (compose_topology Sample.linux_user Sample.with_nop)
       [Key "services"; Key "team1"; Key "privileged"] = None.
Proof.
  assert (Sample.team 1 false ∈ teams Sample.with_nop) as Hin
    by apply list_elem_of_further, list_elem_of_here.
  destruct (vm_confinement Sample.linux_user Sample.with_nop
              (Sample.team 1 false) Hin) as (Hpriv & Hrun & _).
  split_and!; [exact Hin | exact Hrun | exact Hpriv].
Defined.

(** X7: the only services that publish a port are the gameserver, when the
    config gives [gameserver_exposed_port], to its port 80, and the VPN
    endpoints of the teams that are not nop teams, each its one UDP port
    [wireguard_start_port + id].  The router, the database and the team VMs
    publish nothing. *)
Theorem published_ports (host : Host) (config : Config)
    (name : string) (service ports : pyval) :
  py_path (compose_topology host config) [Key "services"; Key name]
  = Some service ->
  py_get service "ports" = Some ports ->
  (name = "gameserver"
   /\ exists port, gameserver_exposed_port config = Some port
        /\ ports = PList [str (port +:+ ":80")])
  \/ (exists team, team ∈ teams config /\ nop team = false
        /\ name = "wireguard" +:+ pretty (id team)
        /\ ports = PList [str (pretty (wireguard_start_port config + id team)
                               +:+ ":51820/udp")]).
Proof.
  intros Hpath Hports.
  rewrite (TopologyFacts.py_path_cons _ _ _ _
             (TopologyFacts.topology_services _ _)) in Hpath.
  cbn [py_path py_step] in Hpath.
  destruct (Dict.get (services host config) name) as [svc|] eqn:Hsvc; [|done].
  injection Hpath as ->.
  apply TopologyFacts.services_get_Some in Hsvc.
  destruct Hsvc as [(_ & ->)|[(_ & ->)|[(-> & ->)|[(team & Hin & _ & ->)
                                     |(team & Hin & Hnop & -> & ->)]]]].
  - by rewrite ServiceFacts.router_service_ports in Hports.
  - by rewrite ServiceFacts.database_service_ports in Hports.
  - rewrite ServiceFacts.gameserver_service_ports in Hports.
    destruct (gameserver_exposed_port config) as [port|]; [|done].
    injection Hports as <-. left. eauto.
  - destruct (ServiceFacts.team_service_confinement config team)
      as (_ & _ & _ & _ & _ & Hnone & _).
    by rewrite Hnone in Hports.
  - rewrite TopologyFacts.wireguard_service_ports in Hports.
    injection Hports as <-. right. eauto 10.
Qed.

Lemma published_ports_witness :
  py_path (compose_topology Sample.linux_user Sample.with_nop)
    [Key "services"; Key "gameserver"]
  = Some (gameserver_service Sample.with_nop)
  /\ py_get (gameserver_service Sample.with_nop) "ports"
     = Some (PList [str "127.0.0.1:8888:80"])
  /\ (("gameserver" = "gameserver"
       /\ exists port, gameserver_exposed_port Sample.with_nop = Some port
            /\ PList [str "127.0.0.1:8888:80"] = PList [str (port +:+ ":80")])
      \/ (exists team, team ∈ teams Sample.with_nop /\ nop team = false
            /\ "gameserver" = "wireguard" +:+ pretty (id team)
            /\ PList [str "127.0.0.1:8888:80"]
               = PList [str (pretty (wireguard_start_port Sample.with_nop
                                     + id team) +:+ ":51820/udp")])).
Proof.
  split; [reflexivity|]. split; [reflexivity|].
  exact (published_ports Sample.linux_user Sample.with_nop "gameserver"
           (gameserver_service Sample.with_nop)
           (PList [str "127.0.0.1:8888:80"]) eq_refl eq_refl).
Defined.

Module IgnoredFacts.

(** [same_teams l l']: two lists of teams that agree on ids, tokens and nop
    flags. *)
Local Notation "'same_teams'" :=
  (Forall2 (fun team team' : Team =>
              id team = id team' /\ token team = token team'
              /\ nop team = nop team')).

Lemma map_same_teams {A : Type} (f f' : Team -> A) (l l' : list Team) :
  same_teams l l' ->
  (forall team team', id team = id team' -> token team = token team' ->
                      f team = f' team') ->
  map f l = map f' l'.
Proof.
  intros Hsame Hf. induction Hsame as [|t t' l l' (Hid & Htok & _) _ IH];
    [done|]. csimpl. f_equal; [by apply Hf | exact IH].
Qed.

Lemma filter_same_teams (l l' : list Team) :
  same_teams l l' ->
  same_teams (filter (fun team => nop team = false) l)
             (filter (fun team => nop team = false) l').
Proof.
  intros Hsame.
  induction Hsame as [|t t' l l' (Hid & Htok & Hnop) _ IH]; [constructor|].
  rewrite !filter_cons. rewrite <- Hnop.
  destruct (decide (nop t = false)); [|exact IH].
  constructor; [done | exact IH].
Qed.

End IgnoredFacts.

(** X8: the topology reads nothing of a team but its id, token and nop flag,
    and of the config only the VPN start port and profiles, the server
    address, the DNS server, the bandwidth limit, the VM limits, the
    privileged flag, the disk size and the exposed port.  Two configs that
    agree on these compile to the same topology, whatever the names, images,
    pins and [wireguard_port] fields of their teams and whatever their game
    settings: the published VPN port is [wireguard_start_port + id] even
    where a team's own [wireguard_port] says otherwise. *)
Theorem topology_reads_only (host : Host) (config config' : Config) :
  wireguard_start_port config = wireguard_start_port config' ->
  wireguard_profiles config = wireguard_profiles config' ->
  server_addr config = server_addr config' ->
  dns config = dns config' ->
  network_limit_bandwidth config = network_limit_bandwidth config' ->
  max_vm_cpus config = max_vm_cpus config' ->
  max_vm_mem config = max_vm_mem config' ->
  unsafe_privileged config = unsafe_privileged config' ->
  default "" (max_disk_size config) = default "" (max_disk_size config') ->
  gameserver_exposed_port config = gameserver_exposed_port config' ->
  Forall2 (fun team team' =>
             id team = id team' /\ token team = token team'
             /\ nop team = nop team') (teams config) (teams config') ->
  compose_topology host config = compose_topology host config'
  /\ forall fs, write_compose host config fs = write_compose host config' fs.
Proof.
  intros Hstart Hprofiles Haddr Hdns Hnet Hcpus Hmem Hpriv Hdisk Hport Hteams.
  assert (truthy (max_disk_size config) = truthy (max_disk_size config'))
    as Htruthy.
  { destruct (max_disk_size config), (max_disk_size config');
      simpl in *; by subst. }
  assert (length (teams config) = length (teams config')) as Hlen
    by by eapply Forall2_length.
  pose proof (IgnoredFacts.filter_same_teams _ _ Hteams) as Hplaying.
  assert (compose_topology host config = compose_topology host config')
    as Heq.
  { unfold compose_topology, services, networks, router_service,
      router_networks, database_service, gameserver_service.
    rewrite Hdns, Hnet, Hport, Hlen.
    rewrite (IgnoredFacts.map_same_teams
               (fun team => ("team" +:+ pretty (id team),
                             team_service config team))
               (fun team => ("team" +:+ pretty (id team),
                             team_service config' team))
               _ _ Hteams)
      by (intros t t' Hid Htok; unfold team_service;
          by rewrite Hid, Htok, Hdns, Htruthy, Hdisk, Hpriv, Hcpus, Hmem).
    rewrite (IgnoredFacts.map_same_teams
               (fun team => ("wireguard" +:+ pretty (id team),
                             wireguard_service host config team))
               (fun team => ("wireguard" +:+ pretty (id team),
                             wireguard_service host config' team))
               _ _ Hplaying)
      by (intros t t' Hid Htok; unfold wireguard_service;
          by rewrite Hid, Hdns, Hstart, Hprofiles, Haddr).
    rewrite (IgnoredFacts.map_same_teams
               (fun team => str ("team" +:+ pretty (id team)))
               (fun team => str ("team" +:+ pretty (id team)))
               _ _ Hteams) by (by intros t t' ->).
    rewrite (IgnoredFacts.map_same_teams
               (fun team => ("vm-team" +:+ pretty (id team), vm_network team))
               (fun team => ("vm-team" +:+ pretty (id team), vm_network team))
               _ _ Hteams)
      by (intros t t' Hid _; unfold vm_network; by rewrite Hid).
    rewrite (IgnoredFacts.map_same_teams
               (fun team => ("players" +:+ pretty (id team),
                             players_network team))
               (fun team => ("players" +:+ pretty (id team),
                             players_network team))
               _ _ Hplaying)
      by (intros t t' Hid _; unfold players_network; by rewrite Hid).
    rewrite (IgnoredFacts.map_same_teams
               (fun team =>
                  ("vm-team" +:+ pretty (id team),
                   PDict (Dict.literal [
                     "priority" ~> int 10;
                     "ipv4_address" ~>
                       str ("10.60." +:+ pretty (id team) +:+ ".250")])))
               (fun team =>
                  ("vm-team" +:+ pretty (id team),
                   PDict (Dict.literal [
                     "priority" ~> int 10;
                     "ipv4_address" ~>
                       str ("10.60." +:+ pretty (id team) +:+ ".250")])))
               _ _ Hteams) by (by intros t t' ->).
    rewrite (IgnoredFacts.map_same_teams
               (fun team =>
                  ("players" +:+ pretty (id team),
                   PDict (Dict.literal [
                     "priority" ~> int 10;
                     "ipv4_address" ~>
                       str ("10.80." +:+ pretty (id team) +:+ ".250")])))
               (fun team =>
                  ("players" +:+ pretty (id team),
                   PDict (Dict.literal [
                     "priority" ~> int 10;
                     "ipv4_address" ~>
                       str ("10.80." +:+ pretty (id team) +:+ ".250")])))
               _ _ Hplaying) by (by intros t t' ->).
    reflexivity. }
  split; [exact Heq|]. intros fs. unfold write_compose. by rewrite Heq.
Qed.

Lemma topology_reads_only_witness :
  map wireguard_port (teams Variant.config) = [7; 7; 7; 7]
  /\ map wireguard_port (teams Sample.with_nop) = [51000; 51001; 51002; 51003]
  /\ compose_topology Sample.linux_user Sample.with_nop
     = compose_topology Sample.linux_user Variant.config.
Proof.
  split; [reflexivity|]. split; [reflexivity|].
  refine (proj1 (topology_reads_only Sample.linux_user Sample.with_nop
                   Variant.config eq_refl eq_refl eq_refl eq_refl eq_refl
                   eq_refl eq_refl eq_refl eq_refl eq_refl _)).
  repeat constructor.
Defined.

Module PortFacts.
Import Dict DictFacts TopologyFacts.

Local Notation "'serverport'" :=
  (fun kv : string * pyval =>
     match py_path kv.2 [Key "environment"; Key "SERVERPORT"] with
     | Some (PScalar (SInt port)) => Some port
     | _ => None
     end).

Lemma omap_cons_eq {A B : Type} (f : A -> option B) (x : A) (l : list A) :
  omap f (x :: l)
  = match f x with Some y => y :: omap f l | None => omap f l end.
Proof. reflexivity. Qed.

Lemma serverport_team_services config (l : list Team) :
  omap serverport
    (map (fun team => ("team" +:+ pretty (id team), team_service config team))
       l) = [].
Proof.
  induction l as [|team l IH]; [done|]. rewrite map_cons, omap_cons_eq.
  cbn [snd]. by rewrite team_service_serverport.
Qed.

Lemma serverport_wireguard_services host config (l : list Team) :
  omap serverport
    (map (fun team => ("wireguard" +:+ pretty (id team),
                       wireguard_service host config team)) l)
  = map (fun team => wireguard_start_port config + id team) l.
Proof.
  induction l as [|team l IH]; [done|]. rewrite map_cons, omap_cons_eq.
  cbn [snd]. rewrite wireguard_service_serverport. by rewrite IH.
Qed.

Lemma allocated_ports_distinct_ids host config :
  NoDup (map id (teams config)) ->
  allocated_ports (compose_topology host config)
  = map (fun team => wireguard_start_port config + id team)
      (filter (fun team => nop team = false) (teams config)).
Proof.
  intros Hids. unfold allocated_ports.
  change (py_get (compose_topology host config) "services")
    with (Some (PDict (services host config))).
  rewrite (TopologyMore.services_distinct_ids host config Hids).
  rewrite !omap_app, serverport_team_services,
    serverport_wireguard_services.
  rewrite !omap_cons_eq. cbn [snd].
  by rewrite router_service_serverport, database_service_serverport,
    gameserver_service_serverport.
Qed.

End PortFacts.

(** X9: in a config whose team ids are distinct, the VPN ports of the
    topology are [wireguard_start_port + id] for the teams that are not nop
    teams, in the order of the config, and no port is allocated twice. *)
Theorem allocated_ports_distinct (host : Host) (config : Config) :
  NoDup (map id (teams config)) ->
  allocated_ports (compose_topology host config)
  = map (fun team => wireguard_start_port config + id team)
      (filter (fun team => nop team = false) (teams config))
  /\ NoDup (allocated_ports (compose_topology host config)).
Proof.
  intros Hids.
  pose proof (PortFacts.allocated_ports_distinct_ids host config Hids) as Heq.
  split; [exact Heq|]. rewrite Heq.
  replace (map (fun team => wireguard_start_port config + id team)
             (filter (fun team => nop team = false) (teams config)))
    with ((fun i => wireguard_start_port config + i)
          <$> map id (filter (fun team => nop team = false) (teams config))).
  - apply NoDup_fmap_2; [intros i j ?; lia|].
    by apply TopologyMore.NoDup_ids_filter.
  - generalize (filter (fun team => nop team = false) (teams config)).
    intros l. induction l as [|t l IH]; [done|]. csimpl. by rewrite IH.
Qed.

Lemma allocated_ports_distinct_witness :
  NoDup (map id (teams Sample.with_nop))
  /\ allocated_ports (compose_topology Sample.linux_user Sample.with_nop)
     = [51001; 51002; 51003].
Proof.
  assert (NoDup (map id (teams Sample.with_nop))) as Hids by compute_done.
  split; [exact Hids|].
  exact (proj1 (allocated_ports_distinct Sample.linux_user Sample.with_nop
                  Hids)).
Defined.


Module TeamMore.
Section generation.
Context `{rt : Runtime}.
Variable enable_nop_team : bool.
Variable wireguard_start_port : Z.

Local Notation "'count' n" := (n + (if enable_nop_team then 1 else 0))
  (at level 10, n at level 9).

Lemma generated_map {A : Type} (f : Team -> A) (g : Z -> A) l ts :
  Forall2 (generated enable_nop_team wireguard_start_port) l ts ->
  (forall i team, generated enable_nop_team wireguard_start_port i team ->
                  f team = g i) ->
  map f ts = map g l.
Proof.
  intros Hgen Hfg. induction Hgen as [|i t l ts Hit _ IH]; [done|].
  csimpl. f_equal; [by apply Hfg | exact IH].
Qed.

(** The name that the loop gives to team [i]. *)
Lemma name_inj (i j : Z) :
  (if bool_decide (i = 0) && enable_nop_team
   then "Nop Team" else "Team " +:+ pretty i)
  = (if bool_decide (j = 0) && enable_nop_team
     then "Nop Team" else "Team " +:+ pretty j) ->
  i = j.
Proof.
  destruct (bool_decide_reflect (i = 0)), (bool_decide_reflect (j = 0));
    destruct enable_nop_team; simpl; try congruence; try discriminate;
    intros Heq; by simplify_eq.
Qed.

(** The playing teams are those of the indices past the nop team. *)
Lemma generated_playing l ts :
  Forall2 (generated enable_nop_team wireguard_start_port) l ts ->
  map id (filter (fun team => nop team = false) ts)
  = filter (fun i => bool_decide (i = 0) && enable_nop_team = false) l.
Proof.
  induction 1 as [|i t l ts (Hid & _ & Hnop & _) _ IH]; [done|].
  rewrite !filter_cons, Hnop.
  destruct (decide (bool_decide (i = 0) && enable_nop_team = false));
    [|exact IH].
  csimpl. by rewrite Hid, IH.
Qed.

Lemma filter_seqZ_ge (P : Z -> Prop) `{forall i, Decision (P i)} m n :
  (forall i, m <= i -> P i) -> filter P (seqZ m n) = seqZ m n.
Proof.
  intros HP.
  assert (Forall P (seqZ m n)) as Hall.
  { apply Forall_forall. intros i Hi%elem_of_seqZ. apply HP. lia. }
  induction Hall as [|i l Hi _ IH]; [done|].
  by rewrite filter_cons, decide_True, IH.
Qed.

Lemma playing_range n :
  filter (fun i => bool_decide (i = 0) && enable_nop_team = false)
    (range (count n))
  = seqZ (if enable_nop_team then 1 else 0) n.
Proof.
  unfold range. destruct enable_nop_team.
  - destruct (decide (0 < n + 1)) as [Hpos|Hneg].
    + rewrite seqZ_cons by done. rewrite filter_cons, decide_False by done.
      replace (Z.pred (n + 1)) with n by lia. change (Z.succ 0) with 1.
      apply filter_seqZ_ge. intros i Hi.
      rewrite bool_decide_eq_false_2 by lia. done.
    + rewrite !seqZ_nil by lia. done.
  - rewrite Z.add_0_r. apply filter_seqZ_ge. intros i _.
    apply andb_false_r.
Qed.

End generation.
End TeamMore.

(** X10: the teams that [generate_teams_array] makes collide in nothing,
    whatever the arguments: their ids are distinct, their names are distinct
    ([Nop Team] for the nop team and [Team i] for the others), their VPN
    ports are distinct, and every one has an empty image and no pin. *)
Theorem generated_teams_are_distinct `{rt : Runtime} (n : Z)
    (enable_nop : bool) (p : Z) (rng : Rng) :
  let ts := (generate_teams_array n enable_nop p rng).1 in
  NoDup (map id ts)
  /\ NoDup (map name ts)
  /\ NoDup (map wireguard_port ts)
  /\ Forall (fun team =>
               name team = (if nop team then "Nop Team"
                            else "Team " +:+ pretty (id team))
               /\ image team = "" /\ pins team = []) ts.
Proof.
  intros ts.
  pose proof (TeamFacts.generate_teams_array_generated enable_nop p n rng)
    as Hgen.
  fold ts in Hgen. split_and!.
  - rewrite (TeamFacts.generated_ids _ _ _ _ Hgen). apply NoDup_seqZ.
  - rewrite (TeamMore.generated_map enable_nop p name
               (fun i => if bool_decide (i = 0) && enable_nop
                         then "Nop Team" else "Team " +:+ pretty i)
               _ _ Hgen) by (by intros i team (_ & _ & _ & -> & _)).
    apply NoDup_fmap_2; [|apply NoDup_seqZ].
    intros i j. apply TeamMore.name_inj.
  - rewrite (TeamMore.generated_map enable_nop p wireguard_port
               (fun i => p + i) _ _ Hgen)
      by (by intros i team (_ & -> & _)).
    apply NoDup_fmap_2; [|apply NoDup_seqZ]. intros i j ?. lia.
  - eapply Forall2_Forall_r; [exact Hgen|]. apply Forall_forall.
    intros i _ team (Hid & _ & Hnop & Hname & Himage & Hpins).
    by rewrite Hname, Hnop, Hid.
Qed.

(** X11: when [number_of_teams] plus one for the nop team is not positive,
    [generate_teams_array] makes no team at all, not even the nop team, and
    draws no token. *)
Theorem generate_teams_array_none `{rt : Runtime} (n : Z) (enable_nop : bool)
    (p : Z) (rng : Rng) :
  n + (if enable_nop then 1 else 0) <= 0 ->
  generate_teams_array n enable_nop p rng = ([], rng).
Proof.
  intros Hn. unfold generate_teams_array, range. by rewrite seqZ_nil.
Qed.

Lemma generate_teams_array_none_witness :
  -1 + 1 <= 0
  /\ @generate_teams_array Sample.runtime (-1) true 51000 0%nat = ([], 0%nat).
Proof.
  split; [lia|].
  exact (@generate_teams_array_none Sample.runtime (-1) true 51000 0%nat
           ltac:(simpl; lia)).
Defined.

(** X12: asking for one more team keeps the teams made before, with their
    tokens, and adds one team at the end: its id is the number of teams made
    before, its token is the next draw, its port is the start port plus its
    id. *)
Theorem generate_teams_array_one_more `{rt : Runtime} (n : Z)
    (enable_nop : bool) (p : Z) (rng : Rng) :
  0 <= n + (if enable_nop then 1 else 0) ->
  let i := n + (if enable_nop then 1 else 0) in
  let before := generate_teams_array n enable_nop p rng in
  let draw := token_hex 32 before.2 in
  generate_teams_array (n + 1) enable_nop p rng
  = (before.1 ++ [
       {| id := i;
          name := (if bool_decide (i = 0) && enable_nop
                   then "Nop Team" else "Team " +:+ pretty i);
          token := draw.1;
          wireguard_port := p + i;
          nop := bool_decide (i = 0) && enable_nop;
          image := "";
          pins := [] |}],
     draw.2)
  /\ Z.of_nat (length before.1) = i.
Proof.
  intros Hn i before draw. subst draw before.
  assert (Z.of_nat (length (generate_teams_array n enable_nop p rng).1) = i)
    as Hlen.
  { pose proof (TeamFacts.generate_teams_array_generated enable_nop p n rng)
      as Hgen.
    rewrite <- (Forall2_length _ _ _ Hgen). unfold range.
    rewrite length_seqZ. subst i. lia. }
  split; [|exact Hlen].
  unfold generate_teams_array, range.
  replace (n + 1 + (if enable_nop then 1 else 0)) with (i + 1) by (subst i; lia).
  fold i. rewrite seqZ_app by lia. rewrite foldl_app.
  change (seqZ (0 + i) 1) with [i]. cbn [foldl].
  destruct (foldl _ _ (seqZ 0 i)) as [ts r]. cbn [fst snd].
  destruct (token_hex 32 r) as [tok r']. cbn [fst snd].
  by destruct (bool_decide (i = 0) && enable_nop).
Qed.

Lemma generate_teams_array_one_more_witness :
  0 <= 2 + 1
  /\ map token (@generate_teams_array Sample.runtime 3 true 51000 0%nat).1
     = map token (@generate_teams_array Sample.runtime 2 true 51000 0%nat).1
       ++ ["token3"].
Proof.
  split; [lia|].
  destruct (@generate_teams_array_one_more Sample.runtime 2 true 51000 0%nat
              ltac:(simpl; lia)) as [Heq _].
  cbv zeta in Heq. change (2 + 1) with 3 in Heq. rewrite Heq.
  cbn [fst]. rewrite map_app. reflexivity.
Defined.

(** X13: compiling a config whose teams come from [generate_teams_array],
    called with the config's start port: the VPN ports of the topology are
    the start port plus 1, 2, ..., [n] with a nop team and plus 0, 1, ...,
    [n - 1] without, and the port that the compose file gives to a team is the
    [wireguard_port] recorded for it in the config. *)
Theorem generated_teams_compiled `{rt : Runtime} (host : Host)
    (config : Config) (n : Z) (enable_nop : bool) (rng : Rng) :
  teams config
  = (generate_teams_array n enable_nop (wireguard_start_port config) rng).1 ->
  allocated_ports (compose_topology host config)
  = map (fun i => wireguard_start_port config + i)
      (seqZ (if enable_nop then 1 else 0) n)
  /\ allocated_ports (compose_topology host config)
     = map wireguard_port
         (filter (fun team => nop team = false) (teams config))
  /\ forall team, team ∈ teams config -> nop team = false ->
       py_path (compose_topology host config)
         [Key "services"; Key ("wireguard" +:+ pretty (id team));
          Key "environment"; Key "SERVERPORT"]
       = Some (int (wireguard_port team)).
Proof.
  intros Hteams.
  pose proof (TeamFacts.generate_teams_array_generated enable_nop
                (wireguard_start_port config) n rng) as Hgen.
  rewrite <- Hteams in Hgen.
  assert (NoDup (map id (teams config))) as Hids.
  { rewrite (TeamFacts.generated_ids _ _ _ _ Hgen). apply NoDup_seqZ. }
  assert (Forall (fun team =>
                    wireguard_port team
                    = wireguard_start_port config + id team) (teams config))
    as Hports.
  { eapply Forall2_Forall_r; [exact Hgen|]. apply Forall_forall.
    intros i _ team (Hid & Hport & _). by rewrite Hport, Hid. }
  rewrite (PortFacts.allocated_ports_distinct_ids host config Hids).
  split_and!.
  - replace (map (fun team => wireguard_start_port config + id team)
               (filter (fun team => nop team = false) (teams config)))
      with (map (fun i => wireguard_start_port config + i)
              (map id (filter (fun team => nop team = false)
                         (teams config))))
      by (by rewrite map_map).
    by rewrite (TeamMore.generated_playing _ _ _ _ Hgen),
      TeamMore.playing_range.
  - apply map_ext_in. intros team Hin%list_elem_of_In.
    apply list_elem_of_filter in Hin as [_ Hin].
    rewrite Forall_forall in Hports. by rewrite (Hports team Hin).
  - intros team Hin Hnop.
    destruct (TopologyFacts.services_wireguard host config team Hin Hnop)
      as (team' & _ & Hid & _ & Hsvc).
    path_into_services. path_key Hsvc.
    rewrite TopologyFacts.wireguard_service_serverport, Hid.
    rewrite Forall_forall in Hports. by rewrite (Hports team Hin).
Qed.

Lemma generated_teams_compiled_witness :
  teams (Sample.config 51000
           (@generate_teams_array Sample.runtime 3 true 51000 0%nat).1)
  = (@generate_teams_array Sample.runtime 3 true 51000 0%nat).1
  /\ allocated_ports
       (compose_topology Sample.linux_user
          (Sample.config 51000
             (@generate_teams_array Sample.runtime 3 true 51000 0%nat).1))
     = [51001; 51002; 51003].
Proof.
  split; [reflexivity|].
  exact (proj1 (@generated_teams_compiled Sample.runtime Sample.linux_user
                  (Sample.config 51000
                     (@generate_teams_array Sample.runtime 3 true 51000
                        0%nat).1)
                  3 true 0%nat eq_refl)).
Defined.


Module InputMore.
Import InputFacts.
Section prompt.
Context `{rt : Runtime}.

Local Notation "'blank'" := (fun line : string => strip line = "").







Lemma get_input_required_Ok {A : Type} fuel (default : A) w x w' :
  get_input fuel default true w = Ok x w' ->
  exists s, x = inl s /\ s <> "".
Proof.
  unfold get_input. intros (line & w1 & _ & H)%bind_Ok.
  case_bool_decide as Hvalue.
  - apply ret_Ok in H as [-> _]. eauto.
  - apply bind_Ok in H as (value & w2 & Hloop & H).
    apply ret_Ok in H as [-> _]. apply while_Ok in Hloop.
    apply bool_decide_eq_false in Hloop. eauto.
Qed.



(** What the prompt has made sure of in the config it returns. *)
Lemma config_input_fields fuel a w config w' :
  config_input fuel a w = Ok config w' ->
  server_addr config <> ""
  /\ debug config = false
  /\ pin_data_added config = false.
Proof.
  unfold config_input. intros H.
  do 5 (apply bind_Ok in H as (? & ? & _ & H)).
  apply bind_Ok in H as (addr & ? & Haddr & H).
  do 22 (apply bind_Ok in H as (? & ? & _ & H)).
  apply ret_Ok in H as [-> _]. cbn [server_addr debug pin_data_added].
  apply get_input_required_Ok in Haddr as (s & -> & Hs). by split_and!.
Qed.

End prompt.
End InputMore.





(** X16: the config that [config_input] returns, compiled on any host: its
    server address is not empty, its [debug] and [pin_data_added] flags are
    off, the ids of its teams are distinct, and the VPN ports of its topology
    are distinct port numbers between 1 and 65535. *)
Theorem prompted_config_compiled `{rt : Runtime} (fuel : nat) (a : args.t)
    (w w' : World) (config : Config) (host : Host) :
  config_input fuel a w = Ok config w' ->
  server_addr config <> ""
  /\ debug config = false
  /\ pin_data_added config = false
  /\ NoDup (map id (teams config))
  /\ NoDup (allocated_ports (compose_topology host config))
  /\ Forall (fun port => 1 <= port <= 65535)
       (allocated_ports (compose_topology host config)).
Proof.
  intros Hok.
  destruct (InputMore.config_input_fields _ _ _ _ _ Hok)
    as (Haddr & Hdebug & Hpins).
  apply InputFacts.config_input_Ok in Hok
    as (n & enable_nop_team & r & Hn & Hport & Hteams).
  pose proof (TeamFacts.generate_teams_array_generated enable_nop_team
                (wireguard_start_port config) n r) as Hgen.
  rewrite <- Hteams in Hgen.
  assert (NoDup (map id (teams config))) as Hids.
  { rewrite (TeamFacts.generated_ids _ _ _ _ Hgen). apply NoDup_seqZ. }
  rewrite (PortFacts.allocated_ports_distinct_ids host config Hids).
  split_and!; [done..| |].
  - replace (map (fun team => wireguard_start_port config + id team)
               (filter (fun team => nop team = false) (teams config)))
      with ((fun i => wireguard_start_port config + i)
            <$> map id (filter (fun team => nop team = false)
                          (teams config)))
      by (by rewrite <- list_fmap_compose).
    apply NoDup_fmap_2; [intros i j ?; lia|].
    by apply TopologyMore.NoDup_ids_filter.
  - apply Forall_fmap, Forall_forall.
    intros team [_ Hin]%list_elem_of_filter.
    assert (id team ∈ map id (teams config)) as Hid
      by (apply list_elem_of_fmap; eauto).
    rewrite (TeamFacts.generated_ids _ _ _ _ Hgen) in Hid.
    unfold range in Hid. apply elem_of_seqZ in Hid. simpl.
    destruct enable_nop_team; lia.
Qed.

Lemma prompted_config_compiled_witness :
  exists config w',
    @config_input Sample.runtime 30 Sample.defaults Sample.world
    = Ok config w'
    /\ server_addr config <> ""
    /\ NoDup (allocated_ports (compose_topology Sample.linux_user config)).
Proof.
  assert (match @config_input Sample.runtime 30 Sample.defaults Sample.world
          with Ok _ _ => True | _ => False end) as Hreturns
    by (vm_compute; exact I).
  destruct (@config_input Sample.runtime 30 Sample.defaults Sample.world)
    as [config w'| |] eqn:Hrun; [|destruct Hreturns..].
  exists config, w'. split; [reflexivity|].
  destruct (@prompted_config_compiled Sample.runtime 30 Sample.defaults
              Sample.world w' config Sample.linux_user Hrun)
    as (Haddr & _ & _ & _ & Hports & _).
  split; [exact Haddr | exact Hports].
Defined.


(** ** Configs as dictionaries *)

Module JsonFacts.
Import Json.

Lemma and_then_inr {A B : Type} (m : error + A) (f : A -> error + B) b :
  and_then m f = inr b -> exists a, m = inr a /\ f a = inr b.
Proof. destruct m as [e|a]; [done|]. simpl. eauto. Qed.

Lemma traverse_map_inr {A B : Type} (f : A -> error + B) (g : B -> A)
    (l : list B) :
  (forall y, f (g y) = inr y) -> traverse f (map g l) = inr l.
Proof.
  intros Hfg. induction l as [|y l IH]; [done|].
  cbn [map traverse]. by rewrite Hfg, IH.
Qed.

Lemma get_remove (d : dict) (k k' : string) :
  get (remove d k) k' = if decide (k' = k) then None else get d k'.
Proof.
  unfold remove. induction d as [|[k0 v0] d IH].
  - by destruct (decide (k' = k)).
  - rewrite filter_cons. cbn [fst get].
    destruct (decide (k0 <> k)) as [Hne|Heq%dec_stable].
    + cbn [get]. destruct (decide (k0 = k')) as [->|Hne'].
      * by rewrite decide_False.
      * exact IH.
    + subst k0. rewrite IH.
      destruct (decide (k' = k)) as [->|Hne]; [done|].
      by rewrite decide_False.
Qed.

Lemma remove_remove (d : dict) (k : string) :
  remove (remove d k) k = remove d k.
Proof.
  unfold remove. induction d as [|[k0 v0] d IH]; [done|].
  rewrite filter_cons. destruct (decide ((k0, v0).1 <> k)) as [Hne|Heq].
  - by rewrite filter_cons, decide_True, IH.
  - exact IH.
Qed.

Lemma arg_inr (kwargs : dict) field dflt v :
  arg kwargs field dflt = inr v ->
  get kwargs field = Some v \/ (get kwargs field = None /\ dflt = Some v).
Proof.
  unfold arg. destruct (get kwargs field) as [v'|].
  - intros [= ->]. by left.
  - destruct dflt as [v'|]; [|done]. intros [= ->]. by right.
Qed.

Lemma expected_inr (fields : list string) (kwargs : dict) u :
  expected fields kwargs = inr u -> forall k, k ∈ kwargs.*1 -> k ∈ fields.
Proof.
  unfold expected. destruct (forallb _ _) eqn:Hall; [|done]. intros _ k Hk.
  rewrite forallb_forall in Hall. apply list_elem_of_In in Hk.
  specialize (Hall k Hk). by apply bool_decide_eq_true in Hall.
Qed.

Lemma get_Some_key (d : dict) k v : get d k = Some v -> k ∈ d.*1.
Proof.
  induction d as [|[k0 v0] d IH]; [done|]. cbn [get].
  destruct (decide (k0 = k)) as [->|Hne].
  - intros _. csimpl. left.
  - intros H. csimpl. right. auto.
Qed.

(** The round trip, object by object. *)
Lemma PinEntry_round_trip (entry : PinEntry_object) :
  and_then (mapping (PinEntry_asdict entry)) PinEntry_init = inr entry.
Proof. by destruct entry. Qed.

Lemma Team_round_trip (team : Team_object) :
  team_from_dict (Team_asdict team) = inr team.
Proof.
  unfold team_from_dict, Team_asdict. cbn [pop and_then fst snd].
  change (get _ "pins")
    with (Some (JList (map PinEntry_asdict (pins_value team)))).
  cbn [from_option iter and_then].
  rewrite (traverse_map_inr _ PinEntry_asdict);
    [|exact PinEntry_round_trip].
  by destruct team.
Qed.

(** What a call of [Config] that returns has been given. *)
Lemma Config_init_teams (kwargs : dict) teams teams' config :
  Config_init kwargs teams = inr config ->
  Config_init kwargs teams' = inr (with_teams config teams').
Proof.
  unfold Config_init. intros H.
  repeat (apply and_then_inr in H as (? & -> & H); cbn [and_then]).
  injection H as <-. reflexivity.
Qed.

Lemma Config_init_inr (kwargs : dict) teams config :
  Config_init kwargs teams = inr config ->
  teams_value config = teams
  /\ (forall k, k ∈ kwargs.*1 -> k ∈ Config_fields)
  /\ forall k, k ∈ Config_fields ->
       exists v, item (asdict config) k = Some v
         /\ (get kwargs k = Some v
             \/ (get kwargs k = None
                 /\ ((k ∈ ["unsafe_privileged"; "debug"; "pin_data_added"]
                      /\ v = JBool false)
                     \/ (k ∈ ["start_time"; "end_time"; "max_disk_size";
                              "gameserver_exposed_port"]
                         /\ v = JNull)))).
Proof.
  unfold Config_init. intros H.
  apply and_then_inr in H as (u & Hexpected & H).
  repeat match type of H with
         | and_then (arg _ ?field _) _ = _ =>
             let Harg := fresh "Harg" in
             apply and_then_inr in H as (? & Harg & H);
             apply arg_inr in Harg
         end.
  injection H as <-. split; [done|]. split.
  - by eapply expected_inr.
  - intros k Hk. unfold Config_fields in Hk.
    repeat (apply elem_of_cons in Hk as [->|Hk];
            [eexists; split; [reflexivity|];
             match goal with
             | H : get kwargs ?f = Some _ \/ _ |- context [get kwargs ?f] =>
                 destruct H as [H|[H Hd]]; [by left|]
             end;
             right; split; [done|]; simplify_eq;
             first [ left; split; [solve [repeat constructor]|done]
                   | right; split; [solve [repeat constructor]|done] ]
            |]).
    inversion Hk.
Qed.

End JsonFacts.


Module ObjectFacts.
Import Json JsonFacts.

Lemma map_inj {A B : Type} (f : A -> B) (l l' : list A) :
  (forall x y, f x = f y -> x = y) -> map f l = map f l' -> l = l'.
Proof.
  intros Hf. revert l'. induction l as [|x l IH]; intros [|y l'] Heq;
    try done.
  injection Heq as Hxy Hl. f_equal; auto.
Qed.

Lemma optional_inj (o o' : option string) : optional o = optional o' -> o = o'.
Proof. destruct o, o'; simpl; congruence. Qed.

Lemma PinEntry_instance_inj (entry entry' : PinEntry) :
  PinEntry_instance entry = PinEntry_instance entry' -> entry = entry'.
Proof. destruct entry, entry'. by intros [= -> ->]. Qed.

Lemma Team_instance_inj (team team' : Team) :
  Team_instance team = Team_instance team' -> team = team'.
Proof.
  destruct team, team'. unfold Team_instance. cbn.
  intros [= -> -> -> -> -> -> Hpins].
  f_equal.
  apply (map_inj PinEntry_instance); [apply PinEntry_instance_inj | exact Hpins].
Qed.

Lemma from_dict_asdict (object : Config_object) :
  from_dict (asdict object)
  = (inr object,
     JDict [("wireguard_start_port", wireguard_start_port_value object);
            ("wireguard_profiles", wireguard_profiles_value object);
            ("server_addr", server_addr_value object);
            ("dns", dns_value object);
            ("tick_time", tick_time_value object);
            ("flag_expire_ticks", flag_expire_ticks_value object);
            ("initial_service_score", initial_service_score_value object);
            ("max_flags_per_request", max_flags_per_request_value object);
            ("submission_timeout", submission_timeout_value object);
            ("network_limit_bandwidth",
             network_limit_bandwidth_value object);
            ("max_vm_cpus", max_vm_cpus_value object);
            ("max_vm_mem", max_vm_mem_value object);
            ("gameserver_token", gameserver_token_value object);
            ("unsafe_privileged", unsafe_privileged_value object);
            ("start_time", start_time_value object);
            ("end_time", end_time_value object);
            ("max_disk_size", max_disk_size_value object);
            ("gameserver_exposed_port",
             gameserver_exposed_port_value object);
            ("debug", debug_value object);
            ("pin_data_added", pin_data_added_value object)]).
Proof.
  unfold from_dict, asdict. cbn [pop].
  change (get _ "teams")
    with (Some (JList (map Team_asdict (teams_value object)))).
  cbn [from_option iter and_then].
  rewrite (traverse_map_inr _ Team_asdict); [|exact Team_round_trip].
  by destruct object.
Qed.

Lemma from_dict_dict (d : dict) :
  from_dict (JDict d)
  = (and_then (iter (from_option (fun v => v) (JList []) (get d "teams")))
       (fun team_items =>
          and_then (traverse team_from_dict team_items)
            (Config_init (remove d "teams"))),
     JDict (remove d "teams")).
Proof. reflexivity. Qed.

Lemma from_dict_inr data config data' :
  from_dict data = (inr config, data') ->
  exists d teams,
    data = JDict d /\ data' = JDict (remove d "teams")
    /\ Config_init (remove d "teams") teams = inr config.
Proof.
  destruct data as [| | | | | |d]; try done.
  rewrite from_dict_dict. intros [= H <-].
  apply and_then_inr in H as (team_items & _ & H).
  apply and_then_inr in H as (teams & _ & H). eauto.
Qed.

End ObjectFacts.

(** X17: a config survives the way through its dictionary:
    [Config.from_dict] gives back the object that [asdict] was applied to,
    whatever values its fields hold; for a well-typed config, [from_dict] of
    [to_dict] gives the object that holds its values, out of which the config
    can be read back. *)
Theorem config_dict_round_trip :
  (forall object : Config_object,
     (from_dict (asdict object)).1 = inr object)
  /\ (forall config : Config,
        (from_dict (to_dict config)).1 = inr (Config_instance config))
  /\ (forall config config' : Config,
        Config_instance config = Config_instance config' ->
        config = config').
Proof.
  split_and!.
  - intros object. by rewrite ObjectFacts.from_dict_asdict.
  - intros config. unfold to_dict.
    by rewrite ObjectFacts.from_dict_asdict.
  - intros config config'. destruct config, config'.
    unfold Config_instance. cbn.
    intros [= -> -> -> -> -> -> -> -> -> -> -> -> -> Hteams ->
              Hstart Hend Hdisk Hport -> ->].
    apply ObjectFacts.optional_inj in Hstart, Hend, Hdisk, Hport.
    apply (ObjectFacts.map_inj Team_instance) in Hteams;
      [|apply ObjectFacts.Team_instance_inj].
    by subst.
Qed.

(** X18: [Config.from_dict] takes the teams out of the dictionary it is
    given: after the call the caller's dictionary has no [teams] key, whether
    the call returned or raised.  So a second call on the same dictionary
    returns the same config without its teams. *)
Theorem from_dict_pops_teams :
  (forall d : Json.dict,
     (from_dict (JDict d)).2 = JDict (Json.remove d "teams")
     /\ Json.item (from_dict (JDict d)).2 "teams" = None)
  /\ (forall data config data',
        from_dict data = (inr config, data') ->
        from_dict data' = (inr (with_teams config []), data')).
Proof.
  split.
  - intros d. rewrite ObjectFacts.from_dict_dict. cbn [snd Json.item].
    split; [done|]. by rewrite JsonFacts.get_remove, decide_True.
  - intros data config data' Hcall.
    apply ObjectFacts.from_dict_inr in Hcall as (d & teams & -> & -> & Hinit).
    rewrite ObjectFacts.from_dict_dict.
    rewrite JsonFacts.get_remove, decide_True by done.
    rewrite JsonFacts.remove_remove.
    cbn [from_option Json.iter Json.and_then Json.traverse].
    by rewrite (JsonFacts.Config_init_teams _ _ [] _ Hinit).
Qed.

(** X19: what [Config.from_dict] accepts.  When it returns, the dictionary
    has no key other than [teams] and the fields of [Config]; every field has
    the value that the dictionary gives it, taken as it is, and a field that
    the dictionary leaves out has its default: [False] for
    [unsafe_privileged], [debug] and [pin_data_added], [None] for
    [start_time], [end_time], [max_disk_size] and [gameserver_exposed_port];
    the other fields cannot be left out.  Without a [teams] key the config
    has no team. *)
Theorem from_dict_keywords (data data' : json) (config : Config_object) :
  from_dict data = (inr config, data') ->
  exists d,
    data = JDict d
    /\ (forall k, k ∈ d.*1 -> k = "teams" \/ k ∈ Config_fields)
    /\ (forall k, k ∈ Config_fields ->
          exists v, Json.item (asdict config) k = Some v
            /\ (Json.get d k = Some v
                \/ (Json.get d k = None
                    /\ ((k ∈ ["unsafe_privileged"; "debug"; "pin_data_added"]
                         /\ v = JBool false)
                        \/ (k ∈ ["start_time"; "end_time"; "max_disk_size";
                                 "gameserver_exposed_port"]
                            /\ v = JNull)))))
    /\ (Json.get d "teams" = None -> teams_value config = []).
Proof.
  intros Hcall.
  destruct data as [| | | | | |d]; try done. exists d. split; [done|].
  rewrite ObjectFacts.from_dict_dict in Hcall. injection Hcall as Hcall _.
  apply JsonFacts.and_then_inr in Hcall as (team_items & Hiter & Hcall).
  apply JsonFacts.and_then_inr in Hcall as (teams & Hteams & Hinit).
  apply JsonFacts.Config_init_inr in Hinit as (Hvalue & Hkeys & Hfields).
  split_and!.
  - intros k Hk. destruct (decide (k = "teams")) as [->|Hne]; [by left|].
    right. apply Hkeys. unfold Json.remove.
    apply list_elem_of_fmap in Hk as ([k' v] & -> & Hin).
    apply list_elem_of_fmap. exists (k', v). split; [done|].
    by apply list_elem_of_filter.
  - intros k Hk. destruct (Hfields k Hk) as (v & Hitem & Hget).
    exists v. split; [done|].
    rewrite JsonFacts.get_remove in Hget.
    rewrite decide_False in Hget; [done|].
    intros ->. unfold Config_fields in Hk.
    repeat (apply elem_of_cons in Hk as [?|Hk]; [done|]). inversion Hk.
  - intros Hnone. rewrite Hnone in Hiter. injection Hiter as <-.
    injection Hteams as <-. done.
Qed.

Lemma from_dict_keywords_witness :
  exists config,
    from_dict Variant.least_config = (inr config, Variant.least_config)
    /\ Json.item (asdict config) "debug" = Some (JBool false)
    /\ teams_value config = [].
Proof.
  eexists. split; [reflexivity|]. split; [reflexivity|].
  destruct (from_dict_keywords Variant.least_config Variant.least_config _
              eq_refl) as (d & Hd & _ & _ & Hteams).
  injection Hd as <-. by apply Hteams.
Defined.


Module TeamObjectFacts.
Import Json JsonFacts.

Lemma Team_init_inr (kwargs : dict) pins object :
  Team_init pins kwargs = inr object ->
  pins_value object = pins
  /\ (forall k, k ∈ kwargs.*1 ->
        k ∈ ["id"; "name"; "token"; "wireguard_port"; "nop"; "image"])
  /\ forall k, k ∈ ["id"; "name"; "token"; "wireguard_port"; "nop"; "image"] ->
       exists v, item (Team_asdict object) k = Some v
         /\ (get kwargs k = Some v
             \/ (get kwargs k = None
                 /\ ((k = "nop" /\ v = JBool false)
                     \/ (k = "image" /\ v = JStr "")))).
Proof.
  unfold Team_init. intros H.
  apply and_then_inr in H as (u & Hexpected & H).
  repeat match type of H with
         | and_then (arg _ ?field _) _ = _ =>
             let Harg := fresh "Harg" in
             apply and_then_inr in H as (? & Harg & H);
             apply arg_inr in Harg
         end.
  injection H as <-. split; [done|]. split.
  - by eapply expected_inr.
  - intros k Hk.
    repeat (apply elem_of_cons in Hk as [->|Hk];
            [eexists; split; [reflexivity|];
             match goal with
             | H : get kwargs ?f = Some _ \/ _ |- context [get kwargs ?f] =>
                 destruct H as [H|[H Hd]]; [by left|]
             end;
             right; split; [done|]; simplify_eq;
             first [ by left | by right ]
            |]).
    inversion Hk.
Qed.

End TeamObjectFacts.

(** X20: what the teams of a config dictionary may hold.  When a team's
    dictionary is accepted, it has no key other than [id], [name], [token],
    [wireguard_port], [nop], [image] and [pins]; every field has the value
    the dictionary gives it, a team without [nop] is not a nop team, a team
    without [image] has the empty image, a team without [pins] has no pin,
    and the other four fields cannot be left out. *)
Theorem team_from_dict_keywords (team : json) (object : Team_object) :
  team_from_dict team = inr object ->
  exists d,
    team = JDict d
    /\ (forall k, k ∈ d.*1 ->
          k ∈ ["id"; "name"; "token"; "wireguard_port"; "nop"; "image";
               "pins"])
    /\ (forall k,
          k ∈ ["id"; "name"; "token"; "wireguard_port"; "nop"; "image"] ->
          exists v, Json.item (Team_asdict object) k = Some v
            /\ (Json.get d k = Some v
                \/ (Json.get d k = None
                    /\ ((k = "nop" /\ v = JBool false)
                        \/ (k = "image" /\ v = JStr "")))))
    /\ (Json.get d "pins" = None -> pins_value object = []).
Proof.
  intros Hcall. destruct team as [| | | | | |d]; try done.
  exists d. split; [done|].
  unfold team_from_dict in Hcall. cbn [Json.pop Json.and_then fst snd] in Hcall.
  apply JsonFacts.and_then_inr in Hcall as (pin_items & Hiter & Hcall).
  apply JsonFacts.and_then_inr in Hcall as (pins & Hpins & Hcall).
  cbn [Json.mapping Json.and_then] in Hcall.
  apply TeamObjectFacts.Team_init_inr in Hcall as (Hvalue & Hkeys & Hfields).
  split_and!.
  - intros k Hk. destruct (decide (k = "pins")) as [->|Hne].
    { do 6 right. left. }
    assert (k ∈ ["id"; "name"; "token"; "wireguard_port"; "nop"; "image"])
      as Hin.
    { apply Hkeys. unfold Json.remove.
      apply list_elem_of_fmap in Hk as ([k' v] & -> & Hin).
      apply list_elem_of_fmap. exists (k', v). split; [done|].
      by apply list_elem_of_filter. }
    repeat (apply elem_of_cons in Hin as [->|Hin];
            [solve [repeat constructor]|]).
    inversion Hin.
  - intros k Hk. destruct (Hfields k Hk) as (v & Hitem & Hget).
    exists v. split; [done|].
    rewrite JsonFacts.get_remove in Hget.
    rewrite decide_False in Hget; [done|].
    intros ->.
    repeat (apply elem_of_cons in Hk as [?|Hk]; [done|]). inversion Hk.
  - intros Hnone. rewrite Hnone in Hiter. injection Hiter as <-.
    injection Hpins as <-. done.
Qed.

Lemma team_from_dict_keywords_witness :
  exists object,
    team_from_dict
      (JDict [("id", JInt 1); ("name", JStr "Team 1");
              ("token", JStr "c0ffee"); ("wireguard_port", JInt 51001)])
    = inr object
    /\ nop_value object = JBool false
    /\ pins_value object = [].
Proof.
  eexists. split; [reflexivity|]. split; [reflexivity|].
  destruct (team_from_dict_keywords
              (JDict [("id", JInt 1); ("name", JStr "Team 1");
                      ("token", JStr "c0ffee");
                      ("wireguard_port", JInt 51001)]) _ eq_refl)
    as (d & Hd & _ & _ & Hpins).
  injection Hd as <-. by apply Hpins.
Defined.


(** ** The commands *)

Module CliFacts.
Import Cli.

(** *** Runs of composed programs *)

Lemma runs_bind {A B : Type} (m : prog A) (f : A -> prog B) t o :
  runs (bind m f) t o <->
  exists t1 o1,
    runs m t1 o1
    /\ match o1 with
       | Returned a => exists t2, t = t1 ++ t2 /\ runs (f a) t2 o
       | Exited code => t = t1 /\ o = Exited code
       | Raised e => t = t1 /\ o = Raised e
       end.
Proof.
  revert t. induction m as [[a|code|e]|r k IH]; intros t; cbn [bind runs].
  - split.
    + intros H. exists [], (Returned a). split; [done|]. by exists t.
    + intros (t1 & o1 & [-> ->] & t2 & -> & H). done.
  - split.
    + intros [-> ->]. by exists [], (Exited code).
    + by intros (t1 & o1 & [-> ->] & -> & ->).
  - split.
    + intros [-> ->]. by exists [], (Raised e).
    + by intros (t1 & o1 & [-> ->] & -> & ->).
  - split.
    + intros (a & rest & -> & H). apply IH in H as (t1 & o1 & Hm & Hrest).
      exists (Event r a :: t1), o1. split; [by exists a, t1|].
      destruct o1 as [b|code|e].
      * destruct Hrest as (t2 & -> & Hf). by exists t2.
      * by destruct Hrest as [-> ->].
      * by destruct Hrest as [-> ->].
    + intros (t1 & o1 & (a & rest & -> & Hm) & Hrest).
      exists a. destruct o1 as [b|code|e].
      * destruct Hrest as (t2 & -> & Hf). exists (rest ++ t2).
        split; [done|]. apply IH. exists rest, (Returned b).
        split; [done|]. by exists t2.
      * destruct Hrest as [-> ->]. exists rest. split; [done|].
        apply IH. by exists rest, (Exited code).
      * destruct Hrest as [-> ->]. exists rest. split; [done|].
        apply IH. by exists rest, (Raised e).
Qed.

Lemma runs_finally_Ret {A : Type} (o1 : outcome A) (h : prog unit) t o :
  runs (finally (Ret o1) h) t o <->
  exists o2, runs h t o2 /\ o = after_handler o1 o2.
Proof.
  cbn [finally]. revert t.
  induction h as [[[]|code|e]|r k IH]; intros t; cbn [runs].
  - split.
    + intros [-> ->]. by exists (Returned tt).
    + by intros (o2 & [-> ->] & ->).
  - split.
    + intros [-> ->]. by exists (Exited code).
    + by intros (o2 & [-> ->] & ->).
  - split.
    + intros [-> ->]. by exists (Raised e).
    + by intros (o2 & [-> ->] & ->).
  - split.
    + intros (a & rest & -> & H). apply IH in H as (o2 & Hh & ->).
      exists o2. split; [|done]. by exists a, rest.
    + intros (o2 & (a & rest & -> & Hh) & ->). exists a, rest.
      split; [done|]. apply IH. by exists o2.
Qed.

Lemma runs_finally {A : Type} (m : prog A) (h : prog unit) t o :
  runs (finally m h) t o <->
  exists t1 o1 t2 o2,
    runs m t1 o1 /\ runs h t2 o2 /\ t = t1 ++ t2 /\ o = after_handler o1 o2.
Proof.
  revert t. induction m as [o1|r k IH]; intros t.
  - rewrite runs_finally_Ret. split.
    + intros (o2 & Hh & ->). by exists [], o1, t, o2.
    + intros (t1 & o1' & t2 & o2 & [-> ->] & Hh & -> & ->). by exists o2.
  - cbn [finally runs]. split.
    + intros (a & rest & -> & H).
      apply IH in H as (t1 & o1 & t2 & o2 & Hm & Hh & -> & ->).
      exists (Event r a :: t1), o1, t2, o2. split; [by exists a, t1|done].
    + intros (t1 & o1 & t2 & o2 & (a & rest & -> & Hm) & Hh & -> & ->).
      exists a, (rest ++ t2). split; [done|]. apply IH.
      by exists rest, o1, t2, o2.
Qed.

(** A world's run is a run. *)
Lemma run_runs {A : Type} (w : world) (p : prog A) (s : state w) :
  runs p (run w p s).1 (run w p s).2.
Proof.
  revert s. induction p as [o|r k IH]; intros s; cbn [run runs]; [done|].
  destruct (respond w r s) as [a s']. specialize (IH a s').
  destruct (run w (k a) s') as [trace o]. by exists a, trace.
Qed.

(** *** What a program asks *)

Lemma only_Ret {A : Type} P (o : outcome A) : only P (Ret o).
Proof. intros t o' [-> _]. constructor. Qed.

Lemma only_ret {A : Type} P (a : A) : only P (ret a).
Proof. apply only_Ret. Qed.

Lemma only_exit {A : Type} P code : only P (@exit A code).
Proof. apply only_Ret. Qed.

Lemma only_Ask {A : Type} P r (k : reply (answer r) -> prog A) :
  P r -> (forall a, only P (k a)) -> only P (Ask r k).
Proof.
  intros Hr Hk t o (a & rest & -> & H). constructor; [done|].
  by eapply Hk.
Qed.

Lemma only_ask P r : P r -> only P (ask r).
Proof.
  intros Hr. apply only_Ask; [done|]. intros [x|e]; apply only_Ret.
Qed.

Lemma only_bind {A B : Type} P (m : prog A) (f : A -> prog B) :
  only P m -> (forall a, only P (f a)) -> only P (bind m f).
Proof.
  intros Hm Hf t o (t1 & o1 & H1 & Hrest)%runs_bind.
  specialize (Hm t1 o1 H1). destruct o1 as [a|code|e].
  - destruct Hrest as (t2 & -> & H2). apply Forall_app. split; [done|].
    by eapply Hf.
  - by destruct Hrest as [-> _].
  - by destruct Hrest as [-> _].
Qed.

Lemma only_when P (b : bool) (body : prog unit) :
  (b = true -> only P body) -> only P (when b body).
Proof. destruct b; simpl; [auto|intros _; apply only_ret]. Qed.

Lemma only_for_each {A : Type} P (l : list A) (body : A -> prog unit) :
  (forall x, x ∈ l -> only P (body x)) -> only P (for_each l body).
Proof.
  induction l as [|x l IH]; intros Hbody; cbn [for_each].
  - apply only_ret.
  - apply only_bind; [apply Hbody; left|].
    intros _. apply IH. intros y Hy. apply Hbody. by right.
Qed.

Lemma only_finally {A : Type} P (m : prog A) (h : prog unit) :
  only P m -> only P h -> only P (finally m h).
Proof.
  intros Hm Hh t o (t1 & o1 & t2 & o2 & H1 & H2 & -> & _)%runs_finally.
  apply Forall_app. split; [by eapply Hm | by eapply Hh].
Qed.

Lemma only_mono {A : Type} (P Q : request -> Prop) (p : prog A) :
  (forall r, P r -> Q r) -> only P p -> only Q p.
Proof.
  intros HPQ Hp t o Hrun. eapply Forall_impl; [by eapply Hp|].
  intros e. apply HPQ.
Qed.

(** *** What comes before a request *)

Lemma before_Ret {A : Type} P Q (o : outcome A) : before P Q (Ret o).
Proof. intros t o' [-> _] t1 e t2 Ht. by destruct t1. Qed.

Lemma before_Ask {A : Type} (P : event -> Prop) Q r
    (k : reply (answer r) -> prog A) :
  (forall a, (P (Event r a) -> Q [])
             /\ before P (fun h => Q (Event r a :: h)) (k a)) ->
  before P Q (Ask r k).
Proof.
  intros Hk t o (a & rest & -> & H) t1 e t2 Ht HP.
  destruct (Hk a) as [Hhere Hrest]. destruct t1 as [|e1 t1].
  - injection Ht as <- _. auto.
  - injection Ht as <- ->. by eapply (Hrest _ _ H t1 e t2).
Qed.

Lemma before_only {A : Type} (P : event -> Prop) Q (R : request -> Prop)
    (p : prog A) :
  only R p -> (forall e, P e -> ~ R (asked e)) -> before P Q p.
Proof.
  intros Hp HPR t o Hrun t1 e t2 -> HP.
  specialize (Hp _ _ Hrun). rewrite Forall_app, Forall_cons in Hp.
  destruct Hp as (_ & HR & _). by destruct (HPR e HP).
Qed.

Lemma before_bind {A B : Type} (P : event -> Prop) Q (m : prog A)
    (f : A -> prog B) :
  before P Q m ->
  (forall a t1, runs m t1 (Returned a) ->
     before P (fun h => Q (t1 ++ h)) (f a)) ->
  before P Q (bind m f).
Proof.
  intros Hm Hf t o (t1 & o1 & H1 & Hrest)%runs_bind ta e tb Ht HP.
  destruct o1 as [a|code|err].
  - destruct Hrest as (t2 & -> & H2).
    apply app_eq_inv in Ht as [(l & -> & Hl)|(l & -> & Hl)].
    + destruct l as [|e' l].
      * simpl in Hl. subst t2. rewrite app_nil_r in *.
        replace ta with (ta ++ []) by apply app_nil_r.
        by eapply (Hf a ta H1 _ _ H2 [] e tb).
      * injection Hl as <- ->. by eapply (Hm _ _ H1 ta e l).
    + by eapply (Hf a t1 H1 _ _ H2 l e tb).
  - destruct Hrest as [-> _]. by eapply (Hm _ _ H1 ta e tb).
  - destruct Hrest as [-> _]. by eapply (Hm _ _ H1 ta e tb).
Qed.

Lemma before_mono {A : Type} (P : event -> Prop) (Q Q' : list event -> Prop)
    (p : prog A) :
  (forall h, Q h -> Q' h) -> before P Q p -> before P Q' p.
Proof. intros HQ Hp t o Hrun t1 e t2 Ht HP. eapply HQ, Hp; eauto. Qed.

End CliFacts.


Module CliWalk.
Import Cli CliFacts.

Lemma runs_ask r t (x : answer r) :
  runs (ask r) t (Returned x) -> t = [Event r (Value x)].
Proof.
  intros (a & rest & -> & H). destruct a as [y|e]; cbn [runs ret] in H.
  - destruct H as [-> [= ->]]. done.
  - by destruct H as [_ ?].
Qed.

Lemma before_True {A : Type} (P : event -> Prop) (Q : list event -> Prop)
    (p : prog A) :
  (forall h, Q h) -> before P Q p.
Proof. intros HQ t o _ t1 e t2 _ _. apply HQ. Qed.

Lemma before_finally {A : Type} (P : event -> Prop) Q (m : prog A)
    (h : prog unit) :
  before P Q m ->
  (forall t1 o1, runs m t1 o1 -> before P (fun h => Q (t1 ++ h)) h) ->
  before P Q (finally m h).
Proof.
  intros Hm Hh t o (t1 & o1 & t2 & o2 & H1 & H2 & -> & _)%runs_finally
    ta e tb Ht HP.
  apply app_eq_inv in Ht as [(l & -> & Hl)|(l & -> & Hl)].
  - destruct l as [|e' l].
    + simpl in Hl. subst t2. rewrite app_nil_r in *.
      replace ta with (ta ++ []) by apply app_nil_r.
      by eapply (Hh ta o1 H1 _ _ H2 [] e tb).
    + injection Hl as <- ->. by eapply (Hm _ _ H1 ta e l).
  - by eapply (Hh t1 o1 H1 _ _ H2 l e tb).
Qed.

(** Walking through a program, request by request; [side] proves that a
    request is allowed. *)
Ltac only_walk side :=
  repeat first
    [ apply only_ret
    | apply only_exit
    | apply only_Ret
    | apply only_when;
      let H := fresh "Hflag" in intros H; try discriminate H
    | apply only_for_each; intros ? _
    | apply only_finally
    | apply only_bind; [|intros ?]
    | apply only_ask; side
    | apply only_Ask; [side | intros [?|[|]]]
    | match goal with
      | |- only _ (if ?b then _ else _) => destruct b
      | |- only _ (match ?x with _ => _ end) => destruct x
      end
    | progress cbv delta
        [script main main_start main_compose main_restart main_stop
           main_clear main_status compose_with_file composecmd
           check_already_running prebuilder_exists prebuilt_exists
           remove_prebuilder remove_prebuilt remove_prebuilded
           remove_database_volume build_prebuilder build_prebuilt
           kill_builder commit_prebuilt write_compose try_to_remove rmtree
           clear_data clear_data_only create_config config_exists
           read_config cmd_check cmd_check_output] beta match ].

Lemma script_never_saves host args :
  match args with
  | Start _ _ _ => False
  | _ => True
  end ->
  only (fun r => forall config path, r <> SaveToFile config path)
    (script host args).
Proof.
  destruct args as [a logs config_only|compose_args|logs| |f|]; try done;
    intros _; only_walk ltac:(done).
Qed.

End CliWalk.


Module ConfigFileFacts.
Import Cli CliFacts CliWalk.

Local Notation "'no_removal'" := (fun r : request => r <> Remove g.config_file).

Lemma script_never_removes host args :
  match args with
  | Clear f => clear_args.all f = false /\ clear_args.config f = false
  | _ => True
  end ->
  only no_removal (script host args).
Proof.
  destruct args as [a logs config_only|compose_args|logs| |f|];
    try solve [intros _; only_walk ltac:(done)].
  intros [Hall Hconfig]. unfold script, main, main_clear.
  rewrite Hall, Hconfig. only_walk ltac:(done).
Qed.

(** The answer [y], in either case, was typed. *)
Local Notation "'confirmed'" :=
  (fun h : list event =>
     exists line, Event Input (Value line) ∈ h /\ lower line = "y").

Lemma confirmed_app (t h : list event) : confirmed h -> confirmed (t ++ h).
Proof.
  intros (line & Hin & Hy). exists line. split; [|done].
  apply elem_of_app. by right.
Qed.

Ltac skip_part Q_app :=
  apply before_bind;
  [ apply (before_only _ _ no_removal);
    [only_walk ltac:(done) | by intros e He HR]
  | let t1 := fresh "t" in
    intros ? t1 _;
    apply (before_mono _ confirmed); [intros h; apply Q_app|] ].

Lemma clear_all_asks_first host f :
  clear_args.all f = true -> clear_args.config f = false ->
  before (fun e => asked e = Remove g.config_file) confirmed
    (script host (Clear f)).
Proof.
  intros Hall Hconfig. unfold script. apply before_finally.
  - unfold main. skip_part confirmed_app. skip_part confirmed_app.
    skip_part confirmed_app.
    apply before_bind.
    + unfold main_clear. skip_part confirmed_app.
      match goal with
      | |- before _ _ (if ?b then _ else _) => destruct b
      end.
      { apply before_Ret. }
      skip_part confirmed_app.
      apply before_bind.
      * rewrite Hall. apply before_bind.
        { apply (before_only _ _ no_removal);
            [only_walk ltac:(done) | by intros e He HR]. }
        intros line tline ->%runs_ask. case_bool_decide as Hline.
        { apply before_Ret. }
        apply before_True. intros h. exists line. split; [left | exact Hline].
      * intros ok tconfirmed _.
        apply (before_only _ _ no_removal); [|by intros e He HR].
        rewrite Hconfig. only_walk ltac:(done).
    + intros branch tbranch _.
      apply (before_only _ _ no_removal); [|by intros e He HR].
      only_walk ltac:(done).
  - intros tmain o1 _.
    apply (before_only _ _ no_removal); [|by intros e He HR].
    only_walk ltac:(done).
Qed.

End ConfigFileFacts.

(** X21: the script removes [config.json] only when it is told to.  In any
    run, under any answers of docker, of the file system and of the terminal,
    [config.json] is removed only by the [clear] command, and only with
    [--config], or with [--all] after the line [y] or [Y] was typed at the
    question; no other command, and no [clear] with other flags or with
    none, removes it. *)
Theorem config_file_removed_on_request (host : Host) (args : Cli.command)
    (t : list Cli.event) (o : Cli.outcome unit) :
  Cli.runs (Cli.script host args) t o ->
  forall t1 e t2,
    t = t1 ++ e :: t2 ->
    Cli.asked e = Cli.Remove g.config_file ->
    exists f,
      args = Cli.Clear f
      /\ (Cli.clear_args.config f = true
          \/ (Cli.clear_args.all f = true
              /\ exists line,
                   Cli.Event Cli.Input (Cli.Value line) ∈ t1
                   /\ lower line = "y")).
Proof.
  intros Hrun t1 e t2 Ht He.
  assert (Cli.only (fun r => r <> Cli.Remove g.config_file)
            (Cli.script host args) -> False) as Hnever.
  { intros Honly. specialize (Honly _ _ Hrun). rewrite Ht in Honly.
    rewrite Forall_app, Forall_cons in Honly.
    by destruct Honly as (_ & Hne & _). }
  destruct args as [a logs config_only|compose_args|logs| |f|];
    try (destruct Hnever; by apply ConfigFileFacts.script_never_removes).
  exists f. split; [done|].
  destruct (Cli.clear_args.config f) eqn:Hconfig; [by left|]. right.
  destruct (Cli.clear_args.all f) eqn:Hall.
  - split; [done|].
    by eapply (ConfigFileFacts.clear_all_asks_first host f Hall Hconfig
                 _ _ Hrun t1 e t2).
  - destruct Hnever. by apply ConfigFileFacts.script_never_removes.
Qed.

Lemma config_file_removed_on_request_witness :
  let t := (Cli.run (Cli.machine false true "Y" Sample.no_teams)
              (Cli.script Sample.linux_user (Cli.Clear Variant.clear_all))
              tt).1 in
  t = take 9 t ++ Cli.Event (Cli.Remove g.config_file) (Cli.Value tt)
                  :: drop 10 t
  /\ exists line,
       Cli.Event Cli.Input (Cli.Value line) ∈ take 9 t /\ lower line = "y".
Proof.
  intros t.
  assert (t = take 9 t ++ Cli.Event (Cli.Remove g.config_file) (Cli.Value tt)
                          :: drop 10 t) as Ht by (vm_compute; reflexivity).
  split; [exact Ht|].
  destruct (config_file_removed_on_request Sample.linux_user
              (Cli.Clear Variant.clear_all) t _
              (CliFacts.run_runs _ _ _) _ _ _ Ht eq_refl)
    as (f & [= <-] & [Hconfig|[_ Hline]]); [discriminate Hconfig|].
  exact Hline.
Defined.


Module SaveFacts.
Import Cli CliFacts CliWalk.

Local Notation "'no_saving'" :=
  (fun r : request => forall config path, r <> SaveToFile config path).

Lemma script_saves_config_file host args :
  only (fun r => forall config path,
          r = SaveToFile config path -> path = g.config_file)
    (script host args).
Proof.
  destruct args; only_walk ltac:(by intros ? ? ?; simplify_eq).
Qed.

Section start.
Variable host : Host.
Variable a : args.t.
Variable config : Config.
Variable path : string.

(** The config file was looked for and not found, and the config was typed
    in. *)
Local Notation "'typed_in'" :=
  (fun h : list event =>
     Event (Isfile g.config_file) (Value false) ∈ h
     /\ Event (ConfigInput a) (Value config) ∈ h).

Local Notation "'saving'" :=
  (fun e : event => asked e = SaveToFile config path).

Lemma typed_in_app (t h : list event) : typed_in h -> typed_in (t ++ h).
Proof. intros [H1 H2]. split; apply elem_of_app; by right. Qed.

Ltac quiet :=
  apply (before_only _ _ no_saving);
  [only_walk ltac:(done) | intros e He HR; by eapply HR].

Ltac skip_quiet :=
  apply before_bind;
  [ quiet
  | let t1 := fresh "t" in
    intros ? t1 _;
    apply (before_mono _ typed_in); [intros h; apply typed_in_app|] ].

(** Saving the config that was typed in. *)
Lemma create_config_before (c : Config) (Q : list event -> Prop) :
  (c = config -> Q []) -> before saving Q (create_config c).
Proof.
  intros HQ. unfold create_config, ask. cbn [bind].
  apply before_Ask. intros reply. split.
  - cbn [asked]. intros [= -> _]. by apply HQ.
  - destruct reply as [[]|e]; apply before_Ret.
Qed.

Lemma input_then_save {A : Type} (t : list event)
    (rest : Config -> prog A) :
  Event (Isfile g.config_file) (Value false) ∈ t ->
  (forall c, only no_saving (rest c)) ->
  before saving (fun h => typed_in (t ++ h))
    (bind (ask (ConfigInput a)) (fun c => bind (create_config c) rest)).
Proof.
  intros Ht Hrest. apply before_bind; [quiet|].
  intros c tc ->%runs_ask. apply before_bind.
  - apply create_config_before. intros ->. rewrite app_nil_r. split.
    + apply elem_of_app. by left.
    + apply elem_of_app. right. left.
  - intros c' tc' _. apply (before_only _ _ no_saving); [apply Hrest|].
    intros e He HR. by eapply HR.
Qed.

Lemma start_saves_after_input logs config_only :
  before saving typed_in (script host (Start a logs config_only)).
Proof.
  unfold script. apply before_finally; [|intros tmain o1 _; quiet].
  unfold main. destruct config_only.
  - apply before_bind; [quiet|].
    intros found tfound ->%runs_ask. destruct found; [apply before_Ret|].
    apply (input_then_save _ (fun _ => ret tt)); [left|].
    intros c. apply only_ret.
  - skip_quiet. skip_quiet. skip_quiet.
    apply before_bind; [|intros branch tbranch _; quiet].
    unfold main_start. skip_quiet.
    apply before_bind; [quiet|].
    intros found tfound ->%runs_ask. destruct found.
    + quiet.
    + cbn [negb]. apply before_bind.
      * apply before_bind; [quiet|].
        intros c tc ->%runs_ask. apply create_config_before.
        intros ->. rewrite app_nil_r. split; [left | right; left].
      * intros c tc _. apply (before_only _ _ no_saving).
        { only_walk ltac:(done). }
        intros e He HR. by eapply HR.
Qed.

End start.
End SaveFacts.

(** X22: the script never writes over a config file.  In any run, a config
    is saved only by the [start] command, only to [config.json], and only
    after [config.json] was looked for and not found and this very config
    was typed in at the prompt. *)
Theorem config_file_never_overwritten (host : Host) (args : Cli.command)
    (t : list Cli.event) (o : Cli.outcome unit) :
  Cli.runs (Cli.script host args) t o ->
  forall t1 e t2 config path,
    t = t1 ++ e :: t2 ->
    Cli.asked e = Cli.SaveToFile config path ->
    path = g.config_file
    /\ exists a logs config_only,
         args = Cli.Start a logs config_only
         /\ Cli.Event (Cli.Isfile g.config_file) (Cli.Value false) ∈ t1
         /\ Cli.Event (Cli.ConfigInput a) (Cli.Value config) ∈ t1.
Proof.
  intros Hrun t1 e t2 config path Ht He. split.
  - pose proof (SaveFacts.script_saves_config_file host args _ _ Hrun)
      as Honly.
    rewrite Ht, Forall_app, Forall_cons in Honly.
    destruct Honly as (_ & Hpath & _). by eapply Hpath.
  - destruct args as [a logs config_only|compose_args|logs| |f|];
      try (match type of Hrun with
           | Cli.runs (Cli.script _ ?c) _ _ =>
               pose proof (CliWalk.script_never_saves host c I _ _ Hrun)
                 as Honly
           end;
           rewrite Ht, Forall_app, Forall_cons in Honly;
           destruct Honly as (_ & Hne & _); by destruct (Hne config path)).
    exists a, logs, config_only. split; [done|].
    by eapply (SaveFacts.start_saves_after_input host a config path logs
                 config_only _ _ Hrun t1 e t2).
Qed.

Lemma config_file_never_overwritten_witness :
  let t := (Cli.run (Cli.machine false false "" Sample.no_teams)
              (Cli.script Sample.linux_user
                 (Cli.Start Sample.defaults false false)) tt).1 in
  t = take 6 t
      ++ Cli.Event (Cli.SaveToFile Sample.no_teams g.config_file)
           (Cli.Value tt) :: drop 7 t
  /\ Cli.Event (Cli.Isfile g.config_file) (Cli.Value false) ∈ take 6 t.
Proof.
  intros t.
  assert (t = take 6 t
              ++ Cli.Event (Cli.SaveToFile Sample.no_teams g.config_file)
                   (Cli.Value tt) :: drop 7 t) as Ht
    by (vm_compute; reflexivity).
  split; [exact Ht|].
  destruct (config_file_never_overwritten Sample.linux_user
              (Cli.Start Sample.defaults false false) t _
              (CliFacts.run_runs _ _ _) _ _ _ Sample.no_teams g.config_file
              Ht eq_refl)
    as (_ & a & logs & config_only & _ & Hfound & _).
  exact Hfound.
Defined.


Module RunFacts.
Import Cli CliFacts CliWalk.

(** A part of a program that asks only what [P] allows, taken off a run. *)
Lemma peel {A B : Type} (P : request -> Prop) (m : prog A) (f : A -> prog B)
    t o :
  only P m -> runs (bind m f) t o ->
  exists t1,
    Forall (fun e => P (asked e)) t1
    /\ ((exists a t2, t = t1 ++ t2 /\ runs m t1 (Returned a)
                      /\ runs (f a) t2 o)
        \/ (t = t1 /\ forall b, o <> Returned b)).
Proof.
  intros Hm (t1 & o1 & H1 & Hrest)%runs_bind. exists t1.
  split; [by eapply Hm|]. destruct o1 as [a|code|e].
  - destruct Hrest as (t2 & -> & H2). left. by exists a, t2.
  - destruct Hrest as [-> ->]. by right.
  - destruct Hrest as [-> ->]. by right.
Qed.

Lemma shows_running_asked (e : event) :
  shows_running e -> exists program, asked e = Getoutput program.
Proof. destruct e as [[] [x|err]]; try done. eauto. Qed.

Lemma not_shown (P : request -> Prop) (t : list event) :
  (forall r, P r -> forall program, r <> Getoutput program) ->
  Forall (fun e => P (asked e)) t -> ~ Exists shows_running t.
Proof.
  intros HP Hall Hex. apply Exists_exists in Hex as (e & Hin & Hshown).
  rewrite Forall_forall in Hall. specialize (Hall e Hin).
  apply shows_running_asked in Hshown as (program & Hasked).
  by eapply HP.
Qed.

Lemma runs_check_already_running t o :
  runs check_already_running t o ->
  exists a,
    t = [Event (Getoutput ("docker ps --filter " +:+ dquote +:+ "name=^"
                           +:+ g.container_name +:+ "$" +:+ dquote)) a]
    /\ o = match a with
           | Value output => Returned (contains output g.container_name)
           | Throw e => Raised e
           end.
Proof.
  unfold check_already_running, cmd_check_output, ask. cbn [bind runs].
  intros (a & rest & -> & H). exists a.
  destruct a as [output|e]; cbn [bind ret runs] in H; by destruct H as [-> ->].
Qed.

(** The docker checks at the start of [main]. *)
Local Notation "'docker_check'" :=
  (fun r : request =>
     match r with
     | Call program _ _ =>
         program ∈ ["docker --version"; "docker ps";
                    "docker-compose --version"; "docker compose --version"]
     | _ => False
     end).

Local Notation "'not_docker_ps'" :=
  (fun r : request => forall program, r <> Getoutput program).

Lemma docker_check_elem (program : string) :
  program ∈ ["docker --version"; "docker ps"; "docker-compose --version";
             "docker compose --version"] ->
  docker_check (Call program false false).
Proof. done. Qed.

Lemma clear_while_running host f t o :
  runs (main host (Clear f)) t o -> Exists shows_running t ->
  o = Exited (Some 1)
  /\ exists t1 a,
       t = t1 ++ [a] /\ Forall (fun e => docker_check (asked e)) t1
       /\ exists program, asked a = Getoutput program.
Proof.
  intros Hrun Hshown. unfold main in Hrun.
  assert (forall t1, Forall (fun e => docker_check (asked e)) t1 ->
            ~ Exists shows_running t1) as Hquiet.
  { intros t1. apply (not_shown docker_check). by intros [] ?. }
  assert (forall t1, Forall (fun e => not_docker_ps (asked e)) t1 ->
            ~ Exists shows_running t1) as Hquiet'.
  { intros t1. apply (not_shown not_docker_ps). auto. }
  (* the docker checks *)
  apply (peel docker_check) in Hrun
    as (ta & Ha & [(a & ta' & -> & _ & Hrun)|[-> _]]);
    [| by destruct (Hquiet _ Ha) | only_walk ltac:(compute_done)].
  apply (peel docker_check) in Hrun
    as (tb & Hb & [(b & tb' & -> & _ & Hrun)|[-> _]]);
    [| apply Exists_app in Hshown as [?|?];
       [by destruct (Hquiet _ Ha) | by destruct (Hquiet _ Hb)]
     | only_walk ltac:(compute_done) ].
  apply (peel docker_check) in Hrun
    as (tc & Hc & [(c & tm & -> & _ & Hrun)|[-> _]]);
    [| apply Exists_app in Hshown as [?|Hshown];
       [by destruct (Hquiet _ Ha)|];
       apply Exists_app in Hshown as [?|?];
       [by destruct (Hquiet _ Hb) | by destruct (Hquiet _ Hc)]
     | only_walk ltac:(compute_done) ].
  assert (Forall (fun e => docker_check (asked e)) (ta ++ tb ++ tc)) as Hpre.
  { by rewrite !Forall_app. }
  rewrite !app_assoc in Hshown |- *. rewrite <- (app_assoc ta tb tc) in *.
  revert Hpre Hshown. generalize (ta ++ tb ++ tc). clear Ha Hb Hc ta tb tc.
  intros pre Hpre Hshown.
  apply Exists_app in Hshown as [?|Hshown]; [by destruct (Hquiet _ Hpre)|].
  (* the branch of [clear] *)
  apply runs_bind in Hrun as (t1 & o1 & H1 & Hrest).
  unfold main_clear in H1.
  apply runs_bind in H1 as (t0 & o0 & H0 & Hrest0).
  apply runs_check_already_running in H0 as (reply & -> & ->).
  destruct reply as [output|e].
  - destruct Hrest0 as (t2 & -> & H2).
    destruct (contains output g.container_name) eqn:Hrunning.
    + destruct H2 as [-> ->]. destruct Hrest as [-> ->].
      split; [done|]. eexists pre, _. split; [done|]. split; [done|].
      by eexists.
    + exfalso.
      match type of H2 with
      | runs ?p _ _ =>
          assert (only not_docker_ps p) as Hp by only_walk ltac:(done)
      end.
      specialize (Hp _ _ H2).
      assert (exists t3, tm = [Event _ (Value output)] ++ t2 ++ t3
                /\ Forall (fun e => not_docker_ps (asked e)) t3)
        as (t3 & -> & H3).
      { destruct o1 as [branch|code|err].
        - destruct Hrest as (t3 & -> & H3). exists t3.
          split; [by rewrite <- app_assoc|].
          match type of H3 with
          | runs ?p _ _ =>
              assert (only not_docker_ps p) as Hk
                by (destruct branch; only_walk ltac:(done))
          end.
          by eapply Hk.
        - destruct Hrest as [-> _]. exists []. by rewrite app_nil_r.
        - destruct Hrest as [-> _]. exists []. by rewrite app_nil_r. }
      apply Exists_app in Hshown as [Hshown|Hshown].
      * apply Exists_cons in Hshown as [Hshown|Hshown]; [|inversion Hshown].
        cbn [shows_running] in Hshown. congruence.
      * apply Exists_app in Hshown as [?|?];
          [by destruct (Hquiet' _ Hp) | by destruct (Hquiet' _ H3)].
  - exfalso. destruct Hrest0 as [-> ->]. destruct Hrest as [-> _].
    apply Exists_cons in Hshown as [Hshown|Hshown]; [done|inversion Hshown].
Qed.

End RunFacts.

(** X23: [clear] does nothing while the gameserver runs.  When what
    [docker ps] prints names the gameserver container, [main] with the
    [clear] command leaves through [exit(1)], whatever the flags and whatever
    else docker and the file system answer, and all it has asked are the
    docker checks and that [docker ps]: nothing is listed, nothing is removed
    and no question is put. *)
Theorem clear_refuses_while_running (host : Host) (f : Cli.clear_args.t)
    (t : list Cli.event) (o : Cli.outcome unit) :
  Cli.runs (Cli.main host (Cli.Clear f)) t o ->
  Exists Cli.shows_running t ->
  o = Cli.Exited (Some 1)
  /\ Forall (fun r => match r with
                      | Cli.Call program _ _ =>
                          program ∈ ["docker --version"; "docker ps";
                                     "docker-compose --version";
                                     "docker compose --version"]
                      | Cli.Getoutput _ => True
                      | _ => False
                      end) (Cli.requests t).
Proof.
  intros Hrun Hshown.
  destruct (RunFacts.clear_while_running host f t o Hrun Hshown)
    as (Ho & t1 & a & -> & Hpre & program & Ha).
  split; [exact Ho|]. unfold Cli.requests. rewrite map_app, Forall_app.
  split.
  - apply Forall_fmap. eapply Forall_impl; [exact Hpre|].
    intros e. simpl. by destruct (Cli.asked e).
  - cbn [map]. rewrite Ha. by repeat constructor.
Qed.

Lemma clear_refuses_while_running_witness :
  let run := Cli.run (Cli.machine true true "y" Sample.with_nop)
               (Cli.main Sample.linux_user (Cli.Clear Variant.clear_all))
               tt in
  Exists Cli.shows_running run.1
  /\ run.2 = Cli.Exited (Some 1)
  /\ length run.1 = 4%nat.
Proof.
  intros run.
  assert (Exists Cli.shows_running run.1) as Hshown.
  { do 3 apply Exists_cons_tl. apply Exists_cons_hd. vm_compute. reflexivity. }
  split; [exact Hshown|]. split; [|reflexivity].
  exact (proj1 (clear_refuses_while_running Sample.linux_user
                  Variant.clear_all run.1 run.2
                  (CliFacts.run_runs _ _ _) Hshown)).
Defined.


Module CleanFacts.
Import Cli CliFacts CliWalk RunFacts.

Lemma runs_bind_ask {B : Type} r (f : answer r -> prog B) t o :
  runs (bind (ask r) f) t o ->
  exists a rest,
    t = Event r a :: rest
    /\ match a with
       | Value x => runs (f x) rest o
       | Throw e => rest = [] /\ o = Raised e
       end.
Proof.
  unfold ask. cbn [bind runs]. intros (a & rest & -> & H).
  exists a, rest. split; [done|]. by destruct a.
Qed.



End CleanFacts.



(** X25: which compose command [composecmd] runs.  It runs at most one
    command, after [docker --version] and [docker ps] succeeded: the plugin,
    [docker compose], when [docker compose --version] succeeds, and the
    standalone [docker-compose] only when that fails and
    [docker-compose --version] succeeds; the command is for the project
    [oasis], with [-f] and the compose file before the arguments when a
    compose file is given, and its status is what [composecmd] returns. *)
Theorem composecmd_command (cmd : string) (composefile : option string)
    (t : list Cli.event) (o : Cli.outcome (option Z)) :
  Cli.runs (Cli.composecmd cmd composefile) t o ->
  forall t1 e t2 command,
    t = t1 ++ e :: t2 ->
    Cli.asked e = Cli.System command ->
    let arguments :=
      if truthy composefile
      then "-f " +:+ default "" composefile +:+ " " +:+ cmd
      else cmd in
    let succeeded program :=
      Cli.Event (Cli.Call program false false) (Cli.Value true) ∈ t1 in
    let failed program :=
      Cli.Event (Cli.Call program false false) (Cli.Value false) ∈ t1 in
    t2 = []
    /\ succeeded "docker --version"
    /\ succeeded "docker ps"
    /\ ((command = "docker compose -p oasis " +:+ arguments
         /\ succeeded "docker compose --version")
        \/ (command = "docker-compose -p oasis " +:+ arguments
            /\ failed "docker compose --version"
            /\ succeeded "docker-compose --version"))
    /\ (o = Cli.Raised Cli.FileNotFoundError \/ o = Cli.Raised Cli.OtherError
        \/ exists status, o = Cli.Returned (Some status)).
Proof.
  intros Hrun t1 e t2 command Ht He arguments succeeded failed.
  subst succeeded failed. unfold Cli.composecmd in Hrun. fold arguments in Hrun.
  unfold Cli.cmd_check in Hrun.
  assert (forall (e' : Cli.event) l1 l2,
            l1 ++ e :: l2 = [e'] -> l1 = [] /\ l2 = [] /\ e' = e) as Hone.
  { intros e' [|? [|? ?]] l2 [= ]; by simplify_eq. }
  assert (forall e' l l1 l2,
            e' :: l = l1 ++ e :: l2 ->
            (forall c, Cli.asked e' <> Cli.System c) ->
            exists l1', l1 = e' :: l1' /\ l = l1' ++ e :: l2) as Hnext.
  { intros e' l [|e'' l1] l2 [= ] Hne; simplify_eq.
    - by destruct (Hne command).
    - by eexists. }
  apply CleanFacts.runs_bind_ask in Hrun as ([[|]|err] & rest & -> & Hrun);
    cbn [negb] in Hrun;
    apply Hnext in Ht as (l1 & -> & Ht); try done;
    try (destruct Hrun as [-> _]; by destruct l1).
  apply CleanFacts.runs_bind_ask in Hrun as ([[|]|err] & rest' & -> & Hrun);
    cbn [negb] in Hrun;
    apply Hnext in Ht as (l2 & -> & Ht); try done;
    try (destruct Hrun as [-> _]; by destruct l2).
  apply CleanFacts.runs_bind_ask in Hrun as ([[|]|err] & rest'' & -> & Hrun);
    apply Hnext in Ht as (l3 & -> & Ht); try done;
    try (destruct Hrun as [-> _]; by destruct l3).
  - apply CleanFacts.runs_bind_ask in Hrun as (status & rest3 & -> & Hrun).
    assert (rest3 = [] /\ (o = Cli.Raised Cli.FileNotFoundError
                           \/ o = Cli.Raised Cli.OtherError
                           \/ exists z, o = Cli.Returned (Some z)))
      as [-> Ho].
    { destruct status as [z|[|]]; destruct Hrun as [-> ->]; eauto. }
    symmetry in Ht. apply Hone in Ht as (-> & -> & <-).
    cbn [Cli.asked] in He. injection He as <-.
    split_and!; [done | | | | done].
    + left.
    + right. left.
    + left. split; [done|]. do 2 right. left.
  - apply CleanFacts.runs_bind_ask in Hrun
      as ([[|]|err] & rest3 & -> & Hrun);
      apply Hnext in Ht as (l4 & -> & Ht); try done;
      try (destruct Hrun as [-> _]; by destruct l4).
    apply CleanFacts.runs_bind_ask in Hrun as (status & rest4 & -> & Hrun).
    assert (rest4 = [] /\ (o = Cli.Raised Cli.FileNotFoundError
                           \/ o = Cli.Raised Cli.OtherError
                           \/ exists z, o = Cli.Returned (Some z)))
      as [-> Ho].
    { destruct status as [z|[|]]; destruct Hrun as [-> ->]; eauto. }
    symmetry in Ht. apply Hone in Ht as (-> & -> & <-).
    cbn [Cli.asked] in He. injection He as <-.
    split_and!; [done | | | | done].
    + left.
    + right. left.
    + right. split; [done|]. split.
      * do 2 right. left.
      * do 3 right. left.
Qed.


Lemma composecmd_command_witness :
  let run := Cli.run (Cli.machine true true "y" Sample.with_nop)
               (Cli.composecmd "down --remove-orphans" (Some g.composefile))
               tt in
  run.1 = take 3 run.1
          ++ Cli.Event
               (Cli.System
                  ("docker compose -p oasis -f oasis-compose-tmp-file.yml "
                   +:+ "down --remove-orphans")) (Cli.Value 0)
          :: []
  /\ run.2 = Cli.Returned (Some 0)
  /\ Cli.Event (Cli.Call "docker ps" false false) (Cli.Value true)
     ∈ take 3 run.1.
Proof.
  intros run.
  assert (run.1 = take 3 run.1
                  ++ Cli.Event
                       (Cli.System
                          ("docker compose -p oasis "
                           +:+ "-f oasis-compose-tmp-file.yml "
                           +:+ "down --remove-orphans")) (Cli.Value 0)
                  :: []) as Ht by reflexivity.
  split; [exact Ht|]. split; [reflexivity|].
  destruct (composecmd_command "down --remove-orphans" (Some g.composefile)
              run.1 run.2 (CliFacts.run_runs _ _ _) _ _ _ _ Ht eq_refl)
    as (_ & _ & Hps & _).
  exact Hps.
Defined.

Module ClearFacts.
Import Cli CliFacts CliWalk RunFacts CleanFacts.

Lemma runs_rmtree path t o :
  runs (rmtree path) t o -> requests t = [Rmtree path] /\ o = Returned tt.
Proof.
  unfold rmtree. cbn [runs ret]. by intros (a & rest & -> & -> & ->).
Qed.

Lemma concat_map_filter {A B : Type} (P : A -> bool) (f : A -> B)
    (l : list A) :
  concat (map (fun x => if P x then [f x] else []) l)
  = map f (filter (fun x => P x = true) l).
Proof.
  induction l as [|x l IH]; [done|]. cbn [map concat].
  rewrite filter_cons, IH. destruct (P x) eqn:HP.
  - by rewrite decide_True.
  - by rewrite decide_False.
Qed.

Lemma concat_map_singleton {A B : Type} (f : A -> B) (l : list A) :
  concat (map (fun x => [f x]) l) = map f l.
Proof. induction l as [|x l IH]; [done|]. cbn [map concat]. by rewrite IH. Qed.

Lemma runs_for_each {A : Type} (l : list A) (body : A -> prog unit)
    (step : A -> list request) t o :
  (forall x t o, runs (body x) t o -> requests t = step x /\ o = Returned tt) ->
  runs (for_each l body) t o ->
  requests t = concat (map step l) /\ o = Returned tt.
Proof.
  intros Hbody. revert t. induction l as [|x l IH]; intros t; cbn [for_each].
  - by intros [-> ->].
  - intros (t1 & o1 & H1 & Hrest)%runs_bind.
    apply Hbody in H1 as [Hreq ->]. destruct Hrest as (t2 & -> & H2).
    apply IH in H2 as [Hreq2 ->]. split; [|done].
    unfold requests in *. rewrite map_app, Hreq, Hreq2. done.
Qed.

Lemma runs_listing path (body : string -> prog unit)
    (step : string -> list request) t o :
  (forall x t o, runs (body x) t o -> requests t = step x /\ o = Returned tt) ->
  runs (bind (ask (Listdir path)) (fun files => for_each files body)) t o ->
  exists a rest,
    t = Event (Listdir path) a :: rest
    /\ match a with
       | Value files =>
           requests rest = concat (map step files) /\ o = Returned tt
       | Throw e => rest = [] /\ o = Raised e
       end.
Proof.
  intros Hbody (a & rest & -> & H)%runs_bind_ask. exists a, rest.
  split; [done|]. destruct a as [files|e]; [|done].
  by eapply runs_for_each.
Qed.

End ClearFacts.

(** X26: what [clear] takes off the disk.  [clear_data_only] with
    [remove_wireguard] alone lists [./wireguard] and removes the entries
    whose name starts with [conf], in the order of the listing, and no other
    entry; with [remove_checkers_data] alone it lists
    [./game_server/checkers] and removes the [flag_ids] directory of every
    entry.  Nothing else is asked; when the listing raises, nothing is
    removed and the exception goes up. *)
Theorem clear_data_only_removes (t : list Cli.event)
    (o : Cli.outcome unit) :
  (Cli.runs (Cli.clear_data_only false false false false true false false)
     t o ->
   exists a rest,
     t = Cli.Event (Cli.Listdir "./wireguard") a :: rest
     /\ match a with
        | Cli.Value files =>
            Cli.requests rest
            = map (fun file => Cli.Rmtree ("./wireguard/" +:+ file))
                (filter (fun file => startswith file "conf" = true) files)
            /\ o = Cli.Returned tt
        | Cli.Throw e => rest = [] /\ o = Cli.Raised e
        end)
  /\ (Cli.runs (Cli.clear_data_only false false false false false true false)
        t o ->
      exists a rest,
        t = Cli.Event (Cli.Listdir "./game_server/checkers") a :: rest
        /\ match a with
           | Cli.Value services =>
               Cli.requests rest
               = map (fun service =>
                        Cli.Rmtree ("./game_server/checkers/" +:+ service
                                    +:+ "/flag_ids")) services
               /\ o = Cli.Returned tt
           | Cli.Throw e => rest = [] /\ o = Cli.Raised e
           end).
Proof.
  split.
  - unfold Cli.clear_data_only, Cli.clear_data.
    cbn [Cli.when Cli.bind Cli.ret]. intros Hrun.
    apply CliFacts.runs_bind in Hrun as (t1 & o1 & H1 & Hrest).
    apply (ClearFacts.runs_listing _ _
             (fun file => if startswith file "conf"
                          then [Cli.Rmtree ("./wireguard/" +:+ file)]
                          else [])) in H1
      as (a & rest & -> & Ha).
    + exists a. destruct a as [files|e].
      * destruct Ha as [Hreq ->]. destruct Hrest as (t2 & -> & [-> ->]).
        exists rest. rewrite app_nil_r. split; [done|]. split; [|done].
        by rewrite Hreq, ClearFacts.concat_map_filter.
      * destruct Ha as [-> ->]. destruct Hrest as [-> ->]. by exists [].
    + intros file t' o'. destruct (startswith file "conf"); cbn [Cli.when].
      * apply ClearFacts.runs_rmtree.
      * by intros [-> ->].
  - unfold Cli.clear_data_only, Cli.clear_data.
    cbn [Cli.when Cli.bind Cli.ret]. intros Hrun.
    apply (ClearFacts.runs_listing _ _
             (fun service =>
                [Cli.Rmtree ("./game_server/checkers/" +:+ service
                             +:+ "/flag_ids")])) in Hrun
      as (a & rest & -> & Ha).
    + exists a, rest. split; [done|]. destruct a as [services|e]; [|done].
      destruct Ha as [Hreq ->]. split; [|done].
      by rewrite Hreq, ClearFacts.concat_map_singleton.
    + intros service t' o'. apply ClearFacts.runs_rmtree.
Qed.


Module FreshFacts.
Import Cli CliFacts CliWalk RunFacts CleanFacts.

Local Notation "'no_system'" :=
  (fun r : request => forall command, r <> System command).


(** The compose file was written from the config file, or the command is the
    one that follows the logs. *)
Local Notation "'written' host args command" :=
  (fun h : list event =>
     (exists config,
        Event (FromJsonFile g.config_file) (Value config) ∈ h
        /\ Event (WriteText g.composefile
                    (dict_to_yaml (compose_topology host config) 4 0 0 None))
             (Value tt) ∈ h)
     \/ (wants_logs args = true
         /\ (command = "docker compose -p oasis logs -f"
             \/ command = "docker-compose -p oasis logs -f")))
  (at level 10, host at level 9, args at level 9, command at level 9).

Local Notation "'running_compose' command" :=
  (fun e : event => asked e = System command)
  (at level 10, command at level 9).

Lemma written_app host (c : Cli.command) command (t h : list event) :
  written host c command h -> written host c command (t ++ h).
Proof.
  intros [(config & H1 & H2)|H]; [left|by right].
  exists config. split; apply elem_of_app; by right.
Qed.

Ltac quiet :=
  apply (before_only _ _ no_system);
  [only_walk ltac:(done) | intros e He HR; by eapply HR].

Ltac skip_quiet host c command :=
  apply before_bind;
  [ quiet
  | let t1 := fresh "t" in
    intros ? t1 _;
    apply (before_mono _ (written host c command));
    [intros h; apply written_app|] ].







End FreshFacts.




(** X28: the user of the VPN containers.  The [PUID] and [PGID] of every
    VPN endpoint are the uid and gid of the user when [sys.platform] names
    linux and the kernel release does not name [microsoft-standard], and 0
    and 0 otherwise: under WSL the endpoints run as root whoever runs the
    script. *)
Theorem vpn_user_of_the_machine (platform release : string) (uid gid : Z)
    (config : Config) (team : Team) :
  team ∈ teams config -> nop team = false ->
  let host := host_of platform release uid gid in
  let environment name :=
    py_path (compose_topology host config)
      [Key "services"; Key ("wireguard" +:+ pretty (id team));
       Key "environment"; Key name] in
  let linux :=
    Cli.contains platform "linux"
    && negb (Cli.contains release "microsoft-standard") in
  environment "PUID" = Some (int (if linux then uid else 0))
  /\ environment "PGID" = Some (int (if linux then gid else 0))
  /\ (Cli.contains release "microsoft-standard" = true ->
      environment "PUID" = Some (int 0)
      /\ environment "PGID" = Some (int 0)).
Proof.
  intros Hin Hnop host environment linux.
  destruct (TopologyFacts.services_wireguard host config team Hin Hnop)
    as (team' & _ & _ & _ & Hsvc).
  assert (environment "PUID" = Some (int (if linux then uid else 0))
          /\ environment "PGID" = Some (int (if linux then gid else 0)))
    as [Hpuid Hpgid].
  { subst environment. cbv beta. split.
    - path_into_services. by path_key Hsvc.
    - path_into_services. by path_key Hsvc. }
  split_and!; [done..|].
  intros Hwsl. rewrite Hpuid, Hpgid. subst linux. rewrite Hwsl.
  by rewrite andb_false_r.
Qed.

Lemma vpn_user_of_the_machine_witness :
  Sample.team 1 false ∈ teams Sample.with_nop
  /\ nop (Sample.team 1 false) = false
  /\ py_path
       (compose_topology
          (host_of "linux" "5.15.90.1-microsoft-standard-WSL2" 1000 1000)
          Sample.with_nop)
       [Key "services"; Key "wireguard1"; Key "environment"; Key "PUID"]
     = Some (int 0)
  /\ py_path
       (compose_topology (host_of "linux" "6.8.0-45-generic" 1000 1000)
          Sample.with_nop)
       [Key "services"; Key "wireguard1"; Key "environment"; Key "PUID"]
     = Some (int 1000).
Proof.
  assert (Sample.team 1 false ∈ teams Sample.with_nop) as Hin
    by apply list_elem_of_further, list_elem_of_here.
  split_and!; [exact Hin | reflexivity | | ].
  - exact (proj1 (vpn_user_of_the_machine "linux"
                    "5.15.90.1-microsoft-standard-WSL2" 1000 1000
                    Sample.with_nop (Sample.team 1 false) Hin eq_refl)).
  - exact (proj1 (vpn_user_of_the_machine "linux" "6.8.0-45-generic"
                    1000 1000 Sample.with_nop (Sample.team 1 false) Hin
                    eq_refl)).
Defined.
